(** * petscXdmfGenerator: the specification extractor and the XDMF builder

    A shallow embedding of the extractor (the source that includes
    xdmfSpecification.hpp: field inference and the two [FromPetscHdf]
    overloads) and of the builder (xdmfBuilder.cpp: [Build] and the element
    writers), with the properties the design document states about them.
    Line numbers in the comments are those of the two sources. *)

From Stdlib Require Import ZArith NArith Floats Ascii String.
From stdpp Require Import base option list gmap strings pretty sorting.

Set Warnings "-register-all".
Local Open Scope N_scope.

(** ** Outcomes

    A call either returns or stops: with the [std::runtime_error] the
    extractor throws, with an access error of the container reader ([Get] or
    [Attribute] on something that is not there), or on behaviour C++ leaves
    undefined (an index past the end of a vector, [front] or [back] of an
    empty one, a null pointer dereferenced). *)

Inductive Error :=
  | RuntimeError (what : string)
  | ContainerError (what : string)
  | UndefinedBehaviour (what : string).

Inductive Result (A : Type) :=
  | Ok (a : A)
  | Err (e : Error).
Arguments Ok {A} a.
Arguments Err {A} e.

Definition bindR {A B} (r : Result A) (k : A → Result B) : Result B :=
  match r with
  | Ok a => k a
  | Err e => Err e
  end.

Notation "'let*' x ':=' r 'in' k" := (bindR r (λ x, k))
  (at level 10, x pattern, r at level 100, k at level 200).

(** [v[i]] on a [std::vector]: undefined past the end. *)
Definition at_index {A} (v : list A) (i : nat) : Result A :=
  match v !! i with
  | Some x => Ok x
  | None => Err (UndefinedBehaviour "vector index out of range")
  end.

(** [v.back()]: undefined on an empty vector. *)
Definition back {A} (v : list A) : Result A :=
  match last v with
  | Some x => Ok x
  | None => Err (UndefinedBehaviour "back of an empty vector")
  end.

(** [v.front()]: undefined on an empty vector. *)
Definition front {A} (v : list A) : Result A :=
  match v with
  | x :: _ => Ok x
  | [] => Err (UndefinedBehaviour "front of an empty vector")
  end.

(** ** The data model (xdmfSpecification.hpp) *)

Inductive FieldType := NONE | SCALAR | VECTOR | TENSOR | MATRIX.
Inductive FieldLocation := NODE | CELL.

#[global] Instance FieldType_eq_dec : EqDecision FieldType.
Proof. solve_decision. Defined.
#[global] Instance FieldLocation_eq_dec : EqDecision FieldLocation.
Proof. solve_decision. Defined.

Definition FieldType_code (t : FieldType) : nat :=
  match t with NONE => 0 | SCALAR => 1 | VECTOR => 2 | TENSOR => 3 | MATRIX => 4 end%nat.
Definition FieldType_of_code (n : nat) : option FieldType :=
  match n with
  | 0 => Some NONE | 1 => Some SCALAR | 2 => Some VECTOR
  | 3 => Some TENSOR | 4 => Some MATRIX | _ => None
  end%nat.
#[global] Instance FieldType_countable : Countable FieldType.
Proof.
  apply (inj_countable FieldType_code FieldType_of_code).
  by intros [].
Defined.

Module Location.
Record t := mk { path : string; file : string }.
End Location.

Module FieldDescription.
Record t := mk {
  name : string;
  location : Location.t;
  shape : list N;
  timeOffset : N;
  componentOffset : N;
  componentStride : N;
  componentDimension : N;
  fieldLocation : FieldLocation;
  fieldType : FieldType;
  hasTimeDimension : bool }.

Definition with_shape (s : list N) (d : t) : t :=
  mk (name d) (location d) s (timeOffset d) (componentOffset d) (componentStride d)
     (componentDimension d) (fieldLocation d) (fieldType d) (hasTimeDimension d).
Definition with_componentDimension (n : N) (d : t) : t :=
  mk (name d) (location d) (shape d) (timeOffset d) (componentOffset d) (componentStride d)
     n (fieldLocation d) (fieldType d) (hasTimeDimension d).
Definition with_fieldType (ft : FieldType) (d : t) : t :=
  mk (name d) (location d) (shape d) (timeOffset d) (componentOffset d) (componentStride d)
     (componentDimension d) (fieldLocation d) ft (hasTimeDimension d).

(** Modelled from the spec: the accessors are declared in
    xdmfSpecification.hpp, which is not among the sources.  The design
    document gives [GetDimension() ≡ componentDimension], and
    [HasTimeDimension()] reads the flag of the same name. *)
Definition GetDimension (d : t) : N := componentDimension d.
Definition HasTimeDimension (d : t) : bool := hasTimeDimension d.
End FieldDescription.

Module TopologyDescription.
Record t := mk {
  location : Location.t;
  number : N;
  numberCorners : N;
  dimension : N }.
End TopologyDescription.

Module GridDescription.
Record t := mk {
  time : float;
  geometry : FieldDescription.t;
  topology : TopologyDescription.t;
  hybridTopology : TopologyDescription.t;
  fields : list FieldDescription.t }.
End GridDescription.

Module GridCollectionDescription.
Record t := mk {
  name : string;
  grids : gmap N (list GridDescription.t) }.
End GridCollectionDescription.

(** [XdmfSpecification]: its one member, [gridsCollections]. *)
Abbreviation XdmfSpecification := (list GridCollectionDescription.t).

(** What the two headers declare and the sources only use.  [GetDof] is the
    number of entities a field is defined over; [Join] and [JoinVector] print
    numbers into one attribute string; [FieldDescription_init] and
    [TopologyDescription_init] are the values of default-constructed
    descriptions (the members the extractor never assigns keep them; an
    absent hybrid topology has [number == 0]), and
    [GridCollectionDescription_init_name] is the name a collection is
    constructed with.  [GenerateSpatialGrid_collectionType] is the default
    argument of [GenerateSpatialGrid]. *)
Class Declarations := {
  GetDof : FieldDescription.t → N;
  Join : list N → string;
  JoinVector : list N → string;
  JoinVector_double : list float → string;
  FieldDescription_init : FieldDescription.t;
  TopologyDescription_init : TopologyDescription.t;
  GridCollectionDescription_init_name : string;
  GenerateSpatialGrid_collectionType : string;
  TopologyDescription_init_number : TopologyDescription.number TopologyDescription_init = 0 }.

(** ** The container reader (hdfObject.hpp)

    Modelled from the spec: the reader is an external collaborator; the
    design document lists the operations the extractor requires of it.  A
    node has a name, a path, the shape of its array, attributes that hold a
    number or a string, the raw doubles of its array (read for "time" only)
    and its children in order. *)

Inductive AttributeValue :=
  | AttrInt (z : Z)
  | AttrString (s : string).

Inductive HdfObject :=
  HdfNode (name path : string) (shape : list N)
          (attributes : gmap string AttributeValue)
          (rawData : list float) (items : list HdfObject).

Module Hdf.
Definition Name (o : HdfObject) : string := let 'HdfNode n _ _ _ _ _ := o in n.
Definition Path (o : HdfObject) : string := let 'HdfNode _ p _ _ _ _ := o in p.
Definition Shape (o : HdfObject) : list N := let 'HdfNode _ _ s _ _ _ := o in s.
Definition attributes (o : HdfObject) : gmap string AttributeValue :=
  let 'HdfNode _ _ _ a _ _ := o in a.
Definition RawData (o : HdfObject) : list float := let 'HdfNode _ _ _ _ r _ := o in r.
Definition Items (o : HdfObject) : list HdfObject := let 'HdfNode _ _ _ _ _ c := o in c.

Definition child (o : HdfObject) (n : string) : option HdfObject :=
  List.find (λ c, bool_decide (Name c = n)) (Items o).
Definition Contains (o : HdfObject) (n : string) : bool :=
  bool_decide (is_Some (child o n)).
Definition Get (o : HdfObject) (n : string) : Result HdfObject :=
  match child o n with
  | Some c => Ok c
  | None => Err (ContainerError n)
  end.

Definition HasAttribute (o : HdfObject) (n : string) : bool :=
  bool_decide (is_Some (attributes o !! n)).
(** [Attribute<int>]: the stored number, when it is one an [int] holds. *)
Definition Attribute_int (o : HdfObject) (n : string) : Result Z :=
  match attributes o !! n with
  | Some (AttrInt z) =>
      if bool_decide (- 2 ^ 31 ≤ z < 2 ^ 31)%Z then Ok z else Err (ContainerError n)
  | _ => Err (ContainerError n)
  end.
(** [Attribute<unsigned long long>]. *)
Definition Attribute_ull (o : HdfObject) (n : string) : Result N :=
  match attributes o !! n with
  | Some (AttrInt z) =>
      if bool_decide (0 ≤ z < 2 ^ 64)%Z then Ok (Z.to_N z) else Err (ContainerError n)
  | _ => Err (ContainerError n)
  end.
Definition AttributeString (o : HdfObject) (n : string) : Result string :=
  match attributes o !! n with
  | Some (AttrString s) => Ok s
  | _ => Err (ContainerError n)
  end.
End Hdf.

(** [std::to_string] of an unsigned number. *)
Definition to_string (n : N) : string := pretty n.

(** A loop whose body may stop the call: [for (x : l) body]. *)
Fixpoint foldM {A S} (body : S → A → Result S) (s : S) (l : list A) : Result S :=
  match l with
  | [] => Ok s
  | x :: l' => let* s' := body s x in foldM body s' l'
  end.

(** The values [0, 1, ..., n-1] of a counting loop. *)
Definition range (n : N) : list N := N.of_nat <$> seq 0 (N.to_nat n).

(** ** Field inference (the extractor, GenerateFieldsFromPetsc) *)

Section Extractor.
Context {decl : Declarations}.

Definition petscTypeLookUpFromFieldType : gmap string FieldType :=
  list_to_map [("scalar", SCALAR); ("vector", VECTOR); ("tensor", TENSOR); ("matrix", MATRIX)].
Definition petscTypeLookUpFromNC : gmap Z FieldType :=
  list_to_map [(1, SCALAR); (2, VECTOR); (3, VECTOR)]%Z.

(** Lines 13-22: the provisional description of a raw field node. *)
Definition provisionalDescription (hdfField : HdfObject) (location : FieldLocation)
    (fileName : string) (timeOffset : N) : Result FieldDescription.t :=
  let* hasTime :=
    if Hdf.HasAttribute hdfField "timestepping"
    then let* t := Hdf.Attribute_int hdfField "timestepping" in Ok (bool_decide (0 < t)%Z)
    else Ok false in
  Ok (FieldDescription.mk (Hdf.Name hdfField)
        (Location.mk (Hdf.Path hdfField) fileName)
        (Hdf.Shape hdfField) timeOffset 0 1 0 location NONE hasTime).

(** Lines 24-54: the field type and whether the field is a packed one,
    [separateIntoComponents]. *)
Definition determineFieldType (hdfField : HdfObject) (location : FieldLocation)
    (description : FieldDescription.t) : Result (FieldDescription.t * bool) :=
  if Hdf.HasAttribute hdfField "vector_field_type" then
    let* vector_field_type := Hdf.AttributeString hdfField "vector_field_type" in
    match petscTypeLookUpFromFieldType !! vector_field_type with
    | Some ft =>
        let rank := length (FieldDescription.shape description) in
        let hasTime := FieldDescription.HasTimeDimension description in
        if (bool_decide (ft = VECTOR) && bool_decide (rank < 3)%nat
              && bool_decide (location = CELL) && hasTime)
           || (bool_decide (ft = VECTOR) && bool_decide (rank < 2)%nat
                 && bool_decide (location = CELL) && negb hasTime)
        then Ok (FieldDescription.with_fieldType SCALAR description, false)
        else Ok (FieldDescription.with_fieldType ft description, false)
    | None => Ok (FieldDescription.with_fieldType NONE description, false)
    end
  else if Hdf.HasAttribute hdfField "Nc" then
    let* nc := Hdf.Attribute_int hdfField "Nc" in
    match petscTypeLookUpFromNC !! nc with
    | Some ft => Ok (FieldDescription.with_fieldType ft description, false)
    | None =>
        if bool_decide (nc ≠ 0%Z)
        then Ok (FieldDescription.with_fieldType VECTOR description, true)
        else Ok (FieldDescription.with_fieldType NONE description, false)
    end
  else Err (RuntimeError ("Cannot determine field type for " +:+ FieldDescription.name description)).

(** Lines 56-64: a scalar stored without its component axis gets the axis
    back; a scalar of rank three or more is a packed field. *)
Definition restoreScalarAxis (description : FieldDescription.t) (separateIntoComponents : bool)
    : FieldDescription.t * bool :=
  if bool_decide (FieldDescription.fieldType description = SCALAR) then
    if bool_decide (length (FieldDescription.shape description) < 3)%nat
    then (FieldDescription.with_shape (FieldDescription.shape description ++ [1]) description,
          separateIntoComponents)
    else (description, true)
  else (description, separateIntoComponents).

(** Line 67: the component dimension, read from the shape. *)
Definition determineDimension (description : FieldDescription.t) : Result FieldDescription.t :=
  let shape := FieldDescription.shape description in
  let* d := if bool_decide (2 < length shape)%nat then at_index shape 2 else at_index shape 1 in
  Ok (FieldDescription.with_componentDimension d description).

(** Lines 13-67 together. *)
Definition inferField (hdfField : HdfObject) (location : FieldLocation)
    (fileName : string) (timeOffset : N) : Result (FieldDescription.t * bool) :=
  let* description := provisionalDescription hdfField location fileName timeOffset in
  let* (description, separateIntoComponents) := determineFieldType hdfField location description in
  let '(description, separateIntoComponents) := restoreScalarAxis description separateIntoComponents in
  let* description := determineDimension description in
  Ok (description, separateIntoComponents).

(** Lines 73-91: the description of component [c] of a packed field. *)
Definition componentFieldDescription (hdfField : HdfObject)
    (description : FieldDescription.t) (c : N) : Result FieldDescription.t :=
  let attributeName := "componentName" +:+ to_string c in
  let* componentName :=
    if Hdf.HasAttribute hdfField attributeName
    then let* hdfComponentName := Hdf.AttributeString hdfField attributeName in
         Ok (FieldDescription.name description +:+ "_" +:+ hdfComponentName)
    else Ok (FieldDescription.name description +:+ to_string c) in
  Ok (FieldDescription.mk componentName
        (FieldDescription.location description)
        (FieldDescription.shape description)
        (FieldDescription.timeOffset description)
        c
        (FieldDescription.GetDimension description)
        1
        (FieldDescription.fieldLocation description)
        SCALAR
        (FieldDescription.hasTimeDimension description)).

(** Lines 70-98: what one node appends to [fields]. *)
Definition emitField (fields : list FieldDescription.t) (hdfField : HdfObject)
    (description : FieldDescription.t) (separateIntoComponents : bool)
    : Result (list FieldDescription.t) :=
  if bool_decide (FieldDescription.fieldType description ≠ NONE) then
    if separateIntoComponents then
      foldM (λ fields c,
               let* component := componentFieldDescription hdfField description c in
               Ok (fields ++ [component]))
            fields (range (FieldDescription.GetDimension description))
    else Ok (fields ++ [description])
  else Ok fields.

(** The body of the loop over [hdfFields]. *)
Definition GenerateFieldFromPetsc (fields : list FieldDescription.t) (hdfField : HdfObject)
    (location : FieldLocation) (fileName : string) (timeOffset : N)
    : Result (list FieldDescription.t) :=
  let* (description, separateIntoComponents) := inferField hdfField location fileName timeOffset in
  emitField fields hdfField description separateIntoComponents.

Definition GenerateFieldsFromPetsc (fields : list FieldDescription.t) (hdfFields : list HdfObject)
    (location : FieldLocation) (fileName : string) (timeOffset : N)
    : Result (list FieldDescription.t) :=
  foldM (λ fields hdfField, GenerateFieldFromPetsc fields hdfField location fileName timeOffset)
        fields hdfFields.

(** ** The extractors (FromPetscHdf, one root and a consumer of roots) *)

(** Modelled from the spec: [GetTopologyPostfix] is declared in the header;
    the design document has topology children unsuffixed for index 0 and
    suffixed "_1", "_2", ... from index 1 on. *)
Definition GetTopologyPostfix (topologyIndex : N) : string :=
  if bool_decide (topologyIndex = 0) then "" else "_" +:+ to_string topologyIndex.

(** Lines 346-354; [None] is the null pointer. *)
Definition FindPetscHdfChild (root : HdfObject) (name : string) : Result (option HdfObject) :=
  if Hdf.Contains root "viz" then
    let* viz := Hdf.Get root "viz" in
    if Hdf.Contains viz name then
      let* found := Hdf.Get viz name in Ok (Some found)
    else if Hdf.Contains root name then
      let* found := Hdf.Get root name in Ok (Some found)
    else Ok None
  else if Hdf.Contains root name then
    let* found := Hdf.Get root name in Ok (Some found)
  else Ok None.

(** [grids[timeIndex].push_back(gridDescription)]: [operator[]] makes the
    entry, an empty vector, when the key is new. *)
Definition push_back_at (grids : gmap N (list GridDescription.t)) (timeIndex : N)
    (gridDescription : GridDescription.t) : gmap N (list GridDescription.t) :=
  <[timeIndex := default [] (grids !! timeIndex) ++ [gridDescription]]> grids.

(** [root->Contains("time") ? root->Get("time")->RawData<double>() : {-1}]. *)
Definition timeOf (root : HdfObject) : Result (list float) :=
  if Hdf.Contains root "time"
  then let* t := Hdf.Get root "time" in Ok (Hdf.RawData t)
  else Ok [(-1)%float].

(** Lines 127-129 (and 187-189, 252-254, 315-318): a geometry stored as an
    array of its own. *)
Definition storeGeometry (verticesObject : HdfObject) (hdf5File : string)
    (geometry : FieldDescription.t) : Result FieldDescription.t :=
  let shape := Hdf.Shape verticesObject in
  let* d := if bool_decide (2 < length shape)%nat then at_index shape 2 else back shape in
  Ok (FieldDescription.mk (Hdf.Name verticesObject)
        (Location.mk (Hdf.Path verticesObject) hdf5File)
        shape
        (FieldDescription.timeOffset geometry)
        (FieldDescription.componentOffset geometry)
        (FieldDescription.componentStride geometry)
        d NODE VECTOR
        (FieldDescription.hasTimeDimension geometry)).

(** Lines 132-139 (and 257-264). *)
Definition storeTopology (topologyObject : HdfObject) (hdf5File : string)
    : Result TopologyDescription.t :=
  let* cellObject := Hdf.Get topologyObject "cells" in
  let* number := at_index (Hdf.Shape cellObject) 0 in
  let* numberCorners := at_index (Hdf.Shape cellObject) 1 in
  let* dimension := Hdf.Attribute_ull cellObject "cell_dim" in
  Ok (TopologyDescription.mk (Location.mk (Hdf.Path cellObject) hdf5File)
        number numberCorners dimension).

(** Lines 141-148 (and 266-273): the "hybrid_topology" group is looked up,
    and "hcells" is then read from [topologyObject]. *)
Definition storeHybridTopology (root topologyObject : HdfObject) (hdf5File : string)
    (hybridTopology : TopologyDescription.t) : Result TopologyDescription.t :=
  let* hybridTopologyObject := FindPetscHdfChild root "hybrid_topology" in
  match hybridTopologyObject with
  | Some _ =>
      let* cellObject := Hdf.Get topologyObject "hcells" in
      let* number := at_index (Hdf.Shape cellObject) 0 in
      let* numberCorners := at_index (Hdf.Shape cellObject) 1 in
      Ok (TopologyDescription.mk (Location.mk (Hdf.Path cellObject) hdf5File)
            number numberCorners (TopologyDescription.dimension hybridTopology))
  | None => Ok hybridTopology
  end.

(** [if (root->Contains(group)) GenerateFieldsFromPetsc(fields, root->Get(group)->Items(), ...)]. *)
Definition fieldsOfGroup (fields : list FieldDescription.t) (root : HdfObject) (group : string)
    (location : FieldLocation) (hdf5File : string) (timeOffset : N)
    : Result (list FieldDescription.t) :=
  if Hdf.Contains root group then
    let* g := Hdf.Get root group in
    GenerateFieldsFromPetsc fields (Hdf.Items g) location hdf5File timeOffset
  else Ok fields.

(** [std::find_if] for the first field with the given name, and [erase] of it. *)
Fixpoint find_and_erase (name : string) (fields : list FieldDescription.t)
    : option (FieldDescription.t * list FieldDescription.t) :=
  match fields with
  | [] => None
  | f :: rest =>
      if bool_decide (FieldDescription.name f = name) then Some (f, rest)
      else match find_and_erase name rest with
           | Some (g, rest') => Some (g, f :: rest')
           | None => None
           end
  end.

(** The mesh grid of one topology at one time (lines 122-156, 247-281).
    [postfix] names the field groups and [timeOffset] is handed to the field
    inference. *)
Definition meshGrid (root geometryObject topologyObject : HdfObject) (hdf5File : string)
    (time : float) (postfix : string) (timeOffset : N) : Result GridDescription.t :=
  let* verticesObject := Hdf.Get geometryObject "vertices" in
  let* geometry := storeGeometry verticesObject hdf5File FieldDescription_init in
  let* topology := storeTopology topologyObject hdf5File in
  let* hybridTopology := storeHybridTopology root topologyObject hdf5File TopologyDescription_init in
  let* fields := fieldsOfGroup [] root ("vertex_fields" +:+ postfix) NODE hdf5File timeOffset in
  let* fields := fieldsOfGroup fields root ("cell_fields" +:+ postfix) CELL hdf5File timeOffset in
  Ok (GridDescription.mk time geometry topology hybridTopology fields).

(** The particle grid at one time (lines 176-206, 304-335). *)
Definition particleGrid (root : HdfObject) (hdf5File : string) (time : float) (timeOffset : N)
    : Result GridDescription.t :=
  let* fields := fieldsOfGroup [] root "particle_fields" NODE hdf5File timeOffset in
  let* (geometry, fields) :=
    if Hdf.Contains root "particles" then
      let* particles := Hdf.Get root "particles" in
      let* geometryObjectLocal := Hdf.Get particles "coordinates" in
      let* geometry := storeGeometry geometryObjectLocal hdf5File FieldDescription_init in
      Ok (geometry, fields)
    else
      match find_and_erase "DMSwarmPIC_coor" fields with
      | Some found => Ok found
      | None => Err (RuntimeError "Cannot determine geometry for particles")
      end in
  let topology :=
    TopologyDescription.mk (Location.mk "" hdf5File) (GetDof geometry) 0
      (FieldDescription.GetDimension geometry) in
  Ok (GridDescription.mk time geometry topology TopologyDescription_init fields).

(** [while (auto topologyObject = FindPetscHdfChild(root, "topology" + GetTopologyPostfix(topologyIndex)))]:
    the loop ends at the first index with no topology group.  [fuel] bounds
    the number of rounds; [topologyFuel], one more than the root and its
    "viz" group have children, is more than the loop can make (lemma
    [whileTopology_enough_fuel]). *)
Fixpoint whileTopology {S} (fuel : nat) (root : HdfObject) (topologyIndex : N)
    (body : HdfObject → N → S → Result S) (s : S) : Result S :=
  match fuel with
  | O => Err (UndefinedBehaviour "topology index out of range")
  | Datatypes.S fuel' =>
      let* topologyObject := FindPetscHdfChild root ("topology" +:+ GetTopologyPostfix topologyIndex) in
      match topologyObject with
      | Some topologyObject =>
          let* s' := body topologyObject topologyIndex s in
          whileTopology fuel' root (topologyIndex + 1) body s'
      | None => Ok s
      end
  end.

Definition topologyFuel (root : HdfObject) : nat :=
  Datatypes.S (length (Hdf.Items root)
               + match Hdf.child root "viz" with Some viz => length (Hdf.Items viz) | None => 0 end).

(** [for (timeIndex = 0; timeIndex < time.size(); timeIndex++)]. *)
Definition forTime {S} (time : list float) (body : N → float → S → Result S) (s : S) : Result S :=
  foldM (λ s it, body (N.of_nat it.1) it.2 s) s (imap (λ i t, (i, t)) time).

(** Lines 102-216: one root. *)
Definition FromPetscHdf (rootObject : HdfObject) : Result XdmfSpecification :=
  let hdf5File := Hdf.Name rootObject in
  let specification : XdmfSpecification := [] in
  let* geometryObject := FindPetscHdfChild rootObject "geometry" in
  let* specification :=
    match geometryObject with
    | Some geometryObject =>
        let mainGrid := GridCollectionDescription.mk GridCollectionDescription_init_name ∅ in
        let* mainGrid :=
          whileTopology (topologyFuel rootObject) rootObject 0
            (λ topologyObject topologyIndex mainGrid,
               let* time := timeOf rootObject in
               forTime time
                 (λ timeIndex t mainGrid,
                    let* gridDescription :=
                      meshGrid rootObject geometryObject topologyObject hdf5File t
                        (GetTopologyPostfix topologyIndex) timeIndex in
                    Ok (GridCollectionDescription.mk (GridCollectionDescription.name mainGrid)
                          (push_back_at (GridCollectionDescription.grids mainGrid)
                             timeIndex gridDescription)))
                 mainGrid)
            mainGrid in
        Ok (specification ++ [mainGrid])
    | None => Ok specification
    end in
  if Hdf.Contains rootObject "particles" || Hdf.Contains rootObject "particle_fields" then
    let particleGrid0 := GridCollectionDescription.mk "particle_domain" ∅ in
    let* time := timeOf rootObject in
    let* particleGrid1 :=
      forTime time
        (λ timeIndex t particles,
           let* gridDescription := particleGrid rootObject hdf5File t timeIndex in
           Ok (GridCollectionDescription.mk (GridCollectionDescription.name particles)
                 (push_back_at (GridCollectionDescription.grids particles)
                    timeIndex gridDescription)))
        particleGrid0 in
    Ok (specification ++ [particleGrid1])
  else Ok specification.

(** [if (gridsCollections.empty()) gridsCollections.emplace_back();]. *)
Definition ensureCollection (gridsCollections : XdmfSpecification) : XdmfSpecification :=
  match gridsCollections with
  | [] => [GridCollectionDescription.mk GridCollectionDescription_init_name ∅]
  | _ => gridsCollections
  end.

(** A write through [auto& gridsCollection = gridsCollections.back()]. *)
Definition updateBack (f : GridCollectionDescription.t → GridCollectionDescription.t)
    (gridsCollections : XdmfSpecification) : XdmfSpecification :=
  alter f (pred (length gridsCollections)) gridsCollections.

Definition pushGrid (timeIndexCount : N) (gridDescription : GridDescription.t)
    (gridsCollection : GridCollectionDescription.t) : GridCollectionDescription.t :=
  GridCollectionDescription.mk (GridCollectionDescription.name gridsCollection)
    (push_back_at (GridCollectionDescription.grids gridsCollection) timeIndexCount gridDescription).

Definition setName (name : string) (gridsCollection : GridCollectionDescription.t)
    : GridCollectionDescription.t :=
  GridCollectionDescription.mk name (GridCollectionDescription.grids gridsCollection).

(** Lines 226-341: the body of the loop over the roots the consumer hands
    out, on the specification's collections and [timeIndexCount]. *)
Definition consumeRoot (state : XdmfSpecification * N) (hdf5Object : HdfObject)
    : Result (XdmfSpecification * N) :=
  let '(gridsCollections, timeIndexCount) := state in
  let* geometryObject := FindPetscHdfChild hdf5Object "geometry" in
  let* gridsCollections :=
    match geometryObject with
    | Some geometryObject =>
        let gridsCollections := ensureCollection gridsCollections in
        whileTopology (topologyFuel hdf5Object) hdf5Object 0
          (λ topologyObject topologyIndex gridsCollections,
             let hdf5File := Hdf.Name hdf5Object in
             let* time := timeOf hdf5Object in
             let* time0 := at_index time 0 in
             let* gridDescription :=
               meshGrid hdf5Object geometryObject topologyObject hdf5File time0 "" 0 in
             Ok (updateBack (pushGrid timeIndexCount gridDescription) gridsCollections))
          gridsCollections
    | None => Ok gridsCollections
    end in
  let* gridsCollections :=
    if Hdf.Contains hdf5Object "particles" || Hdf.Contains hdf5Object "particle_fields" then
      let gridsCollections := ensureCollection gridsCollections in
      let gridsCollections := updateBack (setName "particle_domain") gridsCollections in
      let hdf5File := Hdf.Name hdf5Object in
      let* time := timeOf hdf5Object in
      foldM (λ gridsCollections timeIndex,
               let* gridDescription := particleGrid hdf5Object hdf5File timeIndex 0 in
               Ok (updateBack (pushGrid timeIndexCount gridDescription) gridsCollections))
            gridsCollections time
    else Ok gridsCollections in
  Ok (gridsCollections, timeIndexCount + 1).

(** The consumer overload.  The consumer is the sequence of roots it hands
    out before it returns the null pointer.  [consumeRoots] keeps the final
    value of [timeIndexCount] beside the specification. *)
Definition consumeRoots (consumer : list HdfObject) : Result (XdmfSpecification * N) :=
  foldM consumeRoot ([], 0) consumer.

Definition FromPetscHdf_consumer (consumer : list HdfObject) : Result XdmfSpecification :=
  let* (specification, _) := consumeRoots consumer in
  Ok specification.

End Extractor.

(** ** The XML tree (xmlElement.hpp)

    Modelled from the spec: the XML tree is a thin builder with no decision
    logic, outside the sources.  An element has a name, a preamble (the
    document root only), attributes, a text value and children in order.
    [element[name]] appends a new child and refers to it, [element(name)]
    refers to an attribute and [element()] to the value.  The document is one
    tree and a reference to an element is its path from the root. *)

Inductive XmlElement :=
  XmlNode (name preamble : string) (attributes : gmap string string)
          (value : string) (children : list XmlElement).

Module Xml.
Definition name (e : XmlElement) : string := let 'XmlNode n _ _ _ _ := e in n.
Definition preamble (e : XmlElement) : string := let 'XmlNode _ p _ _ _ := e in p.
Definition attributes (e : XmlElement) : gmap string string := let 'XmlNode _ _ a _ _ := e in a.
Definition value (e : XmlElement) : string := let 'XmlNode _ _ _ v _ := e in v.
Definition children (e : XmlElement) : list XmlElement := let 'XmlNode _ _ _ _ c := e in c.

Abbreviation Ref := (list nat).

Fixpoint elementAt (r : Ref) (e : XmlElement) : option XmlElement :=
  match r with
  | [] => Some e
  | i :: r' =>
      match children e !! i with
      | Some c => elementAt r' c
      | None => None
      end
  end.

Fixpoint alterAt (r : Ref) (f : XmlElement → XmlElement) (e : XmlElement) : XmlElement :=
  match r with
  | [] => f e
  | i :: r' =>
      let 'XmlNode n p a v cs := e in
      XmlNode n p a v (alter (alterAt r' f) i cs)
  end.

Definition addChild (c : XmlElement) (e : XmlElement) : XmlElement :=
  let 'XmlNode n p a v cs := e in XmlNode n p a v (cs ++ [c]).
Definition putAttribute (k x : string) (e : XmlElement) : XmlElement :=
  let 'XmlNode n p a v cs := e in XmlNode n p (<[k := x]> a) v cs.
Definition putValue (x : string) (e : XmlElement) : XmlElement :=
  let 'XmlNode n p a v cs := e in XmlNode n p a x cs.
End Xml.

(** ** The builder (xdmfBuilder.cpp)

    The builder works on its specification, on the document it makes, and on
    the two file-level tables it indexes with [operator[]], which makes the
    entry when the key is new. *)

Record BuilderState := mkBuilderState {
  specification : XdmfSpecification;
  document : XmlElement;
  cellMap : gmap N (gmap N string);
  typeMap : gmap FieldType string }.

Definition Builder (A : Type) : Type := BuilderState → Result (A * BuilderState).

Definition ret {A} (a : A) : Builder A := λ st, Ok (a, st).
Definition bindB {A B} (m : Builder A) (k : A → Builder B) : Builder B :=
  λ st, match m st with
        | Ok (a, st') => k a st'
        | Err e => Err e
        end.
Definition liftR {A} (r : Result A) : Builder A :=
  λ st, match r with Ok a => Ok (a, st) | Err e => Err e end.

Notation "'let+' x ':=' m 'in' k" := (bindB m (λ x, k))
  (at level 10, x pattern, m at level 100, k at level 200).
Notation "m ';;' k" := (bindB m (λ _, k))
  (at level 100, k at level 200, right associativity).

Fixpoint forEach {A} (l : list A) (body : A → Builder unit) : Builder unit :=
  match l with
  | [] => ret tt
  | x :: l' => body x ;; forEach l' body
  end.

Fixpoint mapB {A B} (f : A → Builder B) (l : list A) : Builder (list B) :=
  match l with
  | [] => ret []
  | x :: l' => let+ y := f x in let+ ys := mapB f l' in ret (y :: ys)
  end.

(** [element[name]]. *)
Definition newChild (element : Xml.Ref) (name : string) : Builder Xml.Ref :=
  λ st,
    match Xml.elementAt element (document st) with
    | Some e =>
        Ok (element ++ [length (Xml.children e)],
            mkBuilderState (specification st)
              (Xml.alterAt element (Xml.addChild (XmlNode name "" ∅ "" [])) (document st))
              (cellMap st) (typeMap st))
    | None => Err (UndefinedBehaviour "dangling element reference")
    end.

Definition onElement (element : Xml.Ref) (f : XmlElement → XmlElement) : Builder unit :=
  λ st,
    match Xml.elementAt element (document st) with
    | Some _ =>
        Ok (tt, mkBuilderState (specification st) (Xml.alterAt element f (document st))
                  (cellMap st) (typeMap st))
    | None => Err (UndefinedBehaviour "dangling element reference")
    end.

(** [element(name) = x]. *)
Definition setAttribute (element : Xml.Ref) (name x : string) : Builder unit :=
  onElement element (Xml.putAttribute name x).
(** [element() = x]. *)
Definition setValue (element : Xml.Ref) (x : string) : Builder unit :=
  onElement element (Xml.putValue x).

Definition DataItem : string := "DataItem".
Definition Grid : string := "Grid".

Definition cellMap_init : gmap N (gmap N string) :=
  list_to_map
    [(1, list_to_map [(0, "Polyvertex"); (1, "Polyvertex"); (2, "Polyline")]);
     (2, list_to_map [(0, "Polyvertex"); (2, "Polyline"); (3, "Triangle"); (4, "Quadrilateral")]);
     (3, list_to_map [(0, "Polyvertex"); (4, "Tetrahedron"); (6, "Wedge"); (8, "Hexahedron")])].

Definition nodesPerCell : gmap N (gmap N Z) :=
  list_to_map
    [(1, list_to_map [(0, (-1)%Z); (2, 2%Z)]);
     (2, list_to_map [(0, (-1)%Z); (2, 2%Z)]);
     (3, list_to_map [(0, (-1)%Z)])].

Definition typeMap_init : gmap FieldType string :=
  list_to_map [(SCALAR, "Scalar"); (VECTOR, "Vector"); (TENSOR, "Tensor6"); (MATRIX, "Matrix")].

(** [locationMap]: both locations are keys, so indexing it never adds one. *)
Definition locationMap (l : FieldLocation) : string :=
  match l with NODE => "Node" | CELL => "Cell" end.

(** [cellMap[dimension][numberCorners]]. *)
Definition cellMap_index (dimension numberCorners : N) : Builder string :=
  λ st,
    let row := default ∅ (cellMap st !! dimension) in
    let cell := default "" (row !! numberCorners) in
    Ok (cell,
        mkBuilderState (specification st) (document st)
          (<[dimension := <[numberCorners := cell]> row]> (cellMap st)) (typeMap st)).

(** [typeMap[fieldType]]. *)
Definition typeMap_index (fieldType : FieldType) : Builder string :=
  λ st,
    let label := default "" (typeMap st !! fieldType) in
    Ok (label,
        mkBuilderState (specification st) (document st) (cellMap st)
          (<[fieldType := label]> (typeMap st))).

(** Lines 217-220. *)
Fixpoint Hdf5PathToName (hdf5Path : string) : string :=
  match hdf5Path with
  | EmptyString => EmptyString
  | String c rest => String (if bool_decide (c = "/"%char) then "_"%char else c) (Hdf5PathToName rest)
  end.

(** The collection the loop of [Build] is at, [xdmfGridCollection]: a
    reference into [specification->gridsCollections]. *)
Definition collectionAt (i : nat) : Builder GridCollectionDescription.t :=
  λ st,
    match specification st !! i with
    | Some c => Ok (c, st)
    | None => Err (UndefinedBehaviour "collection index out of range")
    end.

(** [xdmfGridCollection.grids[timeIndex]] on the map of the specification
    itself: a new key gets an empty vector. *)
Definition grids_index (i : nat) (timeIndex : N) : Builder (list GridDescription.t) :=
  λ st,
    match specification st !! i with
    | Some c =>
        let grids := default [] (GridCollectionDescription.grids c !! timeIndex) in
        Ok (grids,
            mkBuilderState
              (<[i := GridCollectionDescription.mk (GridCollectionDescription.name c)
                        (<[timeIndex := grids]> (GridCollectionDescription.grids c))]>
                 (specification st))
              (document st) (cellMap st) (typeMap st))
    | None => Err (UndefinedBehaviour "collection index out of range")
    end.

Section XdmfBuilder.
Context {decl : Declarations}.

(** Lines 172-206. *)
Definition WriteData (element : Xml.Ref) (fieldDescription : FieldDescription.t)
    : Builder Xml.Ref :=
  let address :=
    Location.file (FieldDescription.location fieldDescription) +:+ ":"
      +:+ Location.path (FieldDescription.location fieldDescription) in
  if FieldDescription.HasTimeDimension fieldDescription then
    let+ dataItem := newChild element DataItem in
    setAttribute dataItem "ItemType" "HyperSlab" ;;
    setAttribute dataItem "Dimensions"
      (Join [1; GetDof fieldDescription; FieldDescription.GetDimension fieldDescription]) ;;
    setAttribute dataItem "Type" "HyperSlab" ;;
    (let+ dataItemItem := newChild dataItem DataItem in
     setAttribute dataItemItem "Dimensions" (Join [3; 3]) ;;
     setAttribute dataItemItem "Format" "XML" ;;
     setValue dataItemItem
       (Join [FieldDescription.timeOffset fieldDescription; 0;
              FieldDescription.componentOffset fieldDescription]
        +:+ " " +:+ Join [1; 1; FieldDescription.componentStride fieldDescription]
        +:+ " " +:+ Join [1; GetDof fieldDescription;
                          FieldDescription.GetDimension fieldDescription])) ;;
    (let+ dataItemItem := newChild dataItem DataItem in
     setAttribute dataItemItem "DataType" "Float" ;;
     setAttribute dataItemItem "Dimensions" (JoinVector (FieldDescription.shape fieldDescription)) ;;
     setAttribute dataItemItem "Format" "HDF" ;;
     setAttribute dataItemItem "Precision" "8" ;;
     setValue dataItemItem address) ;;
    ret dataItem
  else
    let+ dataItemItem := newChild element DataItem in
    setAttribute dataItemItem "Name"
      (Hdf5PathToName (Location.path (FieldDescription.location fieldDescription))) ;;
    setAttribute dataItemItem "DataType" "Float" ;;
    setAttribute dataItemItem "Dimensions" (JoinVector (FieldDescription.shape fieldDescription)) ;;
    setAttribute dataItemItem "Format" "HDF" ;;
    setAttribute dataItemItem "Precision" "8" ;;
    setValue dataItemItem address ;;
    ret dataItemItem.

(** Lines 93-103. *)
Definition WriteCells (element : Xml.Ref) (topologyDescription : TopologyDescription.t)
    : Builder unit :=
  let location := TopologyDescription.location topologyDescription in
  let+ dataItem := newChild element DataItem in
  setAttribute dataItem "Name" (Hdf5PathToName (Location.path location)) ;;
  setAttribute dataItem "ItemType" "Uniform" ;;
  setAttribute dataItem "Format" "HDF" ;;
  setAttribute dataItem "Precision" "8" ;;
  setAttribute dataItem "NumberType" "Float" ;;
  setAttribute dataItem "Dimensions"
    (to_string (TopologyDescription.number topologyDescription) +:+ " "
       +:+ to_string (TopologyDescription.numberCorners topologyDescription)) ;;
  setValue dataItem (Location.file location +:+ ":" +:+ Location.path location).

(** Lines 105-108. *)
Definition WriteVertices (element : Xml.Ref) (geometryDescription : FieldDescription.t)
    : Builder unit :=
  WriteData element geometryDescription ;; ret tt.

(** Lines 110-126. *)
Definition GenerateTimeGrid (element : Xml.Ref) (time : list float) : Builder Xml.Ref :=
  let+ gridItem := newChild element Grid in
  setAttribute gridItem "Name" "TimeSeries" ;;
  setAttribute gridItem "GridType" "Collection" ;;
  setAttribute gridItem "CollectionType" "Temporal" ;;
  let+ timeElement := newChild gridItem "Time" in
  setAttribute timeElement "TimeType" "List" ;;
  let+ dataItem := newChild timeElement DataItem in
  setAttribute dataItem "Format" "XML" ;;
  setAttribute dataItem "NumberType" "Float" ;;
  setAttribute dataItem "Dimensions" (to_string (N.of_nat (length time))) ;;
  setValue dataItem (JoinVector_double time) ;;
  ret gridItem.

(** Lines 128-136. *)
Definition GenerateSpatialGrid (element : Xml.Ref) (domainName collectionType : string)
    : Builder Xml.Ref :=
  let+ hybridGridItem := newChild element Grid in
  setAttribute hybridGridItem "Name" domainName ;;
  setAttribute hybridGridItem "GridType" "Collection" ;;
  (if bool_decide (collectionType ≠ "")
   then setAttribute hybridGridItem "CollectionType" collectionType
   else ret tt) ;;
  ret hybridGridItem.

(** Lines 138-170. *)
Definition GenerateSpaceGrid (element : Xml.Ref) (topologyDescription : TopologyDescription.t)
    (geometryDescription : FieldDescription.t) (domainName : string) : Builder Xml.Ref :=
  let dimension := TopologyDescription.dimension topologyDescription in
  let numberCorners := TopologyDescription.numberCorners topologyDescription in
  let number := TopologyDescription.number topologyDescription in
  let+ gridItem := newChild element Grid in
  setAttribute gridItem "Name" domainName ;;
  setAttribute gridItem "GridType" "Uniform" ;;
  (let+ topology := newChild gridItem "Topology" in
   let+ cellType := cellMap_index dimension numberCorners in
   setAttribute topology "TopologyType" cellType ;;
   match nodesPerCell !! dimension ≫= (.!! numberCorners) with
   | Some nodesPerCellValue =>
       if bool_decide (nodesPerCellValue < 0)%Z
       then setAttribute topology "NodesPerElement" (to_string number)
       else setAttribute topology "NodesPerElement" (to_string (Z.to_N nodesPerCellValue))
   | None => ret tt
   end ;;
   if bool_decide (numberCorners ≠ 0)
   then setAttribute topology "NumberOfElements" (to_string number) ;;
        WriteCells topology topologyDescription
   else ret tt) ;;
  let+ geometry := newChild gridItem "Geometry" in
  setAttribute geometry "GeometryType"
    (if bool_decide (2 < FieldDescription.GetDimension geometryDescription) then "XYZ" else "XY") ;;
  WriteVertices geometry geometryDescription ;;
  ret gridItem.

(** Lines 208-215. *)
Definition WriteField (element : Xml.Ref) (fieldDescription : FieldDescription.t) : Builder unit :=
  let+ attribute := newChild element "Attribute" in
  setAttribute attribute "Name" (FieldDescription.name fieldDescription) ;;
  (let+ label := typeMap_index (FieldDescription.fieldType fieldDescription) in
   setAttribute attribute "Type" label) ;;
  setAttribute attribute "Center" (locationMap (FieldDescription.fieldLocation fieldDescription)) ;;
  WriteData attribute fieldDescription ;;
  ret tt.

Definition quote : string := String (ascii_of_nat 34) EmptyString.
Definition newline : string := String (ascii_of_nat 10) EmptyString.

Definition preamble : string :=
  "<?xml version=" +:+ quote +:+ "1.0" +:+ quote +:+ " ?>" +:+ newline
  +:+ "<!DOCTYPE Xdmf SYSTEM " +:+ quote +:+ "Xdmf.dtd" +:+ quote +:+ " []>".

(** [grids[timeIndex].front().time]. *)
Definition frontTime (i : nat) (timeIndex : N) : Builder float :=
  let+ grids := grids_index i timeIndex in
  let+ grid := liftR (front grids) in
  ret (GridDescription.time grid).

(** Lines 73-86: one grid of a time index. *)
Definition buildGrid (sharedBaseGrid : Xml.Ref) (name : string) (grid : GridDescription.t)
    : Builder unit :=
  let hybrid := bool_decide (0 < TopologyDescription.number (GridDescription.hybridTopology grid)) in
  let+ timeIndexBase :=
    if hybrid
    then GenerateSpatialGrid sharedBaseGrid name GenerateSpatialGrid_collectionType
    else ret sharedBaseGrid in
  (if hybrid
   then GenerateSpaceGrid timeIndexBase (GridDescription.hybridTopology grid)
          (GridDescription.geometry grid) name ;; ret tt
   else ret tt) ;;
  let+ spaceGrid :=
    GenerateSpaceGrid timeIndexBase (GridDescription.topology grid)
      (GridDescription.geometry grid) name in
  forEach (GridDescription.fields grid) (WriteField spaceGrid).

(** Lines 45-87: the body of the loop over the collections; [i] is the
    place of [xdmfGridCollection] in the specification. *)
Definition buildCollection (domainElement : Xml.Ref) (i : nat) : Builder unit :=
  let+ xdmfGridCollection := collectionAt i in
  let grids := GridCollectionDescription.grids xdmfGridCollection in
  let name := GridCollectionDescription.name xdmfGridCollection in
  let timeIndexes := merge_sort N.le (map_to_list grids).*1 in
  let+ useTime :=
    if bool_decide (grids = ∅) then ret false
    else match timeIndexes with
         | [] => ret false
         | timeIndex0 :: _ =>
             let+ t := frontTime i timeIndex0 in
             ret (negb (t <? 0)%float)
         end in
  let+ timeVector := mapB (frontTime i) timeIndexes in
  let+ gridBase :=
    if useTime then GenerateTimeGrid domainElement timeVector else ret domainElement in
  forEach (range (N.of_nat (length timeVector)))
    (λ timeIndex,
       let+ grids := grids_index i timeIndex in
       let+ sharedBaseGrid :=
         if bool_decide (1 < length grids)%nat
         then GenerateSpatialGrid gridBase name "Spatial"
         else ret gridBase in
       forEach grids (buildGrid sharedBaseGrid name)).

(** Lines 30-91.  The document made is the one the final state holds. *)
Definition Build : Builder unit :=
  λ st,
    (let documentRef : Xml.Ref := [] in
     let+ domainElement := newChild documentRef "Domain" in
     setAttribute domainElement "Name" "domain" ;;
     forEach (seq 0 (length (specification st))) (buildCollection domainElement))
      (mkBuilderState (specification st) (XmlNode "Xdmf" preamble ∅ "" [])
         (cellMap st) (typeMap st)).

(** A builder constructed on [specification], in a process whose tables
    have not been indexed yet. *)
Definition XdmfBuilder (specification : XdmfSpecification) : BuilderState :=
  mkBuilderState specification (XmlNode "" "" ∅ "" []) cellMap_init typeMap_init.

End XdmfBuilder.

(** ** Declarations for running the model

    One choice of what the headers declare, to evaluate the model on
    concrete inputs: the entity axis of a shape is the second of three and
    the first otherwise, numbers are joined by single spaces, a double is
    printed as its mantissa and binary exponent, default-constructed
    descriptions are zero, a collection is born unnamed and
    [GenerateSpatialGrid] gives no collection type of its own. *)

Definition show_double (x : float) : string :=
  match Prim2SF x with
  | S754_zero _ => "0"
  | S754_infinity s => if s then "-inf" else "inf"
  | S754_nan => "nan"
  | S754_finite s m e => (if s then "-" else "") +:+ pretty (Npos m) +:+ "p" +:+ pretty e
  end.

Definition join (words : list string) : string := String.concat " " words.

Definition reference : Declarations := {|
  GetDof d :=
    match FieldDescription.shape d with
    | [] => 0
    | [n] | [n; _] => n
    | _ :: n :: _ => n
    end;
  Join l := join (to_string <$> l);
  JoinVector l := join (to_string <$> l);
  JoinVector_double l := join (show_double <$> l);
  FieldDescription_init :=
    FieldDescription.mk "" (Location.mk "" "") [] 0 0 0 0 NODE NONE false;
  TopologyDescription_init := TopologyDescription.mk (Location.mk "" "") 0 0 0;
  GridCollectionDescription_init_name := "";
  GenerateSpatialGrid_collectionType := "";
  TopologyDescription_init_number := eq_refl |}.

(** ** What the claims speak of

    The flag line 22 computes, the component dimension line 67 reads, the
    name lines 74-79 give a component, and the condition of lines 32-33 on a
    field tagged as a vector. *)

Definition hasTimeOf (hdfField : HdfObject) : bool :=
  match Hdf.attributes hdfField !! "timestepping" with
  | Some (AttrInt t) => bool_decide (0 < t)%Z
  | _ => false
  end.

Definition dimensionOf (shape : list N) : Result N :=
  if bool_decide (2 < length shape)%nat then at_index shape 2 else at_index shape 1.

Definition componentName (hdfField : HdfObject) (name : string) (c : N) : string :=
  match Hdf.attributes hdfField !! ("componentName" +:+ to_string c) with
  | Some (AttrString hdfComponentName) => name +:+ "_" +:+ hdfComponentName
  | _ => name +:+ to_string c
  end.

Definition degenerateVector (location : FieldLocation) (rank : nat) (hasTime : bool) : Prop :=
  location = CELL ∧ (rank < if hasTime then 3 else 2)%nat.

(** The invariant of the extractors' collections: no time index is mapped
    to an empty list of grids. *)
Definition nonEmptyGrids (c : GridCollectionDescription.t) : Prop :=
  ∀ timeIndex grids, GridCollectionDescription.grids c !! timeIndex = Some grids → grids ≠ [].

(** The elements [WriteData] makes: the reference to the whole stored
    array, alone when the field has no time dimension and under a hyperslab
    when it has one. *)

Section References.
Context {decl : Declarations}.

Definition address (location : Location.t) : string :=
  Location.file location +:+ ":" +:+ Location.path location.

Definition fullArrayReference (fieldDescription : FieldDescription.t) : XmlElement :=
  XmlNode "DataItem" ""
    (<["Precision" := "8"]>
       (<["Format" := "HDF"]>
          (<["Dimensions" := JoinVector (FieldDescription.shape fieldDescription)]>
             (<["DataType" := "Float"]> ∅))))
    (address (FieldDescription.location fieldDescription)) [].

Definition directReference (fieldDescription : FieldDescription.t) : XmlElement :=
  XmlNode "DataItem" ""
    (<["Precision" := "8"]>
       (<["Format" := "HDF"]>
          (<["Dimensions" := JoinVector (FieldDescription.shape fieldDescription)]>
             (<["DataType" := "Float"]>
                (<["Name" := Hdf5PathToName
                               (Location.path (FieldDescription.location fieldDescription))]>
                   ∅)))))
    (address (FieldDescription.location fieldDescription)) [].

Definition hyperSlabSelection (fieldDescription : FieldDescription.t) : XmlElement :=
  let start := [FieldDescription.timeOffset fieldDescription; 0;
                FieldDescription.componentOffset fieldDescription] in
  let stride := [1; 1; FieldDescription.componentStride fieldDescription] in
  let count := [1; GetDof fieldDescription; FieldDescription.GetDimension fieldDescription] in
  XmlNode "DataItem" ""
    (<["Format" := "XML"]> (<["Dimensions" := Join [3; 3]]> ∅))
    (Join start +:+ " " +:+ Join stride +:+ " " +:+ Join count) [].

Definition hyperSlabReference (fieldDescription : FieldDescription.t) : XmlElement :=
  XmlNode "DataItem" ""
    (<["Type" := "HyperSlab"]>
       (<["Dimensions" := Join [1; GetDof fieldDescription;
                                FieldDescription.GetDimension fieldDescription]]>
          (<["ItemType" := "HyperSlab"]> ∅)))
    ""
    [hyperSlabSelection fieldDescription; fullArrayReference fieldDescription].

Definition dataReference (fieldDescription : FieldDescription.t) : XmlElement :=
  if FieldDescription.hasTimeDimension fieldDescription
  then hyperSlabReference fieldDescription
  else directReference fieldDescription.

(** The elements [GenerateSpaceGrid] makes, given the cell type the table
    yields. *)

Definition cellsReference (topologyDescription : TopologyDescription.t) : XmlElement :=
  let location := TopologyDescription.location topologyDescription in
  XmlNode "DataItem" ""
    (<["Dimensions" := to_string (TopologyDescription.number topologyDescription) +:+ " "
                       +:+ to_string (TopologyDescription.numberCorners topologyDescription)]>
       (<["NumberType" := "Float"]>
          (<["Precision" := "8"]>
             (<["Format" := "HDF"]>
                (<["ItemType" := "Uniform"]>
                   (<["Name" := Hdf5PathToName (Location.path location)]> ∅))))))
    (address location) [].

Definition topologyElement (topologyDescription : TopologyDescription.t) (cellType : string)
    : XmlElement :=
  let dimension := TopologyDescription.dimension topologyDescription in
  let numberCorners := TopologyDescription.numberCorners topologyDescription in
  let number := TopologyDescription.number topologyDescription in
  let typed : gmap string string := <["TopologyType" := cellType]> ∅ in
  let counted :=
    match nodesPerCell !! dimension ≫= (.!! numberCorners) with
    | Some nodesPerCellValue =>
        <["NodesPerElement" := if bool_decide (nodesPerCellValue < 0)%Z
                               then to_string number
                               else to_string (Z.to_N nodesPerCellValue)]> typed
    | None => typed
    end in
  if bool_decide (numberCorners ≠ 0)
  then XmlNode "Topology" "" (<["NumberOfElements" := to_string number]> counted) ""
         [cellsReference topologyDescription]
  else XmlNode "Topology" "" counted "" [].

Definition geometryElement (geometryDescription : FieldDescription.t) : XmlElement :=
  XmlNode "Geometry" ""
    (<["GeometryType" := if bool_decide (2 < FieldDescription.GetDimension geometryDescription)
                         then "XYZ" else "XY"]> ∅)
    "" [dataReference geometryDescription].

Definition spaceGridElement (topologyDescription : TopologyDescription.t)
    (geometryDescription : FieldDescription.t) (domainName cellType : string) : XmlElement :=
  XmlNode "Grid" "" (<["GridType" := "Uniform"]> (<["Name" := domainName]> ∅)) ""
    [topologyElement topologyDescription cellType; geometryElement geometryDescription].

(** What indexing the cell-type table yields, and a table that still
    answers as the one the file starts with. *)
Definition cellType (table : gmap N (gmap N string)) (dimension numberCorners : N) : string :=
  default "" (table !! dimension ≫= (.!! numberCorners)).

Definition answersAsInit (table : gmap N (gmap N string)) : Prop :=
  ∀ dimension numberCorners,
    cellType table dimension numberCorners = cellType cellMap_init dimension numberCorners.

End References.


(** The children a name can resolve to, those of the root and of its "viz"
    group; the name of the topology group of an index; and what a lookup
    yields: nothing, or a candidate of the name asked for, never an error. *)
Definition candidates (root : HdfObject) : list HdfObject :=
  Hdf.Items root
  ++ match Hdf.child root "viz" with Some viz => Hdf.Items viz | None => [] end.

Definition topologyName (topologyIndex : N) : string :=
  "topology" +:+ GetTopologyPostfix topologyIndex.

Definition found_among (root : HdfObject) (name : string) (r : Result (option HdfObject)) : Prop :=
  match r with
  | Ok None => True
  | Ok (Some c) => Hdf.Name c = name ∧ c ∈ candidates root
  | Err _ => False
  end.

(** Collections whose time indices are 0, 1, ..., n-1. *)
Definition contiguous (c : GridCollectionDescription.t) : Prop :=
  ∀ timeIndex,
    timeIndex < N.of_nat (size (GridCollectionDescription.grids c)) →
    is_Some (GridCollectionDescription.grids c !! timeIndex).

(** A writer that appends one element [c] to the element it is given, and
    returns the reference to it ([Appends]) or nothing ([AppendsOnly]). *)
Definition Appends (m : Xml.Ref → Builder Xml.Ref) (c : XmlElement) : Prop :=
  ∀ s d cm tm element x,
    Xml.elementAt element d = Some x →
    m element (mkBuilderState s d cm tm)
    = Ok (element ++ [length (Xml.children x)],
          mkBuilderState s (Xml.alterAt element (Xml.addChild c) d) cm tm).

Definition AppendsOnly (m : Xml.Ref → Builder unit) (c : XmlElement) : Prop :=
  ∀ s d cm tm element x,
    Xml.elementAt element d = Some x →
    m element (mkBuilderState s d cm tm)
    = Ok (tt, mkBuilderState s (Xml.alterAt element (Xml.addChild c) d) cm tm).

(** A computation that keeps the invariant [I] of the builder's state
    whenever it returns, and returns a value with [Q]. *)
Definition Keeps {A} (I : BuilderState → Prop) (m : Builder A) (Q : A → Prop) : Prop :=
  ∀ st a st', I st → m st = Ok (a, st') → I st' ∧ Q a.

(** ** Sample containers and descriptions *)

Module Sample.

Definition group (name path : string) (items : list HdfObject) : HdfObject :=
  HdfNode name path [] ∅ [] items.
Definition dataset (name path : string) (shape : list N)
    (attributes : list (string * AttributeValue)) : HdfObject :=
  HdfNode name path shape (list_to_map attributes) [] [].
Definition file (name : string) (items : list HdfObject) : HdfObject :=
  HdfNode name "/" [] ∅ [] items.

Definition vertices : HdfObject := dataset "vertices" "/geometry/vertices" [10; 3] [].
Definition cells : HdfObject :=
  dataset "cells" "/topology/cells" [5; 4] [("cell_dim", AttrInt 3)].
Definition geometry : HdfObject := group "geometry" "/geometry" [vertices].
Definition topology : HdfObject := group "topology" "/topology" [cells].

(** A cell field tagged as a vector on a mesh reduced to one dimension. *)
Definition velocity : HdfObject :=
  dataset "velocity" "/cell_fields/velocity" [5]
    [("vector_field_type", AttrString "vector")].

(** Particle fields: the coordinates, a packed field of five components
    (the second one named), and a field with no components. *)
Definition coordinates : HdfObject :=
  dataset "DMSwarmPIC_coor" "/particle_fields/DMSwarmPIC_coor" [10; 3] [("Nc", AttrInt 3)].
Definition packed : HdfObject :=
  dataset "yi" "/particle_fields/yi" [10; 5]
    [("Nc", AttrInt 5); ("componentName1", AttrString "O2")].
Definition particle_fields : HdfObject :=
  group "particle_fields" "/particle_fields" [coordinates].

(** A root with a mesh only, one with nothing to extract, and one with a
    mesh and particles. *)
Definition mesh_only : HdfObject := file "mesh.h5" [geometry; topology].
Definition nothing : HdfObject := file "empty.h5" [].
Definition mesh_and_particles : HdfObject :=
  file "both.h5" [geometry; topology; particle_fields].

(** A mesh whose "topology" group holds "cells" and "hcells", beside a
    "hybrid_topology" group with an "hcells" of its own; and the same
    mesh with no "hcells" in "topology". *)
Definition topology_hcells : HdfObject := dataset "hcells" "/topology/hcells" [7; 9] [].
Definition hybrid_hcells : HdfObject :=
  dataset "hcells" "/hybrid_topology/hcells" [2; 6] [].
Definition hybrid_topology : HdfObject :=
  group "hybrid_topology" "/hybrid_topology" [hybrid_hcells].
Definition hybrid_mesh : HdfObject :=
  file "hybrid.h5"
    [geometry; group "topology" "/topology" [cells; topology_hcells]; hybrid_topology].
Definition hybrid_mesh_plain : HdfObject :=
  file "hybrid.h5" [geometry; topology; hybrid_topology].

(** Descriptions handed to the builder: a geometry, a tetrahedral topology
    and one with five corners a cell, and a time-dependent field. *)
Definition nodes : FieldDescription.t :=
  FieldDescription.mk "vertices" (Location.mk "/geometry/vertices" "mesh.h5")
    [10; 3] 0 0 0 3 NODE VECTOR false.
Definition tetrahedra : TopologyDescription.t :=
  TopologyDescription.mk (Location.mk "/topology/cells" "mesh.h5") 5 4 3.
Definition pyramids : TopologyDescription.t :=
  TopologyDescription.mk (Location.mk "/topology/cells" "mesh.h5") 5 5 3.
Definition pressure : FieldDescription.t :=
  FieldDescription.mk "pressure" (Location.mk "/cell_fields/pressure" "mesh.h5")
    [4; 5; 1] 2 0 1 1 CELL SCALAR true.

(** A document with its domain element, and the builder state around it. *)
Definition domain : XmlElement := XmlNode "Xdmf" "" ∅ "" [XmlNode "Domain" "" ∅ "" []].
Definition atDomain : BuilderState := mkBuilderState [] domain cellMap_init typeMap_init.

(** What the samples show of a specification: per collection its name and,
    per time index, the corner counts of the grids' topologies. *)
Definition corners (specification : XdmfSpecification) : list (string * list (N * list N)) :=
  (λ c, (GridCollectionDescription.name c,
         map_to_list
           (fmap (M := list) (λ g, TopologyDescription.numberCorners (GridDescription.topology g))
              <$> GridCollectionDescription.grids c)))
    <$> specification.

Definition hybridTopologies (specification : XdmfSpecification) : list TopologyDescription.t :=
  specification ≫= λ c,
    map_to_list (GridCollectionDescription.grids c) ≫= λ kv,
      GridDescription.hybridTopology <$> kv.2.

End Sample.

(** References that lead somewhere, and a document that has grown: every
    reference that led to an element still leads to one, of the same name
    and preamble. *)
Definition valid (d : XmlElement) (r : Xml.Ref) : Prop := is_Some (Xml.elementAt r d).

Definition grows (d d' : XmlElement) : Prop :=
  ∀ r e, Xml.elementAt r d = Some e →
    ∃ e', Xml.elementAt r d' = Some e'
          ∧ Xml.name e' = Xml.name e ∧ Xml.preamble e' = Xml.preamble e.

(** A computation that returns: from a state whose specification has [S]
    and in whose document the references [needs] lead somewhere, it returns a
    value [a] and a state whose specification has [S' a], whose document has
    grown, and in which the references [made a] lead somewhere. *)
Definition Runs {A} (S : XdmfSpecification → Prop) (needs : list Xml.Ref) (m : Builder A)
    (S' : A → XdmfSpecification → Prop) (made : A → list Xml.Ref) : Prop :=
  ∀ st, S (specification st) → Forall (valid (document st)) needs →
    ∃ a st', m st = Ok (a, st')
             ∧ S' a (specification st')
             ∧ grows (document st) (document st')
             ∧ Forall (valid (document st')) (made a).

(** A specification in which [Build] has not yet come to the collections
    from place [i] on: they are those of [specification0]. *)
Definition untouchedFrom (specification0 : XdmfSpecification) (i : nat)
    (s : XdmfSpecification) : Prop :=
  length s = length specification0 ∧ ∀ j, (i ≤ j)%nat → s !! j = specification0 !! j.

(** A collection that differs from [c0] at most by time indices [c0] does
    not have, mapped to no grids. *)
Definition extendsByEmpty (c0 c : GridCollectionDescription.t) : Prop :=
  GridCollectionDescription.name c = GridCollectionDescription.name c0
  ∧ ∀ timeIndex,
      GridCollectionDescription.grids c !! timeIndex
      = GridCollectionDescription.grids c0 !! timeIndex
      ∨ (GridCollectionDescription.grids c0 !! timeIndex = None
         ∧ GridCollectionDescription.grids c !! timeIndex = Some []).

(** A map of grids with the time indices 0 .. n-1, each leading to [m]
    grids. *)
Definition uniform (n : N) (m : nat) (grids : gmap N (list GridDescription.t)) : Prop :=
  ∀ timeIndex,
    (is_Some (grids !! timeIndex) ↔ timeIndex < n)
    ∧ (timeIndex < n → length (default [] (grids !! timeIndex)) = m).

(** Whether a root has a mesh, and whether it has particles: the tests of
    lines 110-111 and 168. *)
Definition hasMesh (rootObject : HdfObject) : bool :=
  match FindPetscHdfChild rootObject "geometry" with
  | Ok (Some _) => true
  | _ => false
  end.

Definition hasParticles (rootObject : HdfObject) : bool :=
  Hdf.Contains rootObject "particles" || Hdf.Contains rootObject "particle_fields".

(** The elements the builder makes of a grid: the collection element
    [GenerateSpatialGrid] makes, the Attribute element of a field, with the
    label the type table yields, and the element of the whole grid, a
    uniform grid with its fields or, for a hybrid mesh, a collection of the
    grid of the hybrid topology and that uniform grid. *)
Section GridElements.
Context {decl : Declarations}.

Definition addChildren (cs : list XmlElement) (e : XmlElement) : XmlElement :=
  let 'XmlNode n p a v cs0 := e in XmlNode n p a v (cs0 ++ cs).

Definition spatialGridElement (domainName collectionType : string) : XmlElement :=
  let named : gmap string string :=
    <["GridType" := "Collection"]> (<["Name" := domainName]> ∅) in
  XmlNode "Grid" ""
    (if bool_decide (collectionType = "") then named
     else <["CollectionType" := collectionType]> named) "" [].

Definition typeLabel (table : gmap FieldType string) (fieldType : FieldType) : string :=
  default "" (table !! fieldType).

Definition attributeElement (table : gmap FieldType string)
    (fieldDescription : FieldDescription.t) : XmlElement :=
  XmlNode "Attribute" ""
    (<["Center" := locationMap (FieldDescription.fieldLocation fieldDescription)]>
       (<["Type" := typeLabel table (FieldDescription.fieldType fieldDescription)]>
          (<["Name" := FieldDescription.name fieldDescription]> ∅)))
    "" [dataReference fieldDescription].

Definition uniformGridElement (cells : gmap N (gmap N string)) (types : gmap FieldType string)
    (name : string) (grid : GridDescription.t) : XmlElement :=
  let topology := GridDescription.topology grid in
  addChildren (attributeElement types <$> GridDescription.fields grid)
    (spaceGridElement topology (GridDescription.geometry grid) name
       (cellType cells (TopologyDescription.dimension topology)
          (TopologyDescription.numberCorners topology))).

Definition gridElement (cells : gmap N (gmap N string)) (types : gmap FieldType string)
    (name : string) (grid : GridDescription.t) : XmlElement :=
  let hybridTopology := GridDescription.hybridTopology grid in
  if bool_decide (0 < TopologyDescription.number hybridTopology) then
    addChildren
      [spaceGridElement hybridTopology (GridDescription.geometry grid) name
         (cellType cells (TopologyDescription.dimension hybridTopology)
            (TopologyDescription.numberCorners hybridTopology));
       uniformGridElement cells types name grid]
      (spatialGridElement name GenerateSpatialGrid_collectionType)
  else uniformGridElement cells types name grid.

End GridElements.

(** The document [Build] makes of a specification whose collections have
    the time indices 0 .. n-1, each with at least one grid (lines 44-88):
    per time index the grids' elements, under a collection of their own
    when they are several; per collection those of its time indices, under
    a temporal collection when the first time is not negative. *)
Section Documents.
Context {decl : Declarations}.

Definition gridsAt (c : GridCollectionDescription.t) (timeIndex : N) : list GridDescription.t :=
  default [] (GridCollectionDescription.grids c !! timeIndex).

Definition firstTime (grids : list GridDescription.t) : float :=
  match grids with
  | grid :: _ => GridDescription.time grid
  | [] => 0%float
  end.

Definition timeIndexElements (cells : gmap N (gmap N string)) (types : gmap FieldType string)
    (name : string) (grids : list GridDescription.t) : list XmlElement :=
  if bool_decide (1 < length grids)%nat
  then [addChildren (gridElement cells types name <$> grids) (spatialGridElement name "Spatial")]
  else gridElement cells types name <$> grids.

Definition timeGridElement (time : list float) : XmlElement :=
  XmlNode "Grid" ""
    (<["CollectionType" := "Temporal"]> (<["GridType" := "Collection"]>
       (<["Name" := "TimeSeries"]> ∅)))
    ""
    [XmlNode "Time" "" (<["TimeType" := "List"]> ∅) ""
       [XmlNode "DataItem" ""
          (<["Dimensions" := to_string (N.of_nat (length time))]>
             (<["NumberType" := "Float"]> (<["Format" := "XML"]> ∅)))
          (JoinVector_double time) []]].

Definition collectionElements (cells : gmap N (gmap N string)) (types : gmap FieldType string)
    (c : GridCollectionDescription.t) : list XmlElement :=
  let timeIndexes := range (N.of_nat (size (GridCollectionDescription.grids c))) in
  let perTime :=
    timeIndexes ≫= λ timeIndex,
      timeIndexElements cells types (GridCollectionDescription.name c) (gridsAt c timeIndex) in
  let useTime :=
    match timeIndexes with
    | [] => false
    | timeIndex0 :: _ => negb (firstTime (gridsAt c timeIndex0) <? 0)%float
    end in
  if useTime
  then [addChildren perTime (timeGridElement (firstTime ∘ gridsAt c <$> timeIndexes))]
  else perTime.

Definition xdmfDocument (cells : gmap N (gmap N string)) (types : gmap FieldType string)
    (specification : XdmfSpecification) : XmlElement :=
  XmlNode "Xdmf" preamble ∅ ""
    [XmlNode "Domain" "" (<["Name" := "domain"]> ∅) ""
       (specification ≫= collectionElements cells types)].

End Documents.

(** The state after some steps of the builder: the document grown at
    [element] by [cs], the tables answering as before. *)
Definition appended (s : XdmfSpecification) (d : XmlElement) (cm : gmap N (gmap N string))
    (tm : gmap FieldType string) (element : Xml.Ref) (cs : list XmlElement)
    (r : Result (unit * BuilderState)) : Prop :=
  ∃ cm' tm',
    r = Ok (tt, mkBuilderState s (Xml.alterAt element (addChildren cs) d) cm' tm')
    ∧ (∀ dimension numberCorners,
         cellType cm' dimension numberCorners = cellType cm dimension numberCorners)
    ∧ (∀ fieldType, typeLabel tm' fieldType = typeLabel tm fieldType).


(** ** More sample containers

    A root with two time values, a mesh, a field on the nodes and one on
    the cells; the same mesh with a "time" that holds no value; particle
    fields with the coordinates behind a packed field, and without the
    coordinates; a field of no known kind, and one tagged with a type the
    extractor does not know. *)

Module Scenario.

Definition time : HdfObject := HdfNode "time" "/time" [2; 1; 1] ∅ [0%float; 0.5%float] [].
Definition no_time : HdfObject := HdfNode "time" "/time" [0; 1; 1] ∅ [] [].

Definition displacement : HdfObject :=
  Sample.dataset "displacement" "/vertex_fields/displacement" [2; 10; 3]
    [("vector_field_type", AttrString "vector"); ("timestepping", AttrInt 1)].
Definition pressure : HdfObject :=
  Sample.dataset "pressure" "/cell_fields/pressure" [2; 5]
    [("vector_field_type", AttrString "scalar"); ("timestepping", AttrInt 1)].
Definition vertex_fields : HdfObject :=
  Sample.group "vertex_fields" "/vertex_fields" [displacement].
Definition cell_fields : HdfObject := Sample.group "cell_fields" "/cell_fields" [pressure].

Definition series : HdfObject :=
  Sample.file "series.h5" [Sample.geometry; Sample.topology; time; vertex_fields; cell_fields].
Definition timeless : HdfObject :=
  Sample.file "timeless.h5" [Sample.geometry; Sample.topology; no_time].

Definition swarm : HdfObject :=
  Sample.file "swarm.h5"
    [Sample.group "particle_fields" "/particle_fields" [Sample.packed; Sample.coordinates]].
Definition lost : HdfObject :=
  Sample.file "lost.h5" [Sample.group "particle_fields" "/particle_fields" [Sample.packed]].

Definition mystery : HdfObject := Sample.dataset "mystery" "/cell_fields/mystery" [5; 1] [].
Definition spinor : HdfObject :=
  Sample.dataset "spinor" "/cell_fields/spinor" [5; 2]
    [("vector_field_type", AttrString "spinor"); ("Nc", AttrInt 2)].


(** Two grids for the builder: of tetrahedra, with a field, and of cells
    with five corners. *)
Definition tetrahedral : GridDescription.t :=
  GridDescription.mk 0%float Sample.nodes Sample.tetrahedra
    (TopologyDescription.mk (Location.mk "" "") 0 0 0) [Sample.pressure].
Definition pyramidal : GridDescription.t :=
  GridDescription.mk 0%float Sample.nodes Sample.pyramids
    (TopologyDescription.mk (Location.mk "" "") 0 0 0) [].

End Scenario.

(** ** Properties of the field inference *)

Section FieldInference.
Context {decl : Declarations}.

Lemma HasAttribute_true hdfField n v :
  Hdf.attributes hdfField !! n = Some v → Hdf.HasAttribute hdfField n = true.
Proof. intros H. unfold Hdf.HasAttribute. rewrite H. by apply bool_decide_eq_true_2. Qed.

Lemma HasAttribute_false hdfField n :
  Hdf.attributes hdfField !! n = None → Hdf.HasAttribute hdfField n = false.
Proof.
  intros H. unfold Hdf.HasAttribute. rewrite H.
  apply bool_decide_eq_false_2. by intros [? ?].
Qed.

(** A loop that appends one computed element a round appends the image of
    the list it runs over. *)
Lemma foldM_append {A B} (step : A → Result B) (pure : A → B) (l : list A) (acc : list B) :
  (∀ x, x ∈ l → step x = Ok (pure x)) →
  foldM (λ acc x, let* y := step x in Ok (acc ++ [y])) acc l = Ok (acc ++ (pure <$> l)).
Proof.
  revert acc. induction l as [|x l IH]; intros acc Hstep; simpl.
  - by rewrite app_nil_r.
  - rewrite (Hstep x) by constructor. simpl.
    rewrite IH by (intros y Hy; apply Hstep; by constructor).
    by rewrite <- app_assoc.
Qed.

Lemma elem_of_range (n c : N) : c ∈ range n ↔ c < n.
Proof.
  unfold range. rewrite list_elem_of_fmap. split.
  - intros (i & -> & Hi). apply elem_of_seq in Hi. lia.
  - intros Hc. exists (N.to_nat c). split; [lia|]. apply elem_of_seq. lia.
Qed.

Lemma length_range (n : N) : length (range n) = N.to_nat n.
Proof. unfold range. by rewrite length_fmap, length_seq. Qed.

Lemma NoDup_range (n : N) : NoDup (range n).
Proof.
  unfold range. apply NoDup_fmap_2; [|apply NoDup_seq].
  intros ? ?. lia.
Qed.

Lemma componentFieldDescription_ok hdfField description c :
  (∀ z, Hdf.attributes hdfField !! ("componentName" +:+ to_string c) ≠ Some (AttrInt z)) →
  componentFieldDescription hdfField description c =
    Ok (FieldDescription.mk
          (componentName hdfField (FieldDescription.name description) c)
          (FieldDescription.location description)
          (FieldDescription.shape description)
          (FieldDescription.timeOffset description)
          c (FieldDescription.componentDimension description) 1
          (FieldDescription.fieldLocation description) SCALAR
          (FieldDescription.hasTimeDimension description)).
Proof.
  intros Hattr. unfold componentFieldDescription, componentName, Hdf.AttributeString.
  destruct (Hdf.attributes hdfField !! ("componentName" +:+ to_string c)) as [[z|s]|] eqn:E.
  - by destruct (Hattr z).
  - by rewrite (HasAttribute_true _ _ _ E).
  - by rewrite (HasAttribute_false _ _ E).
Qed.

Lemma provisionalDescription_inv hdfField location fileName timeOffset description :
  provisionalDescription hdfField location fileName timeOffset = Ok description →
  description =
    FieldDescription.mk (Hdf.Name hdfField) (Location.mk (Hdf.Path hdfField) fileName)
      (Hdf.Shape hdfField) timeOffset 0 1 0 location NONE (hasTimeOf hdfField).
Proof.
  unfold provisionalDescription, hasTimeOf, Hdf.Attribute_int.
  destruct (Hdf.attributes hdfField !! "timestepping") as [[t|s]|] eqn:E; simpl.
  - rewrite (HasAttribute_true _ _ _ E). case_bool_decide; simpl; congruence.
  - rewrite (HasAttribute_true _ _ _ E). simpl. congruence.
  - rewrite (HasAttribute_false _ _ E). simpl. congruence.
Qed.

Lemma determineFieldType_inv hdfField location description description' sep :
  determineFieldType hdfField location description = Ok (description', sep) →
  ∃ ft, description' = FieldDescription.with_fieldType ft description
        ∧ (sep = true → ft = VECTOR).
Proof.
  unfold determineFieldType. intros H.
  destruct (Hdf.HasAttribute hdfField "vector_field_type").
  - destruct (Hdf.AttributeString _ _); simpl in H; [|done].
    destruct (petscTypeLookUpFromFieldType !! a); [|simplify_eq; by eexists].
    case_match; simplify_eq; by eexists.
  - destruct (Hdf.HasAttribute hdfField "Nc"); [|done].
    destruct (Hdf.Attribute_int _ _); simpl in H; [|done].
    destruct (petscTypeLookUpFromNC !! a); [simplify_eq; by eexists|].
    case_match; simplify_eq; by eexists.
Qed.

Lemma inferField_split hdfField location fileName timeOffset description :
  inferField hdfField location fileName timeOffset = Ok (description, true) →
  ∃ ft d,
    dimensionOf (Hdf.Shape hdfField) = Ok d ∧
    description =
      FieldDescription.mk (Hdf.Name hdfField) (Location.mk (Hdf.Path hdfField) fileName)
        (Hdf.Shape hdfField) timeOffset 0 1 d location ft (hasTimeOf hdfField)
    ∧ (ft = VECTOR ∨ ft = SCALAR).
Proof.
  unfold inferField. intros H.
  destruct (provisionalDescription _ _ _ _) as [d0|] eqn:E0; simpl in H; [|done].
  apply provisionalDescription_inv in E0 as ->.
  destruct (determineFieldType _ _ _) as [[d1 sep]|] eqn:E1; simpl in H; [|done].
  apply determineFieldType_inv in E1 as (ft & -> & Hsep).
  unfold restoreScalarAxis in H. simpl in H.
  case_bool_decide as Hft; [case_bool_decide as Hrank|].
  - (* a scalar that gets its axis back is no packed field *)
    exfalso. unfold determineDimension in H.
    destruct (if bool_decide _ then _ else _); simplify_eq/=.
    specialize (Hsep eq_refl). congruence.
  - unfold determineDimension in H. simpl in H.
    destruct (if bool_decide _ then _ else _) as [d|] eqn:Ed; simplify_eq/=.
    exists SCALAR, d. unfold dimensionOf, FieldDescription.with_componentDimension. simpl. rewrite Ed. eauto.
  - unfold determineDimension in H. simpl in H.
    destruct (if bool_decide _ then _ else _) as [d|] eqn:Ed; simplify_eq/=.
    specialize (Hsep eq_refl) as ->.
    exists VECTOR, d. unfold dimensionOf. rewrite Ed. eauto.
Qed.

(** C7.  A raw field node that the field inference splits into components
    (the inference returns [separateIntoComponents = true]) appends exactly
    [d] descriptions, where [d] is the component dimension read from the
    node's own shape: one for each component index [c] of [0 .. d-1] in
    order, so without gaps or duplicates, with [componentOffset = c],
    [componentStride = d], [componentDimension = 1], [fieldType = SCALAR],
    the name made of the node's name and "_" and the attribute
    "componentName{c}" when the node has it, of the node's name and [c]
    otherwise, and with the node's shape, the time offset, the location and
    the time flag of the original. *)
Theorem GenerateFieldFromPetsc_components fields hdfField location fileName timeOffset description :
  inferField hdfField location fileName timeOffset = Ok (description, true) →
  (∀ c z, c < FieldDescription.componentDimension description →
          Hdf.attributes hdfField !! ("componentName" +:+ to_string c) ≠ Some (AttrInt z)) →
  let d := FieldDescription.componentDimension description in
  let out :=
    (λ c, FieldDescription.mk
            (componentName hdfField (Hdf.Name hdfField) c)
            (Location.mk (Hdf.Path hdfField) fileName)
            (Hdf.Shape hdfField) timeOffset c d 1 location SCALAR (hasTimeOf hdfField))
      <$> range d in
  dimensionOf (Hdf.Shape hdfField) = Ok d
  ∧ GenerateFieldFromPetsc fields hdfField location fileName timeOffset = Ok (fields ++ out)
  ∧ length out = N.to_nat d
  ∧ FieldDescription.componentOffset <$> out = range d
  ∧ NoDup (FieldDescription.componentOffset <$> out).
Proof.
  intros Hinfer Hattr d out.
  destruct (inferField_split _ _ _ _ _ Hinfer) as (ft & d' & Hdim & Hdesc & Hft).
  assert (d' = d) as -> by (subst d description; done).
  clearbody d. subst description. simpl in Hattr.
  assert (FieldDescription.componentOffset <$> out = range d) as Hoffsets.
  { subst out. rewrite <- list_fmap_compose. simpl. apply list_fmap_id. }
  split; [done|]. split; [|split; [|split]].
  - unfold GenerateFieldFromPetsc. rewrite Hinfer. simpl.
    unfold emitField. rewrite bool_decide_eq_true_2 by (simpl; by destruct Hft as [-> | ->]).
    unfold FieldDescription.GetDimension. simpl.
    erewrite foldM_append; [reflexivity|].
    intros c Hc%elem_of_range.
    by rewrite componentFieldDescription_ok by (intros z; by apply Hattr).
  - subst out. by rewrite length_fmap, length_range.
  - done.
  - rewrite Hoffsets. apply NoDup_range.
Qed.

Lemma inferField_fieldType hdfField location fileName timeOffset description0 ft sep0 description sep :
  provisionalDescription hdfField location fileName timeOffset = Ok description0 →
  determineFieldType hdfField location description0
    = Ok (FieldDescription.with_fieldType ft description0, sep0) →
  inferField hdfField location fileName timeOffset = Ok (description, sep) →
  FieldDescription.fieldType description = ft.
Proof.
  intros H0 H1. unfold inferField. rewrite H0. simpl. rewrite H1. simpl.
  unfold restoreScalarAxis, determineDimension.
  repeat case_bool_decide; simpl.
  all: match goal with |- context [at_index ?l ?i] => destruct (at_index l i) end.
  all: simpl; intros; by simplify_eq.
Qed.

(** C8.  For a field node whose "vector_field_type" attribute resolves to
    VECTOR, the inferred type is SCALAR if and only if the location is CELL
    and the rank of the raw shape is below 3 with a time dimension, below 2
    without one; in every other case, all NODE fields among them, it is
    VECTOR.  The later steps of the inference keep the type. *)
Theorem vector_field_type_downgrade hdfField location fileName timeOffset description0 s :
  Hdf.attributes hdfField !! "vector_field_type" = Some (AttrString s) →
  petscTypeLookUpFromFieldType !! s = Some VECTOR →
  provisionalDescription hdfField location fileName timeOffset = Ok description0 →
  ∃ ft,
    determineFieldType hdfField location description0
      = Ok (FieldDescription.with_fieldType ft description0, false)
    ∧ (ft = SCALAR ↔
         degenerateVector location (length (Hdf.Shape hdfField)) (hasTimeOf hdfField))
    ∧ (ft = VECTOR ↔
         ¬ degenerateVector location (length (Hdf.Shape hdfField)) (hasTimeOf hdfField))
    ∧ ∀ description sep,
        inferField hdfField location fileName timeOffset = Ok (description, sep) →
        FieldDescription.fieldType description = ft.
Proof.
  intros Hattr Hs H0.
  pose proof (provisionalDescription_inv _ _ _ _ _ H0) as Hd0.
  set (description1 := description0) in *.
  assert (∃ ft,
    determineFieldType hdfField location description0
      = Ok (FieldDescription.with_fieldType ft description0, false)
    ∧ (ft = SCALAR ↔
         degenerateVector location (length (Hdf.Shape hdfField)) (hasTimeOf hdfField))
    ∧ (ft = VECTOR ↔
         ¬ degenerateVector location (length (Hdf.Shape hdfField)) (hasTimeOf hdfField)))
    as (ft & Hdet & HS & HV).
  { unfold determineFieldType, Hdf.AttributeString.
    rewrite (HasAttribute_true _ _ _ Hattr), Hattr. simpl. rewrite Hs.
    unfold FieldDescription.HasTimeDimension. subst description1. rewrite !Hd0. simpl.
    unfold degenerateVector.
    destruct (Hdf.Shape hdfField) as [|n0 [|n1 [|n2 shape]]], location, (hasTimeOf hdfField);
      simpl; (eexists; split; [reflexivity|]); simpl;
      intuition (first [congruence | lia]). }
  exists ft. split; [done|]. split; [done|]. split; [done|].
  intros description sep. by eapply inferField_fieldType.
Qed.

Lemma inferField_unfold hdfField location fileName timeOffset description0 ft sep :
  provisionalDescription hdfField location fileName timeOffset = Ok description0 →
  determineFieldType hdfField location description0
    = Ok (FieldDescription.with_fieldType ft description0, sep) →
  inferField hdfField location fileName timeOffset =
    let (description, separateIntoComponents) :=
      restoreScalarAxis (FieldDescription.with_fieldType ft description0) sep in
    let* description := determineDimension description in
    Ok (description, separateIntoComponents).
Proof. intros H0 H1. unfold inferField. rewrite H0. simpl. by rewrite H1. Qed.




End FieldInference.

(** ** The document as a store: references and updates *)

Section Store.

Lemma elementAt_app r q d :
  Xml.elementAt (r ++ q) d = Xml.elementAt r d ≫= Xml.elementAt q.
Proof.
  revert d. induction r as [|i r IH]; intros d; simpl; [done|].
  destruct (Xml.children d !! i); simpl; [apply IH|done].
Qed.

Lemma alterAt_app r q f d :
  Xml.alterAt (r ++ q) f d = Xml.alterAt r (Xml.alterAt q f) d.
Proof.
  revert d. induction r as [|i r IH]; intros [n p a v cs]; simpl; [done|].
  f_equal. apply list_alter_ext; [|done]. intros; apply IH.
Qed.

Lemma alterAt_compose r f g d :
  Xml.alterAt r f (Xml.alterAt r g d) = Xml.alterAt r (f ∘ g) d.
Proof.
  revert d. induction r as [|i r IH]; intros [n p a v cs]; simpl; [done|].
  f_equal. rewrite list_alter_alter_eq.
  apply list_alter_ext; [|done]. intros; apply IH.
Qed.

Lemma elementAt_alterAt r f d :
  Xml.elementAt r (Xml.alterAt r f d) = f <$> Xml.elementAt r d.
Proof.
  revert d. induction r as [|i r IH]; intros [n p a v cs]; simpl; [done|].
  rewrite list_lookup_alter_eq. destruct (cs !! i); simpl; [apply IH|done].
Qed.

Lemma alterAt_ext r f g d e :
  Xml.elementAt r d = Some e → f e = g e → Xml.alterAt r f d = Xml.alterAt r g d.
Proof.
  revert d. induction r as [|i r IH]; intros [n p a v cs]; simpl.
  - by intros [= ->].
  - intros Hd Hfg. f_equal. apply list_alter_ext; [|done].
    intros c Hc. rewrite Hc in Hd. by apply IH.
Qed.

Lemma alterAt_id r d e : Xml.elementAt r d = Some e → Xml.alterAt r (λ _, e) d = d.
Proof.
  revert d. induction r as [|i r IH]; intros [n p a v cs]; simpl.
  - by intros [= ->].
  - intros Hd. f_equal. transitivity (alter id i cs); [|by apply list_alter_id].
    apply list_alter_ext; [|done]. intros c Hc. rewrite Hc in Hd. by apply IH.
Qed.

(** With the element at [r] in view: what is at [r ++ q], and what an update
    there makes of the document. *)
Lemma elementAt_focus r q E d e0 :
  Xml.elementAt r d = Some e0 →
  Xml.elementAt (r ++ q) (Xml.alterAt r (λ _, E) d) = Xml.elementAt q E.
Proof. intros Hd. by rewrite elementAt_app, elementAt_alterAt, Hd. Qed.

Lemma alterAt_focus r q G E d :
  Xml.alterAt (r ++ q) G (Xml.alterAt r (λ _, E) d)
  = Xml.alterAt r (λ _, Xml.alterAt q G E) d.
Proof. by rewrite alterAt_app, alterAt_compose. Qed.

(** The child [addChild] appends is found at the end, and filling it in
    afterwards is appending it filled in. *)
Lemma elementAt_new_child r c d x :
  Xml.elementAt r d = Some x →
  Xml.elementAt (r ++ [length (Xml.children x)]) (Xml.alterAt r (Xml.addChild c) d) = Some c.
Proof.
  intros Hd. rewrite elementAt_app, elementAt_alterAt, Hd. simpl.
  destruct x as [n p a v cs]. simpl. by rewrite list_lookup_middle.
Qed.

Lemma alterAt_new_child r c E d x :
  Xml.elementAt r d = Some x →
  Xml.alterAt (r ++ [length (Xml.children x)]) (λ _, E) (Xml.alterAt r (Xml.addChild c) d)
  = Xml.alterAt r (Xml.addChild E) d.
Proof.
  intros Hd. rewrite alterAt_app, alterAt_compose.
  apply (alterAt_ext _ _ _ _ _ Hd). destruct x as [n p a v cs]. simpl.
  f_equal. rewrite <- (Nat.add_0_r (length cs)). by rewrite alter_app_r.
Qed.

End Store.

(** ** The builder's steps on the store *)

Section BuilderSteps.
Context {decl : Declarations}.

Lemma bindB_ok {A B} (m : Builder A) (k : A → Builder B) st a st' :
  m st = Ok (a, st') → bindB m k st = k a st'.
Proof. intros H. unfold bindB. by rewrite H. Qed.

Lemma bindB_assoc {A B C} (m : Builder A) (f : A → Builder B) (g : B → Builder C) st :
  bindB (bindB m f) g st = bindB m (λ x, bindB (f x) g) st.
Proof. unfold bindB. by destruct (m st) as [[a st']|]. Qed.

Lemma bindB_ret {A B} (a : A) (k : A → Builder B) st : bindB (ret a) k st = k a st.
Proof. done. Qed.

Lemma newChild_ok s d cm tm element name x :
  Xml.elementAt element d = Some x →
  newChild element name (mkBuilderState s d cm tm)
  = Ok (element ++ [length (Xml.children x)],
        mkBuilderState s (Xml.alterAt element (Xml.addChild (XmlNode name "" ∅ "" [])) d) cm tm).
Proof. intros H. unfold newChild. simpl. by rewrite H. Qed.

Lemma onElement_ok s d cm tm element f x :
  Xml.elementAt element d = Some x →
  onElement element f (mkBuilderState s d cm tm)
  = Ok (tt, mkBuilderState s (Xml.alterAt element f d) cm tm).
Proof. intros H. unfold onElement. simpl. by rewrite H. Qed.

(** The same steps with the element at [r] in view. *)
Lemma newChild_focus s d cm tm r q name E e0 x :
  Xml.elementAt r d = Some e0 →
  Xml.elementAt q E = Some x →
  newChild (r ++ q) name (mkBuilderState s (Xml.alterAt r (λ _, E) d) cm tm)
  = Ok (r ++ (q ++ [length (Xml.children x)]),
        mkBuilderState s
          (Xml.alterAt r (λ _, Xml.alterAt q (Xml.addChild (XmlNode name "" ∅ "" [])) E) d)
          cm tm).
Proof.
  intros Hr Hq. erewrite newChild_ok by (by erewrite elementAt_focus).
  by rewrite alterAt_focus, app_assoc.
Qed.

Lemma newChild_here s d cm tm r name E e0 :
  Xml.elementAt r d = Some e0 →
  newChild r name (mkBuilderState s (Xml.alterAt r (λ _, E) d) cm tm)
  = Ok (r ++ [length (Xml.children E)],
        mkBuilderState s
          (Xml.alterAt r (λ _, Xml.addChild (XmlNode name "" ∅ "" []) E) d) cm tm).
Proof.
  intros Hr. pose proof (newChild_focus s d cm tm r [] name E e0 E Hr eq_refl) as H.
  by rewrite app_nil_r in H.
Qed.

Lemma setAttribute_focus s d cm tm r q k v E e0 x :
  Xml.elementAt r d = Some e0 →
  Xml.elementAt q E = Some x →
  setAttribute (r ++ q) k v (mkBuilderState s (Xml.alterAt r (λ _, E) d) cm tm)
  = Ok (tt, mkBuilderState s
              (Xml.alterAt r (λ _, Xml.alterAt q (Xml.putAttribute k v) E) d) cm tm).
Proof.
  intros Hr Hq. unfold setAttribute.
  erewrite onElement_ok by (by erewrite elementAt_focus).
  by rewrite alterAt_focus.
Qed.

Lemma setAttribute_here s d cm tm r k v E e0 :
  Xml.elementAt r d = Some e0 →
  setAttribute r k v (mkBuilderState s (Xml.alterAt r (λ _, E) d) cm tm)
  = Ok (tt, mkBuilderState s (Xml.alterAt r (λ _, Xml.putAttribute k v E) d) cm tm).
Proof.
  intros Hr. pose proof (setAttribute_focus s d cm tm r [] k v E e0 E Hr eq_refl) as H.
  by rewrite app_nil_r in H.
Qed.

Lemma setValue_focus s d cm tm r q v E e0 x :
  Xml.elementAt r d = Some e0 →
  Xml.elementAt q E = Some x →
  setValue (r ++ q) v (mkBuilderState s (Xml.alterAt r (λ _, E) d) cm tm)
  = Ok (tt, mkBuilderState s
              (Xml.alterAt r (λ _, Xml.alterAt q (Xml.putValue v) E) d) cm tm).
Proof.
  intros Hr Hq. unfold setValue.
  erewrite onElement_ok by (by erewrite elementAt_focus).
  by rewrite alterAt_focus.
Qed.

Lemma setValue_here s d cm tm r v E e0 :
  Xml.elementAt r d = Some e0 →
  setValue r v (mkBuilderState s (Xml.alterAt r (λ _, E) d) cm tm)
  = Ok (tt, mkBuilderState s (Xml.alterAt r (λ _, Xml.putValue v E) d) cm tm).
Proof.
  intros Hr. pose proof (setValue_focus s d cm tm r [] v E e0 E Hr eq_refl) as H.
  by rewrite app_nil_r in H.
Qed.

(** Entering the child a [newChild] made, and leaving it once it is filled in. *)
Lemma enter_child {A} s d cm tm element name x (k : Xml.Ref → Builder A) :
  Xml.elementAt element d = Some x →
  bindB (newChild element name) k (mkBuilderState s d cm tm)
  = k (element ++ [length (Xml.children x)])
      (mkBuilderState s
         (Xml.alterAt (element ++ [length (Xml.children x)]) (λ _, XmlNode name "" ∅ "" [])
            (Xml.alterAt element (Xml.addChild (XmlNode name "" ∅ "" [])) d))
         cm tm).
Proof.
  intros Hx. erewrite bindB_ok by (by apply newChild_ok).
  rewrite alterAt_id; [done|]. by apply elementAt_new_child.
Qed.

Lemma AppendsOnly_focus m c s d cm tm r q E e0 x :
  AppendsOnly m c →
  Xml.elementAt r d = Some e0 →
  Xml.elementAt q E = Some x →
  m (r ++ q) (mkBuilderState s (Xml.alterAt r (λ _, E) d) cm tm)
  = Ok (tt, mkBuilderState s (Xml.alterAt r (λ _, Xml.alterAt q (Xml.addChild c) E) d) cm tm).
Proof.
  intros Hm Hr Hq. erewrite Hm by (by erewrite elementAt_focus).
  by rewrite alterAt_focus.
Qed.

Lemma leave_child element c E d x :
  Xml.elementAt element d = Some x →
  Xml.alterAt (element ++ [length (Xml.children x)]) (λ _, E)
    (Xml.alterAt element (Xml.addChild c) d)
  = Xml.alterAt element (Xml.addChild E) d.
Proof. apply alterAt_new_child. Qed.

End BuilderSteps.

(** One step of a builder function, with the element at [r] in view
    ([Hr] says what the document held there on entry). *)
Ltac builder_step_by tac :=
  rewrite ?bindB_assoc;
  first [ rewrite bindB_ret | erewrite bindB_ok; [| tac] ];
  cbv beta;
  cbn [Xml.alterAt Xml.addChild Xml.putAttribute Xml.putValue Xml.children
       alter list_alter length app].

Ltac primitive_step Hr :=
  first [ eapply setAttribute_here; exact Hr
        | eapply setValue_here; exact Hr
        | eapply newChild_here; exact Hr
        | eapply setAttribute_focus; [exact Hr | reflexivity]
        | eapply setValue_focus; [exact Hr | reflexivity]
        | eapply newChild_focus; [exact Hr | reflexivity] ].

Ltac builder_step Hr := builder_step_by ltac:(primitive_step Hr).

Section Writers.
Context {decl : Declarations}.

Lemma WriteData_appends fieldDescription :
  Appends (λ element, WriteData element fieldDescription) (dataReference fieldDescription).
Proof.
  intros s d cm tm element x Hx. unfold WriteData, dataReference.
  unfold FieldDescription.HasTimeDimension.
  destruct (FieldDescription.hasTimeDimension fieldDescription).
  - pose proof (elementAt_new_child element (XmlNode DataItem "" ∅ "" []) d x Hx) as Hr.
    rewrite (enter_child _ _ _ _ _ _ _ _ Hx). cbv beta.
    set (r := element ++ [length (Xml.children x)]) in *.
    set (d1 := Xml.alterAt element _ d) in *.
    repeat builder_step Hr.
    unfold ret. subst r d1. by rewrite (leave_child _ _ _ _ _ Hx).
  - pose proof (elementAt_new_child element (XmlNode DataItem "" ∅ "" []) d x Hx) as Hr.
    rewrite (enter_child _ _ _ _ _ _ _ _ Hx). cbv beta.
    set (r := element ++ [length (Xml.children x)]) in *.
    set (d1 := Xml.alterAt element _ d) in *.
    repeat builder_step Hr.
    unfold ret. subst r d1. by rewrite (leave_child _ _ _ _ _ Hx).
Qed.

Lemma WriteCells_appends topologyDescription :
  AppendsOnly (λ element, WriteCells element topologyDescription)
    (cellsReference topologyDescription).
Proof.
  intros s d cm tm element x Hx. unfold WriteCells, cellsReference.
  pose proof (elementAt_new_child element (XmlNode DataItem "" ∅ "" []) d x Hx) as Hr.
  rewrite (enter_child _ _ _ _ _ _ _ _ Hx). cbv beta.
  set (r := element ++ [length (Xml.children x)]) in *.
  set (d1 := Xml.alterAt element _ d) in *.
  do 6 builder_step Hr.
  erewrite setValue_here by exact Hr.
  cbn [Xml.putValue]. subst r d1. by rewrite (leave_child _ _ _ _ _ Hx).
Qed.

Lemma WriteVertices_appends geometryDescription :
  AppendsOnly (λ element, WriteVertices element geometryDescription)
    (dataReference geometryDescription).
Proof.
  intros s d cm tm element x Hx. unfold WriteVertices.
  erewrite bindB_ok by (by apply WriteData_appends). done.
Qed.

Lemma cellMap_index_ok dimension numberCorners s d cm tm :
  cellMap_index dimension numberCorners (mkBuilderState s d cm tm)
  = Ok (cellType cm dimension numberCorners,
        mkBuilderState s d
          (<[dimension := <[numberCorners := cellType cm dimension numberCorners]>
                            (default ∅ (cm !! dimension))]> cm) tm).
Proof.
  unfold cellMap_index, cellType. simpl. by destruct (cm !! dimension).
Qed.

Ltac writer_step Hr :=
  first [ primitive_step Hr
        | apply cellMap_index_ok
        | eapply (AppendsOnly_focus (λ element, WriteCells element _));
            [apply WriteCells_appends | exact Hr | reflexivity]
        | eapply (AppendsOnly_focus (λ element, WriteVertices element _));
            [apply WriteVertices_appends | exact Hr | reflexivity] ].

Lemma GenerateSpaceGrid_appends topologyDescription geometryDescription domainName
    s d cm tm element x :
  Xml.elementAt element d = Some x →
  let dimension := TopologyDescription.dimension topologyDescription in
  let numberCorners := TopologyDescription.numberCorners topologyDescription in
  let cell := cellType cm dimension numberCorners in
  GenerateSpaceGrid element topologyDescription geometryDescription domainName
    (mkBuilderState s d cm tm)
  = Ok (element ++ [length (Xml.children x)],
        mkBuilderState s
          (Xml.alterAt element
             (Xml.addChild (spaceGridElement topologyDescription geometryDescription
                              domainName cell)) d)
          (<[dimension := <[numberCorners := cell]> (default ∅ (cm !! dimension))]> cm) tm).
Proof.
  intros Hx dimension numberCorners cell.
  unfold GenerateSpaceGrid, spaceGridElement, topologyElement, geometryElement.
  fold dimension numberCorners.
  pose proof (elementAt_new_child element (XmlNode Grid "" ∅ "" []) d x Hx) as Hr.
  rewrite (enter_child _ _ _ _ _ _ _ _ Hx). cbv beta.
  set (r := element ++ [length (Xml.children x)]) in *.
  set (d1 := Xml.alterAt element _ d) in *.
  do 5 builder_step_by ltac:(writer_step Hr).
  destruct (nodesPerCell !! dimension ≫= lookup numberCorners) as [nodesPerCellValue|];
    [destruct (bool_decide (nodesPerCellValue < 0)%Z)|];
    destruct (bool_decide (numberCorners ≠ 0));
    repeat builder_step_by ltac:(writer_step Hr);
    unfold ret; subst r d1; by rewrite (leave_child _ _ _ _ _ Hx).
Qed.

End Writers.

(** ** Properties of the writers *)

Section WriterProperties.
Context {decl : Declarations}.

Lemma cellType_index table dimension numberCorners d c :
  cellType
    (<[dimension := <[numberCorners := cellType table dimension numberCorners]>
                      (default ∅ (table !! dimension))]> table) d c
  = cellType table d c.
Proof.
  unfold cellType. destruct (decide (dimension = d)) as [->|Hd].
  - rewrite lookup_insert_eq. simpl.
    destruct (decide (numberCorners = c)) as [->|Hc].
    + rewrite lookup_insert_eq. simpl. by destruct (table !! d).
    + rewrite lookup_insert_ne by done. by destruct (table !! d).
  - by rewrite lookup_insert_ne.
Qed.

Lemma answersAsInit_init : answersAsInit cellMap_init.
Proof. by intros d c. Qed.

Lemma topologyElement_TopologyType topologyDescription cell :
  Xml.name (topologyElement topologyDescription cell) = "Topology"
  ∧ Xml.attributes (topologyElement topologyDescription cell) !! "TopologyType" = Some cell.
Proof.
  unfold topologyElement.
  destruct (nodesPerCell !! _ ≫= _), (bool_decide (_ ≠ 0)); done.
Qed.

(** C1, as amended.  [GenerateSpaceGrid] never fails on the cell-type
    table.  In a process whose table still answers as the fixed one, the
    Topology element it emits has the table's string as TopologyType when
    the pair (dimension, numberCorners) is in the table, and the empty
    string when it is not; the table answers the same afterwards. *)
Theorem GenerateSpaceGrid_TopologyType s d cm tm element x
    topologyDescription geometryDescription domainName :
  Xml.elementAt element d = Some x →
  answersAsInit cm →
  let dimension := TopologyDescription.dimension topologyDescription in
  let numberCorners := TopologyDescription.numberCorners topologyDescription in
  let gridItem := element ++ [length (Xml.children x)] in
  ∃ st' topology,
    GenerateSpaceGrid element topologyDescription geometryDescription domainName
      (mkBuilderState s d cm tm) = Ok (gridItem, st')
    ∧ Xml.elementAt (gridItem ++ [0%nat]) (document st') = Some topology
    ∧ Xml.name topology = "Topology"
    ∧ Xml.attributes topology !! "TopologyType"
      = Some (match cellMap_init !! dimension ≫= (.!! numberCorners) with
              | Some label => label
              | None => ""
              end)
    ∧ answersAsInit (cellMap st').
Proof.
  intros Hx Hcm dimension numberCorners gridItem.
  eexists _, _. split; [by apply GenerateSpaceGrid_appends|]. simpl.
  split; [|split; [|split]].
  - subst gridItem. rewrite elementAt_app.
    rewrite (elementAt_new_child _ _ _ _ Hx). simpl. reflexivity.
  - apply topologyElement_TopologyType.
  - rewrite (proj2 (topologyElement_TopologyType _ _)). f_equal.
    rewrite Hcm. unfold cellType. fold dimension numberCorners.
    by destruct (cellMap_init !! dimension ≫= _).
  - intros d' c'. by rewrite cellType_index.
Qed.

(** C6.  [WriteData] appends one element to the element it is given.  With
    [hasTimeDimension] it is a hyperslab reference of dimensions
    [(1, GetDof(), GetDimension())], holding the selection, start
    [(timeOffset, 0, componentOffset)], stride [(1, 1, componentStride)],
    count [(1, GetDof(), GetDimension())], and after it the reference to
    the whole array, of the dimensions of the shape and the address
    "file:path".  Without it, it is a single direct reference of the
    dimensions of the shape and the address "file:path". *)
Theorem WriteData_output s d cm tm element x fieldDescription :
  Xml.elementAt element d = Some x →
  let dof := GetDof fieldDescription in
  let dimension := FieldDescription.GetDimension fieldDescription in
  let shape := FieldDescription.shape fieldDescription in
  let file := Location.file (FieldDescription.location fieldDescription) in
  let path := Location.path (FieldDescription.location fieldDescription) in
  let whole :=
    XmlNode "DataItem" ""
      (<["Precision" := "8"]> (<["Format" := "HDF"]>
         (<["Dimensions" := JoinVector shape]> (<["DataType" := "Float"]> ∅))))
      (file +:+ ":" +:+ path) [] in
  let selection :=
    XmlNode "DataItem" ""
      (<["Format" := "XML"]> (<["Dimensions" := Join [3; 3]]> ∅))
      (Join [FieldDescription.timeOffset fieldDescription; 0;
             FieldDescription.componentOffset fieldDescription]
       +:+ " " +:+ Join [1; 1; FieldDescription.componentStride fieldDescription]
       +:+ " " +:+ Join [1; dof; dimension]) [] in
  let output :=
    if FieldDescription.hasTimeDimension fieldDescription then
      XmlNode "DataItem" ""
        (<["Type" := "HyperSlab"]> (<["Dimensions" := Join [1; dof; dimension]]>
           (<["ItemType" := "HyperSlab"]> ∅)))
        "" [selection; whole]
    else
      XmlNode "DataItem" ""
        (<["Precision" := "8"]> (<["Format" := "HDF"]>
           (<["Dimensions" := JoinVector shape]> (<["DataType" := "Float"]>
              (<["Name" := Hdf5PathToName path]> ∅)))))
        (file +:+ ":" +:+ path) [] in
  WriteData element fieldDescription (mkBuilderState s d cm tm)
  = Ok (element ++ [length (Xml.children x)],
        mkBuilderState s (Xml.alterAt element (Xml.addChild output) d) cm tm).
Proof. intros Hx. cbv zeta. by rewrite (WriteData_appends fieldDescription _ _ _ _ _ _ Hx). Qed.

End WriterProperties.

(** ** The invariant of the extractors *)

Section ExtractorProperties.
Context {decl : Declarations}.

(** *** The loop over the topology groups ends within its fuel *)

Lemma child_Some o n c : Hdf.child o n = Some c → Hdf.Name c = n ∧ c ∈ Hdf.Items o.
Proof.
  unfold Hdf.child. intros [Hin Hname]%find_some.
  apply bool_decide_eq_true in Hname. split; [done|]. by apply list_elem_of_In.
Qed.

Lemma topologyFuel_candidates root : topologyFuel root = Datatypes.S (length (candidates root)).
Proof. unfold topologyFuel, candidates. rewrite length_app. by destruct (Hdf.child root "viz"). Qed.

Lemma Contains_Some o n c : Hdf.child o n = Some c → Hdf.Contains o n = true.
Proof. intros H. unfold Hdf.Contains. rewrite H. by apply bool_decide_eq_true_2. Qed.

Lemma Contains_None o n : Hdf.child o n = None → Hdf.Contains o n = false.
Proof.
  intros H. unfold Hdf.Contains. rewrite H. apply bool_decide_eq_false_2. by intros [? ?].
Qed.

Lemma FindPetscHdfChild_cases root name :
  found_among root name (FindPetscHdfChild root name).
Proof.
  assert (∀ o, (∀ c, c ∈ Hdf.Items o → c ∈ candidates root) →
    found_among root name
      (if Hdf.Contains o name then let* found := Hdf.Get o name in Ok (Some found)
       else Ok None)) as Hlookup.
  { intros o Ho. unfold Hdf.Get. destruct (Hdf.child o name) as [c|] eqn:Ec.
    - rewrite (Contains_Some _ _ _ Ec). simpl.
      apply child_Some in Ec as [? ?]. eauto.
    - by rewrite (Contains_None _ _ Ec). }
  assert (∀ c, c ∈ Hdf.Items root → c ∈ candidates root) as Hroot.
  { intros c Hc. unfold candidates. rewrite elem_of_app. by left. }
  unfold FindPetscHdfChild.
  destruct (Hdf.child root "viz") as [viz|] eqn:Eviz.
  - rewrite (Contains_Some _ _ _ Eviz). unfold Hdf.Get at 1. rewrite Eviz. simpl.
    assert (∀ c, c ∈ Hdf.Items viz → c ∈ candidates root) as Hviz.
    { intros c Hc. unfold candidates. rewrite Eviz, elem_of_app. by right. }
    destruct (Hdf.child viz name) as [c|] eqn:Ec.
    + rewrite (Contains_Some _ _ _ Ec). unfold Hdf.Get. rewrite Ec. simpl.
      apply child_Some in Ec as [? ?]. eauto.
    + rewrite (Contains_None _ _ Ec). by apply Hlookup.
  - rewrite (Contains_None _ _ Eviz). by apply Hlookup.
Qed.

Lemma topologyName_inj : Inj (=) (=) topologyName.
Proof.
  intros i j H. unfold topologyName in H. apply (inj (String.app "topology")) in H.
  unfold GetTopologyPostfix, to_string in H.
  repeat case_bool_decide; subst; try done.
  apply (inj (String.app "_")) in H. by apply (inj pretty) in H.
Qed.

(** Some index below the fuel has no topology group: the names of the
    groups met before it are different names of candidates. *)
Lemma topology_missing root :
  ∃ k, (k < topologyFuel root)%nat
       ∧ FindPetscHdfChild root (topologyName (N.of_nat k)) = Ok None.
Proof.
  set (missing k :=
         match FindPetscHdfChild root (topologyName (N.of_nat k)) with
         | Ok None => true
         | _ => false
         end).
  destruct (decide (Exists (λ k, missing k = true) (seq 0 (topologyFuel root))))
    as [Hex|Hall].
  - apply Exists_exists in Hex as (k & Hk%elem_of_seq & Hnone). exists k. split; [lia|].
    unfold missing in Hnone.
    by destruct (FindPetscHdfChild root (topologyName (N.of_nat k))) as [[c|]|].
  - exfalso. apply not_Exists_Forall in Hall; [|intros ?; apply _].
    rewrite Forall_forall in Hall.
    assert (length (seq 0 (topologyFuel root)) ≤ length (candidates root))%nat as Hlen.
    { rewrite <- (length_fmap (topologyName ∘ N.of_nat) (seq 0 _)).
      rewrite <- (length_fmap Hdf.Name (candidates root)).
      apply submseteq_length, NoDup_submseteq.
      - apply NoDup_fmap_2; [|apply NoDup_seq].
        intros i j Hij. apply topologyName_inj in Hij. lia.
      - intros name (k & -> & Hk)%list_elem_of_fmap.
        pose proof (FindPetscHdfChild_cases root (topologyName (N.of_nat k))) as Hfound.
        specialize (Hall k Hk). unfold missing in Hall. simpl in Hall.
        destruct (FindPetscHdfChild root (topologyName (N.of_nat k)))
          as [[c|]|] eqn:Efound; simpl in Hfound; [|done..].
        destruct Hfound as [Hname Hc]. simpl. rewrite <- Hname.
        by apply list_elem_of_fmap_2. }
    rewrite length_seq, topologyFuel_candidates in Hlen. lia.
Qed.

Lemma whileTopology_fuel {S} root (body : HdfObject → N → S → Result S) k :
  ∀ topologyIndex fuel1 fuel2 s,
    FindPetscHdfChild root (topologyName (topologyIndex + N.of_nat k)) = Ok None →
    (k < fuel1)%nat → (k < fuel2)%nat →
    whileTopology fuel1 root topologyIndex body s = whileTopology fuel2 root topologyIndex body s.
Proof.
  induction k as [|k IH]; intros topologyIndex [|fuel1] [|fuel2] s Hnone H1 H2; try lia.
  - simpl. fold (topologyName topologyIndex).
    rewrite N.add_0_r in Hnone. by rewrite Hnone.
  - simpl. fold (topologyName topologyIndex).
    destruct (FindPetscHdfChild root (topologyName topologyIndex)) as [[topologyObject|]|];
      simpl; [|done..].
    destruct (body topologyObject topologyIndex s) as [s'|]; simpl; [|done].
    apply IH; [|lia..].
    by replace (topologyIndex + 1 + N.of_nat k) with (topologyIndex + N.of_nat (Datatypes.S k))
      by lia.
Qed.

(** The fuel [topologyFuel] is enough: more of it changes nothing. *)
Lemma whileTopology_enough_fuel {S} root (body : HdfObject → N → S → Result S) s fuel :
  (topologyFuel root ≤ fuel)%nat →
  whileTopology fuel root 0 body s = whileTopology (topologyFuel root) root 0 body s.
Proof.
  intros Hfuel. destruct (topology_missing root) as (k & Hk & Hnone).
  apply (whileTopology_fuel root body k); [done|lia..].
Qed.

(** *** No time index without a grid *)

Lemma bindR_Ok {A B} (r : Result A) (k : A → Result B) b :
  bindR r k = Ok b → ∃ a, r = Ok a ∧ k a = Ok b.
Proof. destruct r as [a|e]; simpl; [eauto|done]. Qed.

Lemma foldM_invariant {A S} (I : S → Prop) (body : S → A → Result S) l s s' :
  (∀ s x s', I s → body s x = Ok s' → I s') →
  I s → foldM body s l = Ok s' → I s'.
Proof.
  intros Hbody. revert s. induction l as [|x l IH]; intros s Hs; simpl.
  - by intros [= <-].
  - intros (s1 & H1 & H2)%bindR_Ok. eauto.
Qed.

Lemma whileTopology_invariant {S} (I : S → Prop) fuel root topologyIndex
    (body : HdfObject → N → S → Result S) s s' :
  (∀ topologyObject topologyIndex s s', I s → body topologyObject topologyIndex s = Ok s' → I s') →
  I s → whileTopology fuel root topologyIndex body s = Ok s' → I s'.
Proof.
  intros Hbody. revert topologyIndex s.
  induction fuel as [|fuel IH]; intros topologyIndex s Hs; simpl; [done|].
  intros ([topologyObject|] & H0 & H1)%bindR_Ok.
  - apply bindR_Ok in H1 as (s1 & H1 & H2). eauto.
  - by injection H1 as <-.
Qed.

Lemma push_back_at_nonEmpty name grids timeIndex gridDescription :
  nonEmptyGrids (GridCollectionDescription.mk name grids) →
  nonEmptyGrids (GridCollectionDescription.mk name (push_back_at grids timeIndex gridDescription)).
Proof.
  unfold nonEmptyGrids, push_back_at. simpl. intros H k l.
  destruct (decide (timeIndex = k)) as [->|Hk].
  - rewrite lookup_insert_eq. intros [= <-]. by destruct (default [] _).
  - rewrite lookup_insert_ne by done. apply H.
Qed.

Lemma pushGrid_nonEmpty timeIndexCount gridDescription c :
  nonEmptyGrids c → nonEmptyGrids (pushGrid timeIndexCount gridDescription c).
Proof. destruct c. apply push_back_at_nonEmpty. Qed.

Lemma setName_nonEmpty name c : nonEmptyGrids c → nonEmptyGrids (setName name c).
Proof. by destruct c. Qed.

Lemma updateBack_nonEmpty f (gridsCollections : XdmfSpecification) :
  (∀ c, nonEmptyGrids c → nonEmptyGrids (f c)) →
  Forall nonEmptyGrids gridsCollections → Forall nonEmptyGrids (updateBack f gridsCollections).
Proof. intros Hf H. unfold updateBack. apply Forall_alter; [done|]. intros c _. apply Hf. Qed.

Lemma ensureCollection_nonEmpty (gridsCollections : XdmfSpecification) :
  Forall nonEmptyGrids gridsCollections → Forall nonEmptyGrids (ensureCollection gridsCollections).
Proof.
  destruct gridsCollections; simpl; [|done]. intros _. constructor; [|done].
  intros k l. simpl. by rewrite lookup_empty.
Qed.

Lemma empty_nonEmpty name : nonEmptyGrids (GridCollectionDescription.mk name ∅).
Proof. intros k l. simpl. by rewrite lookup_empty. Qed.

Lemma FromPetscHdf_nonEmpty rootObject specification :
  FromPetscHdf rootObject = Ok specification → Forall nonEmptyGrids specification.
Proof.
  unfold FromPetscHdf. intros (geometryObject & _ & H)%bindR_Ok.
  apply bindR_Ok in H as (spec1 & H1 & H).
  assert (Forall nonEmptyGrids spec1) as Hspec1.
  { destruct geometryObject as [geometryObject|]; [|by injection H1 as <-].
    apply bindR_Ok in H1 as (mainGrid & H1 & [= <-]).
    apply Forall_singleton.
    revert H1. apply whileTopology_invariant; [|apply empty_nonEmpty].
    intros topologyObject topologyIndex s s' Hs (time & _ & H2)%bindR_Ok.
    revert H2. apply foldM_invariant; [|done].
    clear. intros s [i t] s' Hs (gridDescription & _ & [= <-])%bindR_Ok.
    destruct s. by apply push_back_at_nonEmpty. }
  destruct (_ || _); [|by injection H as <-].
  apply bindR_Ok in H as (time & _ & H).
  apply bindR_Ok in H as (particles & H & [= <-]).
  apply Forall_app. split; [done|]. constructor; [|done].
  revert H. apply foldM_invariant; [|apply empty_nonEmpty].
  clear. intros s [i t] s' Hs (gridDescription & _ & [= <-])%bindR_Ok.
  destruct s. by apply push_back_at_nonEmpty.
Qed.

Lemma consumeRoot_nonEmpty state hdf5Object state' :
  Forall nonEmptyGrids state.1 → consumeRoot state hdf5Object = Ok state' →
  Forall nonEmptyGrids state'.1.
Proof.
  destruct state as [gridsCollections timeIndexCount]. cbn [fst]. intros Hs.
  unfold consumeRoot. intros (geometryObject & _ & H)%bindR_Ok.
  apply bindR_Ok in H as (spec1 & H1 & H).
  assert (Forall nonEmptyGrids spec1) as Hspec1.
  { destruct geometryObject as [geometryObject|]; [|by injection H1 as <-].
    revert H1. apply whileTopology_invariant; [|by apply ensureCollection_nonEmpty].
    intros topologyObject topologyIndex s s' Hs' (time & _ & H2)%bindR_Ok.
    apply bindR_Ok in H2 as (time0 & _ & H2).
    apply bindR_Ok in H2 as (gridDescription & _ & [= <-]).
    apply updateBack_nonEmpty; [|done]. intros c. apply pushGrid_nonEmpty. }
  apply bindR_Ok in H as (spec2 & H2 & [= <-]). cbn [fst].
  destruct (_ || _); [|by injection H2 as <-].
  apply bindR_Ok in H2 as (time & _ & H2).
  revert H2. apply foldM_invariant.
  - clear. intros s t s' Hs (gridDescription & _ & [= <-])%bindR_Ok.
    apply updateBack_nonEmpty; [|done]. intros c. apply pushGrid_nonEmpty.
  - apply updateBack_nonEmpty; [|by apply ensureCollection_nonEmpty].
    intros c. apply setName_nonEmpty.
Qed.

Lemma FromPetscHdf_consumer_nonEmpty consumer specification :
  FromPetscHdf_consumer consumer = Ok specification → Forall nonEmptyGrids specification.
Proof.
  unfold FromPetscHdf_consumer, consumeRoots.
  intros ([spec n] & H & [= <-])%bindR_Ok.
  change spec with (spec, n).1.
  revert H. apply (foldM_invariant (λ st, Forall nonEmptyGrids st.1)); [|by constructor].
  intros s x s' Hs H. by eapply consumeRoot_nonEmpty.
Qed.


(** The consumer overload never holds more than one collection, whatever
    the roots contain, and counts one time index a root. *)
Lemma consumeRoot_counts state hdf5Object state' :
  consumeRoot state hdf5Object = Ok state' →
  state'.2 = state.2 + 1 ∧ (length state.1 ≤ 1 → length state'.1 ≤ 1)%nat.
Proof.
  destruct state as [gridsCollections timeIndexCount]. cbn [fst snd].
  unfold consumeRoot. intros (geometryObject & _ & H)%bindR_Ok.
  apply bindR_Ok in H as (spec1 & H1 & H).
  apply bindR_Ok in H as (spec2 & H2 & [= <-]). cbn [fst snd].
  split; [done|]. intros Hlen.
  assert (∀ l : XdmfSpecification, length l ≤ 1 → length (ensureCollection l) ≤ 1)%nat
    as Hensure by (intros [|? ?]; simpl; lia).
  assert (length spec1 ≤ 1)%nat as Hspec1.
  { destruct geometryObject as [geometryObject|]; [|by injection H1 as <-].
    revert H1. apply (whileTopology_invariant (λ l, length l ≤ 1)%nat); [|by apply Hensure].
    intros topologyObject topologyIndex l l' Hl (time & _ & H1)%bindR_Ok.
    apply bindR_Ok in H1 as (time0 & _ & H1).
    apply bindR_Ok in H1 as (gridDescription & _ & [= <-]).
    unfold updateBack. by rewrite length_alter. }
  destruct (_ || _); [|by injection H2 as <-].
  apply bindR_Ok in H2 as (time & _ & H2).
  revert H2. apply (foldM_invariant (λ l, length l ≤ 1)%nat).
  - intros l t l' Hl (gridDescription & _ & [= <-])%bindR_Ok.
    unfold updateBack. by rewrite length_alter.
  - unfold updateBack. rewrite length_alter. by apply Hensure.
Qed.

Lemma consumeRoots_counts consumer specification timeIndexCount :
  consumeRoots consumer = Ok (specification, timeIndexCount) →
  timeIndexCount = N.of_nat (length consumer) ∧ (length specification ≤ 1)%nat.
Proof.
  unfold consumeRoots.
  assert (∀ l state state',
            foldM consumeRoot state l = Ok state' →
            state'.2 = state.2 + N.of_nat (length l)
            ∧ (length state.1 ≤ 1 → length state'.1 ≤ 1)%nat) as Hfold.
  { induction l as [|root l IH]; intros state state'; simpl.
    - intros [= <-]. split; [lia|done].
    - intros (state1 & H1 & H2)%bindR_Ok.
      apply consumeRoot_counts in H1 as [Hn Hlen].
      apply IH in H2 as [Hn' Hlen']. split; [lia|auto]. }
  intros H. apply Hfold in H as [Hn Hlen]. simpl in *. split; [lia|]. apply Hlen. lia.
Qed.

(** Reading the time of the first grid under a time index of the map: it
    is there, and the specification stays as it is. *)
Lemma frontTime_defined st i c timeIndex :
  specification st !! i = Some c →
  nonEmptyGrids c →
  is_Some (GridCollectionDescription.grids c !! timeIndex) →
  ∃ t, frontTime i timeIndex st = Ok (t, st).
Proof.
  intros Hc Hne [grids Hgrids].
  unfold frontTime, bindB, grids_index. rewrite Hc, Hgrids. simpl.
  destruct grids as [|grid grids]; [by destruct (Hne _ _ Hgrids)|]. simpl.
  exists (GridDescription.time grid). unfold ret. do 2 f_equal.
  destruct st as [s d cm tm], c as [name gs]. simpl in *. f_equal.
  rewrite insert_id by done. by apply list_insert_id.
Qed.

(** C10.  In a specification that either overload of [FromPetscHdf]
    returns, every time index present in a collection's map leads to a
    list with at least one grid; so [front()] of the list under a key of the
    map, which [Build] takes to read the time, is defined, and reading it
    leaves the builder's state as it is. *)
Theorem FromPetscHdf_grids_nonempty specification :
  (∃ rootObject, FromPetscHdf rootObject = Ok specification)
  ∨ (∃ consumer, FromPetscHdf_consumer consumer = Ok specification) →
  (∀ c timeIndex grids,
     c ∈ specification →
     GridCollectionDescription.grids c !! timeIndex = Some grids →
     grids ≠ [])
  ∧ (∀ d cm tm i c timeIndex,
       specification !! i = Some c →
       is_Some (GridCollectionDescription.grids c !! timeIndex) →
       ∃ t, frontTime i timeIndex (mkBuilderState specification d cm tm)
            = Ok (t, mkBuilderState specification d cm tm)).
Proof.
  intros H.
  assert (Forall nonEmptyGrids specification) as Hall.
  { destruct H as [[rootObject H]|[consumer H]];
      [by eapply FromPetscHdf_nonEmpty | by eapply FromPetscHdf_consumer_nonEmpty]. }
  rewrite Forall_forall in Hall. split.
  - intros c timeIndex grids Hc. by apply Hall.
  - intros d cm tm i c timeIndex Hc Hkey.
    apply (frontTime_defined _ i c); [done| |done].
    apply Hall. by eapply list_elem_of_lookup_2.
Qed.

End ExtractorProperties.

(** ** What [Build] keeps *)

Section Keeping.
Context {decl : Declarations}.
Variable I : BuilderState → Prop.
Hypothesis I_document : ∀ s d d' cm tm,
  I (mkBuilderState s d cm tm) → I (mkBuilderState s d' cm tm).
Hypothesis I_typeMap : ∀ s d cm tm tm',
  I (mkBuilderState s d cm tm) → I (mkBuilderState s d cm tm').
Hypothesis I_cellMap : ∀ s d cm tm dimension numberCorners,
  I (mkBuilderState s d cm tm) →
  I (mkBuilderState s d
       (<[dimension := <[numberCorners := cellType cm dimension numberCorners]>
                         (default ∅ (cm !! dimension))]> cm) tm).

Lemma Keeps_weaken {A} (m : Builder A) (Q R : A → Prop) :
  Keeps I m Q → (∀ a, Q a → R a) → Keeps I m R.
Proof. intros Hm HQR st a st' Hst H. destruct (Hm st a st' Hst H). auto. Qed.

Lemma Keeps_ret {A} (a : A) (Q : A → Prop) : Q a → Keeps I (ret a) Q.
Proof. intros Ha st a' st' Hst [= <- <-]. done. Qed.

Lemma Keeps_bind {A B} (m : Builder A) (k : A → Builder B) (Q : A → Prop) (R : B → Prop) :
  Keeps I m Q → (∀ a, Q a → Keeps I (k a) R) → Keeps I (bindB m k) R.
Proof.
  intros Hm Hk st b st' Hst. unfold bindB.
  destruct (m st) as [[a st1]|] eqn:E; [|done].
  destruct (Hm st a st1 Hst E) as [Hst1 Ha]. by apply Hk.
Qed.

Lemma Keeps_liftR {A} (r : Result A) : Keeps I (liftR r) (λ a, r = Ok a).
Proof. intros st a st' Hst. unfold liftR. destruct r; [|done]. by intros [= <- <-]. Qed.

Lemma Keeps_forEach {A} (l : list A) (body : A → Builder unit) :
  (∀ x, x ∈ l → Keeps I (body x) (λ _, True)) → Keeps I (forEach l body) (λ _, True).
Proof.
  induction l as [|x l IH]; intros Hbody; simpl.
  - by apply Keeps_ret.
  - eapply Keeps_bind; [apply Hbody; by left|]. intros _ _.
    apply IH. intros y Hy. apply Hbody. by right.
Qed.

Lemma Keeps_mapB {A B} (f : A → Builder B) (l : list A) :
  (∀ x, x ∈ l → Keeps I (f x) (λ _, True)) →
  Keeps I (mapB f l) (λ out, length out = length l).
Proof.
  induction l as [|x l IH]; intros Hf; simpl.
  - by apply Keeps_ret.
  - eapply Keeps_bind; [apply Hf; by left|]. intros y _.
    eapply Keeps_bind; [apply IH; intros z Hz; apply Hf; by right|].
    intros ys Hys. apply Keeps_ret. simpl. by rewrite Hys.
Qed.

Lemma Keeps_newChild element name : Keeps I (newChild element name) (λ _, True).
Proof.
  intros [s d cm tm] a st' Hst. unfold newChild. simpl.
  destruct (Xml.elementAt element d); [|done]. intros [= <- <-].
  split; [by eapply I_document|done].
Qed.

Lemma Keeps_onElement element f : Keeps I (onElement element f) (λ _, True).
Proof.
  intros [s d cm tm] a st' Hst. unfold onElement. simpl.
  destruct (Xml.elementAt element d); [|done]. intros [= <- <-].
  split; [by eapply I_document|done].
Qed.

Lemma Keeps_setAttribute element k v : Keeps I (setAttribute element k v) (λ _, True).
Proof. apply Keeps_onElement. Qed.

Lemma Keeps_setValue element v : Keeps I (setValue element v) (λ _, True).
Proof. apply Keeps_onElement. Qed.

Lemma Keeps_cellMap_index dimension numberCorners :
  Keeps I (cellMap_index dimension numberCorners) (λ _, True).
Proof.
  intros [s d cm tm] a st' Hst. rewrite cellMap_index_ok. intros [= <- <-].
  split; [by apply I_cellMap|done].
Qed.

Lemma Keeps_typeMap_index fieldType : Keeps I (typeMap_index fieldType) (λ _, True).
Proof.
  intros [s d cm tm] a st' Hst. unfold typeMap_index. simpl. intros [= <- <-].
  split; [by eapply I_typeMap|done].
Qed.

(** Sequencing when nothing is asked of the values. *)
Lemma Keeps_seq {A B} (m : Builder A) (k : A → Builder B) (R : B → Prop) :
  Keeps I m (λ _, True) → (∀ a, Keeps I (k a) R) → Keeps I (bindB m k) R.
Proof. intros Hm Hk. eapply Keeps_bind; [exact Hm|]. intros a _. apply Hk. Qed.

Lemma Keeps_forget {A} (m : Builder A) (Q : A → Prop) : Keeps I m Q → Keeps I m (λ _, True).
Proof. intros Hm. by eapply Keeps_weaken. Qed.

End Keeping.

Ltac keeps_by known :=
  repeat first
    [ known
    | apply Keeps_ret; exact Logic.I
    | apply Keeps_newChild; assumption
    | apply Keeps_setAttribute; assumption
    | apply Keeps_setValue; assumption
    | apply Keeps_cellMap_index; assumption
    | apply Keeps_typeMap_index; assumption
    | apply Keeps_seq; [| intros ? ]
    | match goal with
      | |- Keeps _ (if ?b then _ else _) _ => destruct b
      | |- Keeps _ (match ?o with Some _ => _ | None => _ end) _ => destruct o
      end ].

Ltac keeps := keeps_by fail.

Section KeepingWriters.
Context {decl : Declarations}.
Variable I : BuilderState → Prop.
Hypothesis I_document : ∀ s d d' cm tm,
  I (mkBuilderState s d cm tm) → I (mkBuilderState s d' cm tm).
Hypothesis I_typeMap : ∀ s d cm tm tm',
  I (mkBuilderState s d cm tm) → I (mkBuilderState s d cm tm').
Hypothesis I_cellMap : ∀ s d cm tm dimension numberCorners,
  I (mkBuilderState s d cm tm) →
  I (mkBuilderState s d
       (<[dimension := <[numberCorners := cellType cm dimension numberCorners]>
                         (default ∅ (cm !! dimension))]> cm) tm).

Lemma Keeps_WriteData element fieldDescription :
  Keeps I (WriteData element fieldDescription) (λ _, True).
Proof. unfold WriteData. keeps. Qed.

Lemma Keeps_WriteCells element topologyDescription :
  Keeps I (WriteCells element topologyDescription) (λ _, True).
Proof. unfold WriteCells. keeps. Qed.

Lemma Keeps_WriteVertices element geometryDescription :
  Keeps I (WriteVertices element geometryDescription) (λ _, True).
Proof. unfold WriteVertices. keeps_by ltac:(by apply Keeps_WriteData). Qed.

Lemma Keeps_GenerateTimeGrid element time :
  Keeps I (GenerateTimeGrid element time) (λ _, True).
Proof. unfold GenerateTimeGrid. keeps. Qed.

Lemma Keeps_GenerateSpatialGrid element domainName collectionType :
  Keeps I (GenerateSpatialGrid element domainName collectionType) (λ _, True).
Proof. unfold GenerateSpatialGrid. keeps. Qed.

Lemma Keeps_GenerateSpaceGrid element topologyDescription geometryDescription domainName :
  Keeps I (GenerateSpaceGrid element topologyDescription geometryDescription domainName)
    (λ _, True).
Proof.
  unfold GenerateSpaceGrid.
  keeps_by ltac:(first [by apply Keeps_WriteCells | by apply Keeps_WriteVertices]).
Qed.

Lemma Keeps_WriteField element fieldDescription :
  Keeps I (WriteField element fieldDescription) (λ _, True).
Proof. unfold WriteField. keeps_by ltac:(by apply Keeps_WriteData). Qed.

Lemma Keeps_buildGrid sharedBaseGrid name grid :
  Keeps I (buildGrid sharedBaseGrid name grid) (λ _, True).
Proof.
  unfold buildGrid.
  keeps_by ltac:(first [ by apply Keeps_GenerateSpatialGrid
                       | by apply Keeps_GenerateSpaceGrid
                       | apply Keeps_forEach; intros ? _; by apply Keeps_WriteField ]).
Qed.

(** The loop over the collections, given that the indexing of the
    specification's maps it does keeps [I]. *)
Lemma Keeps_buildCollection domainElement i (known : GridCollectionDescription.t → Prop) :
  Keeps I (collectionAt i) known →
  (∀ c timeIndex,
     known c → is_Some (GridCollectionDescription.grids c !! timeIndex) →
     Keeps I (grids_index i timeIndex) (λ _, True)) →
  (∀ c timeIndex,
     known c → timeIndex < N.of_nat (size (GridCollectionDescription.grids c)) →
     Keeps I (grids_index i timeIndex) (λ _, True)) →
  Keeps I (buildCollection domainElement i) (λ _, True).
Proof.
  intros Hat Hkey Hposition. unfold buildCollection.
  eapply Keeps_bind; [exact Hat|]. intros c Hc.
  set (grids := GridCollectionDescription.grids c).
  set (timeIndexes := merge_sort N.le (map_to_list grids).*1).
  assert (∀ timeIndex, timeIndex ∈ timeIndexes → is_Some (grids !! timeIndex)) as Hin.
  { intros timeIndex Hin. subst timeIndexes. rewrite merge_sort_Permutation in Hin.
    apply list_elem_of_fmap in Hin as ([k gs] & -> & Hin).
    apply elem_of_map_to_list in Hin. eauto. }
  assert (length timeIndexes = size grids) as Hlen.
  { subst timeIndexes. rewrite merge_sort_Permutation, length_fmap.
    by rewrite length_map_to_list. }
  eapply Keeps_seq.
  { destruct (bool_decide (grids = ∅)); [by apply Keeps_ret|].
    destruct timeIndexes as [|timeIndex0 rest] eqn:E; [by apply Keeps_ret|].
    unfold frontTime. eapply Keeps_seq.
    - eapply Keeps_seq; [apply (Hkey c); [done|apply Hin; by left]|].
      intros gs. eapply Keeps_seq; [eapply Keeps_forget, Keeps_liftR|].
      intros g. by apply Keeps_ret.
    - intros t. by apply Keeps_ret. }
  intros useTime. eapply Keeps_bind.
  { apply Keeps_mapB. intros timeIndex Htime. unfold frontTime.
    eapply Keeps_seq; [by apply (Hkey c), Hin|].
    intros gs. eapply Keeps_seq; [eapply Keeps_forget, Keeps_liftR|].
    intros g. by apply Keeps_ret. }
  intros timeVector Hvector. simpl in Hvector.
  eapply Keeps_seq.
  { destruct useTime; [by apply Keeps_GenerateTimeGrid|by apply Keeps_ret]. }
  intros gridBase. apply Keeps_forEach. intros timeIndex Htime%elem_of_range.
  eapply Keeps_seq; [apply (Hposition c); [done|fold grids; lia]|].
  intros gs. eapply Keeps_seq.
  { destruct (bool_decide _); [by apply Keeps_GenerateSpatialGrid|by apply Keeps_ret]. }
  intros sharedBaseGrid. apply Keeps_forEach. intros g _. by apply Keeps_buildGrid.
Qed.

Lemma Keeps_Build (known : nat → GridCollectionDescription.t → Prop) :
  (∀ i, Keeps I (collectionAt i) (known i)) →
  (∀ i c timeIndex,
     known i c → is_Some (GridCollectionDescription.grids c !! timeIndex) →
     Keeps I (grids_index i timeIndex) (λ _, True)) →
  (∀ i c timeIndex,
     known i c → timeIndex < N.of_nat (size (GridCollectionDescription.grids c)) →
     Keeps I (grids_index i timeIndex) (λ _, True)) →
  Keeps I Build (λ _, True).
Proof.
  intros Hat Hkey Hposition [s d cm tm] a st' Hst. unfold Build.
  cbn [specification cellMap typeMap].
  apply (I_document _ _ (XmlNode "Xdmf" preamble ∅ "" [])) in Hst.
  revert Hst. generalize (mkBuilderState s (XmlNode "Xdmf" preamble ∅ "" []) cm tm).
  intros st0 Hst0. revert st0 a st' Hst0.
  change (Keeps I
            (let+ domainElement := newChild [] "Domain" in
             setAttribute domainElement "Name" "domain" ;;
             forEach (seq 0 (length s)) (buildCollection domainElement))
            (λ _, True)).
  keeps_by ltac:(apply Keeps_forEach; intros i _;
                 apply (Keeps_buildCollection _ _ (known i)); [apply Hat | apply Hkey | apply Hposition]).
Qed.

End KeepingWriters.

Section BuildKeeps.
Context {decl : Declarations}.

Lemma grids_index_present i c timeIndex st :
  specification st !! i = Some c →
  is_Some (GridCollectionDescription.grids c !! timeIndex) →
  ∃ grids, grids_index i timeIndex st = Ok (grids, st).
Proof.
  intros Hc [grids Hgrids]. exists grids. unfold grids_index. rewrite Hc, Hgrids. simpl.
  destruct st as [s d cm tm], c as [name gs]. simpl in *. do 3 f_equal.
  rewrite insert_id by done. by apply list_insert_id.
Qed.

(** [Build] on a specification whose collections have the time indices
    0 .. n-1 returns it as it was. *)
Theorem Build_keeps_contiguous specification0 :
  Forall contiguous specification0 →
  Keeps (λ st, specification st = specification0) Build (λ _, True).
Proof.
  intros Hcontiguous.
  apply Keeps_Build with (known := λ i c, specification0 !! i = Some c);
    [done..| | |].
  - intros i st c st' Hst. unfold collectionAt.
    destruct (specification st !! i) as [c'|] eqn:E; [|done].
    intros [= <- <-]. split; [done|]. by rewrite <- Hst.
  - intros i c timeIndex Hc Hkey st grids st' Hst H.
    rewrite <- Hst in Hc.
    destruct (grids_index_present i c timeIndex st Hc Hkey) as [grids' H'].
    rewrite H' in H. by injection H as <- <-.
  - intros i c timeIndex Hc Hposition st grids st' Hst H.
    assert (contiguous c) as Hcont.
    { rewrite Forall_forall in Hcontiguous. apply Hcontiguous.
      by eapply list_elem_of_lookup_2. }
    rewrite <- Hst in Hc.
    destruct (grids_index_present i c timeIndex st Hc (Hcont _ Hposition)) as [grids' H'].
    rewrite H' in H. by injection H as <- <-.
Qed.

(** [Build] leaves a cell-type table that answers as the fixed one
    answering so: whatever it adds is an empty string for a new pair. *)
Theorem Build_keeps_cellMap :
  Keeps (λ st, answersAsInit (cellMap st)) Build (λ _, True).
Proof.
  apply Keeps_Build with (known := λ _ _, True); [done..| | | |].
  - intros s d cm tm dimension numberCorners H d' c'. simpl. by rewrite cellType_index.
  - intros i st c st' Hst. unfold collectionAt.
    destruct (specification st !! i); [|done]. by intros [= <- <-].
  - intros i c timeIndex _ _ st grids st' Hst. unfold grids_index.
    destruct (specification st !! i); [|done]. by intros [= <- <-].
  - intros i c timeIndex _ _ st grids st' Hst. unfold grids_index.
    destruct (specification st !! i); [|done]. by intros [= <- <-].
Qed.

(** The two as statements about a call of [Build] that returns. *)
Corollary Build_contiguous_unchanged st st' :
  Forall contiguous (specification st) →
  Build st = Ok (tt, st') →
  specification st' = specification st.
Proof. intros Hc H. by apply (Build_keeps_contiguous _ Hc st tt st'). Qed.

(** X4.  Whatever the specification, when [Build] returns in a process
    whose cell-type table answers as the fixed one, the table answers as the
    fixed one afterwards too: what indexing adds to it is the empty string,
    for pairs it did not have. *)
Corollary Build_cellMap_answers st st' :
  answersAsInit (cellMap st) →
  Build st = Ok (tt, st') →
  answersAsInit (cellMap st').
Proof. intros Ht H. by apply (Build_keeps_cellMap st tt st'). Qed.

End BuildKeeps.

(** ** The elements of a grid *)

Section GridOutput.
Context {decl : Declarations}.

Lemma alterAt_last_child r c g d x :
  Xml.elementAt r d = Some x →
  Xml.alterAt (r ++ [length (Xml.children x)]) g (Xml.alterAt r (Xml.addChild c) d)
  = Xml.alterAt r (Xml.addChild (g c)) d.
Proof.
  intros Hd. rewrite alterAt_app, alterAt_compose.
  apply (alterAt_ext _ _ _ _ _ Hd). destruct x as [n p a v cs]. simpl.
  f_equal. rewrite <- (Nat.add_0_r (length cs)). by rewrite alter_app_r.
Qed.

Lemma typeMap_index_ok fieldType s d cm tm :
  typeMap_index fieldType (mkBuilderState s d cm tm)
  = Ok (typeLabel tm fieldType,
        mkBuilderState s d cm (<[fieldType := typeLabel tm fieldType]> tm)).
Proof. done. Qed.

Lemma typeLabel_index table fieldType t :
  typeLabel (<[fieldType := typeLabel table fieldType]> table) t = typeLabel table t.
Proof.
  unfold typeLabel. destruct (decide (fieldType = t)) as [<-|Ht].
  - by rewrite lookup_insert_eq.
  - by rewrite lookup_insert_ne.
Qed.

Lemma AppendsOnly_here m c s d cm tm r E e0 :
  AppendsOnly m c →
  Xml.elementAt r d = Some e0 →
  m r (mkBuilderState s (Xml.alterAt r (λ _, E) d) cm tm)
  = Ok (tt, mkBuilderState s (Xml.alterAt r (λ _, Xml.addChild c E) d) cm tm).
Proof.
  intros Hm Hr. pose proof (AppendsOnly_focus m c s d cm tm r [] E e0 E Hm Hr eq_refl) as H.
  by rewrite app_nil_r in H.
Qed.

Lemma WriteField_appends fieldDescription s d cm tm element x :
  Xml.elementAt element d = Some x →
  WriteField element fieldDescription (mkBuilderState s d cm tm)
  = Ok (tt, mkBuilderState s
              (Xml.alterAt element (Xml.addChild (attributeElement tm fieldDescription)) d) cm
              (<[FieldDescription.fieldType fieldDescription
                 := typeLabel tm (FieldDescription.fieldType fieldDescription)]> tm)).
Proof.
  intros Hx. unfold WriteField, attributeElement.
  pose proof (elementAt_new_child element (XmlNode "Attribute" "" ∅ "" []) d x Hx) as Hr.
  rewrite (enter_child _ _ _ _ _ _ _ _ Hx). cbv beta.
  set (r := element ++ [length (Xml.children x)]) in *.
  set (d1 := Xml.alterAt element _ d) in *.
  builder_step Hr.
  builder_step_by ltac:(apply typeMap_index_ok).
  do 2 builder_step Hr.
  change (bindB (WriteData r fieldDescription) (λ _, ret tt))
    with (WriteVertices r fieldDescription).
  erewrite (AppendsOnly_here (λ element, WriteVertices element _))
    by first [apply WriteVertices_appends | exact Hr].
  cbn [Xml.addChild]. subst r d1.
  by rewrite (leave_child _ _ _ _ _ Hx).
Qed.

Lemma GenerateSpatialGrid_appends domainName collectionType :
  Appends (λ element, GenerateSpatialGrid element domainName collectionType)
    (spatialGridElement domainName collectionType).
Proof.
  intros s d cm tm element x Hx. unfold GenerateSpatialGrid, spatialGridElement.
  pose proof (elementAt_new_child element (XmlNode Grid "" ∅ "" []) d x Hx) as Hr.
  rewrite (enter_child _ _ _ _ _ _ _ _ Hx). cbv beta.
  set (r := element ++ [length (Xml.children x)]) in *.
  set (d1 := Xml.alterAt element _ d) in *.
  do 2 builder_step Hr.
  destruct (decide (collectionType = "")) as [->|Hc].
  - rewrite bool_decide_eq_false_2 by (by intros H).
    repeat builder_step Hr. unfold ret. subst r d1.
    by rewrite (leave_child _ _ _ _ _ Hx).
  - rewrite bool_decide_eq_true_2 by done. rewrite (bool_decide_eq_false_2 _ Hc).
    repeat builder_step Hr. unfold ret. subst r d1.
    by rewrite (leave_child _ _ _ _ _ Hx).
Qed.

Lemma GenerateTimeGrid_appends time :
  Appends (λ element, GenerateTimeGrid element time) (timeGridElement time).
Proof.
  intros s d cm tm element x Hx. unfold GenerateTimeGrid, timeGridElement.
  pose proof (elementAt_new_child element (XmlNode Grid "" ∅ "" []) d x Hx) as Hr.
  rewrite (enter_child _ _ _ _ _ _ _ _ Hx). cbv beta.
  set (r := element ++ [length (Xml.children x)]) in *.
  set (d1 := Xml.alterAt element _ d) in *.
  repeat builder_step Hr.
  unfold ret. subst r d1. by rewrite (leave_child _ _ _ _ _ Hx).
Qed.

Lemma addChildren_nil e : addChildren [] e = e.
Proof. destruct e. simpl. by rewrite app_nil_r. Qed.

Lemma addChildren_cons c cs e : addChildren (c :: cs) e = addChildren cs (Xml.addChild c e).
Proof. destruct e. simpl. by rewrite <- app_assoc. Qed.

(** The fields of a grid become Attribute elements of the grid's element,
    in their order; the labels are those the type table yields on entry. *)
Lemma forEach_WriteField fields : ∀ s d cm tm element x,
  Xml.elementAt element d = Some x →
  ∃ tm',
    forEach fields (WriteField element) (mkBuilderState s d cm tm)
    = Ok (tt, mkBuilderState s
                (Xml.alterAt element (addChildren (attributeElement tm <$> fields)) d) cm tm')
    ∧ ∀ t, typeLabel tm' t = typeLabel tm t.
Proof.
  induction fields as [|f fields IH]; intros s d cm tm element x Hx; simpl.
  - exists tm. split; [|done]. unfold ret. do 3 f_equal.
    symmetry. rewrite <- (alterAt_id element d x Hx) at 2.
    apply (alterAt_ext _ _ _ _ _ Hx), addChildren_nil.
  - unfold bindB at 1. rewrite (WriteField_appends f _ _ _ _ _ _ Hx).
    destruct (IH s (Xml.alterAt element (Xml.addChild (attributeElement tm f)) d) cm
                (<[FieldDescription.fieldType f := typeLabel tm (FieldDescription.fieldType f)]> tm)
                element (Xml.addChild (attributeElement tm f) x))
      as (tm' & -> & Hlabels).
    { by rewrite elementAt_alterAt, Hx. }
    exists tm'. split.
    + do 3 f_equal. rewrite alterAt_compose.
      apply (alterAt_ext _ _ _ _ _ Hx). simpl. rewrite addChildren_cons. f_equal.
      apply list_fmap_ext. intros i f' _. unfold attributeElement.
      by rewrite typeLabel_index.
    + intros t. by rewrite Hlabels, typeLabel_index.
Qed.

End GridOutput.

(** ** What the other writers emit *)

Section WriterOutputs.
Context {decl : Declarations}.

(** X11.  [Hdf5PathToName] keeps the length of the path, puts '_' where the path
    has '/' and keeps every other character where it is; so the name has no
    '/', and naming a name changes nothing. *)
Theorem Hdf5PathToName_no_slash hdf5Path :
  String.length (Hdf5PathToName hdf5Path) = String.length hdf5Path
  ∧ (∀ i, String.get i (Hdf5PathToName hdf5Path) ≠ Some "/"%char)
  ∧ (∀ i c, String.get i hdf5Path = Some c → c ≠ "/"%char →
            String.get i (Hdf5PathToName hdf5Path) = Some c)
  ∧ (∀ i, String.get i hdf5Path = Some "/"%char →
          String.get i (Hdf5PathToName hdf5Path) = Some "_"%char)
  ∧ Hdf5PathToName (Hdf5PathToName hdf5Path) = Hdf5PathToName hdf5Path.
Proof.
  induction hdf5Path as [|c rest (IHlen & IHno & IHkeep & IHslash & IHidem)]; simpl.
  - repeat split; done.
  - repeat split.
    + by rewrite IHlen.
    + intros [|i]; simpl; [|apply IHno]. case_bool_decide; congruence.
    + intros [|i] c'; simpl; [|apply IHkeep].
      intros [= ->] Hc. by rewrite bool_decide_eq_false_2.
    + intros [|i]; simpl; [|apply IHslash].
      intros [= ->]. by rewrite bool_decide_eq_true_2.
    + rewrite IHidem. f_equal. repeat case_bool_decide; congruence.
Qed.

(** X8.  [WriteCells] appends one DataItem to the element it is given: the
    reference to the stored cells, named after their path, of dimensions
    "number numberCorners" and the address "file:path".  The element keeps
    what it had, and nothing else of the state changes. *)
Theorem WriteCells_output s d cm tm element x topologyDescription :
  Xml.elementAt element d = Some x →
  let file := Location.file (TopologyDescription.location topologyDescription) in
  let path := Location.path (TopologyDescription.location topologyDescription) in
  let output :=
    XmlNode "DataItem" ""
      (<["Dimensions" := to_string (TopologyDescription.number topologyDescription) +:+ " "
                         +:+ to_string (TopologyDescription.numberCorners topologyDescription)]>
         (<["NumberType" := "Float"]> (<["Precision" := "8"]> (<["Format" := "HDF"]>
            (<["ItemType" := "Uniform"]> (<["Name" := Hdf5PathToName path]> ∅))))))
      (file +:+ ":" +:+ path) [] in
  WriteCells element topologyDescription (mkBuilderState s d cm tm)
  = Ok (tt, mkBuilderState s (Xml.alterAt element (Xml.addChild output) d) cm tm)
  ∧ Xml.elementAt element (Xml.alterAt element (Xml.addChild output) d)
    = Some (XmlNode (Xml.name x) (Xml.preamble x) (Xml.attributes x) (Xml.value x)
              (Xml.children x ++ [output])).
Proof.
  intros Hx. cbv zeta. split.
  - by rewrite (WriteCells_appends topologyDescription _ _ _ _ _ _ Hx).
  - rewrite elementAt_alterAt, Hx. by destruct x.
Qed.

(** X9.  [GenerateTimeGrid] appends the temporal collection "TimeSeries" to the
    element it is given and returns the reference to it: a Grid holding one
    Time element of type List, which holds the time values as one XML
    DataItem whose Dimensions is their number. *)
Theorem GenerateTimeGrid_output s d cm tm element x time :
  Xml.elementAt element d = Some x →
  let values :=
    XmlNode "DataItem" ""
      (<["Dimensions" := to_string (N.of_nat (length time))]>
         (<["NumberType" := "Float"]> (<["Format" := "XML"]> ∅)))
      (JoinVector_double time) [] in
  let output :=
    XmlNode "Grid" ""
      (<["CollectionType" := "Temporal"]> (<["GridType" := "Collection"]>
         (<["Name" := "TimeSeries"]> ∅)))
      "" [XmlNode "Time" "" (<["TimeType" := "List"]> ∅) "" [values]] in
  GenerateTimeGrid element time (mkBuilderState s d cm tm)
  = Ok (element ++ [length (Xml.children x)],
        mkBuilderState s (Xml.alterAt element (Xml.addChild output) d) cm tm)
  ∧ Xml.elementAt (element ++ [length (Xml.children x)])
      (Xml.alterAt element (Xml.addChild output) d) = Some output.
Proof.
  intros Hx. cbv zeta. split; [|by apply elementAt_new_child].
  by rewrite (GenerateTimeGrid_appends time _ _ _ _ _ _ Hx).
Qed.

(** X10.  [GenerateSpatialGrid] appends a Grid of type Collection with the given
    name to the element it is given and returns the reference to it; the
    Grid has a CollectionType exactly when the collection type given is
    not empty. *)
Theorem GenerateSpatialGrid_output s d cm tm element x domainName collectionType :
  Xml.elementAt element d = Some x →
  let named : gmap string string :=
    <["GridType" := "Collection"]> (<["Name" := domainName]> ∅) in
  let output :=
    XmlNode "Grid" ""
      (if bool_decide (collectionType = "") then named
       else <["CollectionType" := collectionType]> named) "" [] in
  GenerateSpatialGrid element domainName collectionType (mkBuilderState s d cm tm)
  = Ok (element ++ [length (Xml.children x)],
        mkBuilderState s (Xml.alterAt element (Xml.addChild output) d) cm tm)
  ∧ Xml.elementAt (element ++ [length (Xml.children x)])
      (Xml.alterAt element (Xml.addChild output) d) = Some output
  ∧ (Xml.attributes output !! "CollectionType" = None ↔ collectionType = "").
Proof.
  intros Hx. cbv zeta. split; [|split; [by apply elementAt_new_child|]].
  - by rewrite (GenerateSpatialGrid_appends domainName collectionType _ _ _ _ _ _ Hx).
  - case_bool_decide as Hc; simpl.
    + by rewrite !lookup_insert_ne.
    + rewrite lookup_insert_eq. split; [done|]. intros. by destruct Hc.
Qed.

(** X6.  [GenerateSpaceGrid] appends a uniform Grid with the given name to
    the element it is given, which keeps what it had, and returns the
    reference to the Grid.  The Grid holds the element "Topology" and the
    element "Geometry", in this order.  The Topology has what the cell-type
    table yields as TopologyType; NodesPerElement when the pair (dimension,
    numberCorners) is in the table of nodes per cell, the number of entities
    when the entry is negative and the entry otherwise; NumberOfElements and
    the reference to the cells exactly when numberCorners is not 0.  The
    Geometry is "XYZ" for more than two components, "XY" otherwise, and
    holds the reference to the vertices.  Nothing else of the document
    changes, the specification and the type table stay as they are, and
    the cell-type table answers as before. *)
Theorem GenerateSpaceGrid_output s d cm tm element x
    topologyDescription geometryDescription domainName :
  Xml.elementAt element d = Some x →
  let dimension := TopologyDescription.dimension topologyDescription in
  let numberCorners := TopologyDescription.numberCorners topologyDescription in
  let number := TopologyDescription.number topologyDescription in
  let file := Location.file (TopologyDescription.location topologyDescription) in
  let path := Location.path (TopologyDescription.location topologyDescription) in
  let topologyType := default "" (cm !! dimension ≫= (.!! numberCorners)) in
  let cells :=
    XmlNode "DataItem" ""
      (<["Dimensions" := to_string number +:+ " " +:+ to_string numberCorners]>
         (<["NumberType" := "Float"]> (<["Precision" := "8"]> (<["Format" := "HDF"]>
            (<["ItemType" := "Uniform"]> (<["Name" := Hdf5PathToName path]> ∅))))))
      (file +:+ ":" +:+ path) [] in
  let typed : gmap string string := <["TopologyType" := topologyType]> ∅ in
  let counted :=
    match nodesPerCell !! dimension ≫= (.!! numberCorners) with
    | Some nodesPerCellValue =>
        <["NodesPerElement" := if bool_decide (nodesPerCellValue < 0)%Z
                               then to_string number
                               else to_string (Z.to_N nodesPerCellValue)]> typed
    | None => typed
    end in
  let topology :=
    if bool_decide (numberCorners = 0)
    then XmlNode "Topology" "" counted "" []
    else XmlNode "Topology" "" (<["NumberOfElements" := to_string number]> counted) ""
           [cells] in
  let geometry :=
    XmlNode "Geometry" ""
      (<["GeometryType" :=
           if bool_decide (2 < FieldDescription.GetDimension geometryDescription)
           then "XYZ" else "XY"]> ∅)
      "" [dataReference geometryDescription] in
  let output :=
    XmlNode "Grid" "" (<["GridType" := "Uniform"]> (<["Name" := domainName]> ∅)) ""
      [topology; geometry] in
  let gridItem := element ++ [length (Xml.children x)] in
  let document' := Xml.alterAt element (Xml.addChild output) d in
  let cellMap' :=
    <[dimension := <[numberCorners := topologyType]> (default ∅ (cm !! dimension))]> cm in
  GenerateSpaceGrid element topologyDescription geometryDescription domainName
    (mkBuilderState s d cm tm)
  = Ok (gridItem, mkBuilderState s document' cellMap' tm)
  ∧ Xml.elementAt gridItem document' = Some output
  ∧ Xml.elementAt element document'
    = Some (XmlNode (Xml.name x) (Xml.preamble x) (Xml.attributes x) (Xml.value x)
              (Xml.children x ++ [output]))
  ∧ (∀ dimension' numberCorners',
       default "" (cellMap' !! dimension' ≫= (.!! numberCorners'))
       = default "" (cm !! dimension' ≫= (.!! numberCorners')))
  ∧ Xml.attributes topology !! "NodesPerElement"
    = (match nodesPerCell !! dimension ≫= (.!! numberCorners) with
       | Some nodesPerCellValue =>
           Some (if bool_decide (nodesPerCellValue < 0)%Z then to_string number
                 else to_string (Z.to_N nodesPerCellValue))
       | None => None
       end)
  ∧ Xml.attributes topology !! "NumberOfElements"
    = (if bool_decide (numberCorners = 0) then None else Some (to_string number)).
Proof.
  intros Hx dimension numberCorners number file path topologyType cells typed counted
    topology geometry output gridItem document' cellMap'.
  assert (output = spaceGridElement topologyDescription geometryDescription domainName
                     (cellType cm dimension numberCorners)) as Houtput.
  { subst output topology. unfold spaceGridElement, topologyElement, geometryElement.
    fold dimension numberCorners number. do 2 f_equal.
    destruct (decide (numberCorners = 0)) as [Hc|Hc].
    - rewrite (bool_decide_eq_true_2 (numberCorners = 0)) by done.
      by rewrite (bool_decide_eq_false_2 (numberCorners ≠ 0)) by (by intros H).
    - rewrite (bool_decide_eq_false_2 (numberCorners = 0)) by done.
      by rewrite (bool_decide_eq_true_2 (numberCorners ≠ 0)) by done. }
  split; [|split; [|split; [|split; [|split]]]].
  - subst document'. rewrite Houtput. by apply GenerateSpaceGrid_appends.
  - subst gridItem document'. by rewrite (elementAt_new_child _ _ _ _ Hx).
  - subst document'. rewrite elementAt_alterAt, Hx. simpl. by destruct x.
  - intros dimension' numberCorners'. apply (cellType_index cm).
  - subst topology counted typed.
    destruct (nodesPerCell !! dimension ≫= lookup numberCorners) as [nodesPerCellValue|];
      destruct (bool_decide (numberCorners = 0)); simpl;
      by rewrite ?lookup_insert_ne by done.
  - subst topology counted typed.
    destruct (nodesPerCell !! dimension ≫= lookup numberCorners) as [nodesPerCellValue|];
      destruct (bool_decide (numberCorners = 0)); simpl;
      by rewrite ?lookup_insert_ne by done.
Qed.

(** X7.  [WriteField] appends one Attribute to the element it is given: it has
    the field's name, the label of its type, "Node" or "Cell" as Center, and
    holds the reference to the field's data.  The label is what the type
    table yields: "Scalar", "Vector", "Tensor6" or "Matrix" in a process
    whose table is the fixed one, and the empty string for the type NONE,
    which the table does not have; indexing the table with a type it does
    not have never fails, and the table answers the same afterwards. *)
Theorem WriteField_output s d cm tm element x fieldDescription :
  Xml.elementAt element d = Some x →
  let fieldType := FieldDescription.fieldType fieldDescription in
  let label := default "" (tm !! fieldType) in
  let output :=
    XmlNode "Attribute" ""
      (<["Center" := match FieldDescription.fieldLocation fieldDescription with
                     | NODE => "Node"
                     | CELL => "Cell"
                     end]>
         (<["Type" := label]> (<["Name" := FieldDescription.name fieldDescription]> ∅)))
      "" [dataReference fieldDescription] in
  WriteField element fieldDescription (mkBuilderState s d cm tm)
  = Ok (tt, mkBuilderState s (Xml.alterAt element (Xml.addChild output) d) cm
              (<[fieldType := label]> tm))
  ∧ (∀ t, default "" (<[fieldType := label]> tm !! t) = default "" (tm !! t))
  ∧ (tm = typeMap_init →
     label = match fieldType with
             | SCALAR => "Scalar"
             | VECTOR => "Vector"
             | TENSOR => "Tensor6"
             | MATRIX => "Matrix"
             | NONE => ""
             end).
Proof.
  intros Hx. cbv zeta. split; [|split].
  - by rewrite (WriteField_appends fieldDescription _ _ _ _ _ _ Hx).
  - intros t. apply typeLabel_index.
  - intros ->. by destruct (FieldDescription.fieldType fieldDescription).
Qed.

End WriterOutputs.

(** ** The document [Build] makes *)

Section DocumentOutput.
Context {decl : Declarations}.

(** The element [buildGrid] appends for a grid: the uniform grid with its
    topology, its geometry and one Attribute a field, in the order of the
    fields; for a hybrid mesh the collection of the grid of the hybrid
    topology and that grid.  The two tables answer afterwards as before. *)
Lemma buildGrid_appends s d cm tm sharedBaseGrid x name grid :
  Xml.elementAt sharedBaseGrid d = Some x →
  ∃ cm' tm',
    buildGrid sharedBaseGrid name grid (mkBuilderState s d cm tm)
    = Ok (tt, mkBuilderState s
                (Xml.alterAt sharedBaseGrid (Xml.addChild (gridElement cm tm name grid)) d)
                cm' tm')
    ∧ (∀ dimension numberCorners,
         cellType cm' dimension numberCorners = cellType cm dimension numberCorners)
    ∧ (∀ fieldType, typeLabel tm' fieldType = typeLabel tm fieldType).
Proof.
  intros Hx. unfold buildGrid, gridElement.
  destruct (bool_decide (0 < TopologyDescription.number (GridDescription.hybridTopology grid))).
  - (* a hybrid mesh *)
    unfold bindB at 1.
    rewrite (GenerateSpatialGrid_appends name GenerateSpatialGrid_collectionType
               _ _ _ _ _ _ Hx).
    set (C0 := spatialGridElement name GenerateSpatialGrid_collectionType).
    set (rc := sharedBaseGrid ++ [length (Xml.children x)]).
    set (D1 := Xml.alterAt sharedBaseGrid (Xml.addChild C0) d).
    assert (Xml.elementAt rc D1 = Some C0) as H1 by by apply elementAt_new_child.
    unfold bindB at 1. unfold bindB at 1.
    rewrite (GenerateSpaceGrid_appends _ _ _ _ _ _ _ _ _ H1). cbv zeta.
    set (SG1 := spaceGridElement (GridDescription.hybridTopology grid) _ _ _).
    set (cm1 := <[_ := _]> cm). unfold ret at 1.
    assert (Xml.elementAt rc (Xml.alterAt rc (Xml.addChild SG1) D1)
            = Some (Xml.addChild SG1 C0)) as H2 by by rewrite elementAt_alterAt, H1.
    unfold bindB at 1.
    rewrite (GenerateSpaceGrid_appends _ _ _ _ _ _ _ _ _ H2). cbv zeta.
    set (SG2 := spaceGridElement (GridDescription.topology grid) _ _ _).
    set (cm2 := <[_ := _]> cm1).
    set (D3 := Xml.alterAt rc (Xml.addChild SG2) _).
    destruct (forEach_WriteField (GridDescription.fields grid) s D3 cm2 tm
                (rc ++ [length (Xml.children (Xml.addChild SG1 C0))]) SG2)
      as (tm' & -> & Hlabels).
    { subst D3. by apply elementAt_new_child. }
    exists cm2, tm'. split; [|split; [|done]].
    + do 3 f_equal. subst D3 D1 rc.
      rewrite alterAt_app, !alterAt_compose.
      rewrite (alterAt_last_child _ _ _ _ _ Hx). f_equal. f_equal.
      unfold uniformGridElement. subst SG2 cm1.
      rewrite cellType_index. reflexivity.
    + intros dimension numberCorners. subst cm2 cm1. by rewrite !cellType_index.
  - (* one topology *)
    rewrite bindB_ret, bindB_ret.
    unfold bindB at 1.
    rewrite (GenerateSpaceGrid_appends _ _ _ _ _ _ _ _ _ Hx). cbv zeta.
    set (SG := spaceGridElement (GridDescription.topology grid) _ _ _).
    set (cm1 := <[_ := _]> cm).
    destruct (forEach_WriteField (GridDescription.fields grid) s
                (Xml.alterAt sharedBaseGrid (Xml.addChild SG) d) cm1 tm
                (sharedBaseGrid ++ [length (Xml.children x)]) SG)
      as (tm' & -> & Hlabels).
    { by apply elementAt_new_child. }
    exists cm1, tm'. split; [|split; [|done]].
    + do 3 f_equal. by rewrite (alterAt_last_child _ _ _ _ _ Hx).
    + intros dimension numberCorners. subst cm1. by rewrite cellType_index.
Qed.

Lemma addChildren_app cs1 cs2 e : addChildren cs2 (addChildren cs1 e) = addChildren (cs1 ++ cs2) e.
Proof. destruct e. simpl. by rewrite app_assoc. Qed.

Lemma addChildren_singleton c e : addChildren [c] e = Xml.addChild c e.
Proof. by destruct e. Qed.

Lemma gridElement_ext cm cm' tm tm' name grid :
  (∀ dimension numberCorners,
     cellType cm' dimension numberCorners = cellType cm dimension numberCorners) →
  (∀ fieldType, typeLabel tm' fieldType = typeLabel tm fieldType) →
  gridElement cm' tm' name grid = gridElement cm tm name grid.
Proof.
  intros Hcm Htm. unfold gridElement, uniformGridElement. rewrite !Hcm.
  assert (attributeElement tm' <$> GridDescription.fields grid
          = attributeElement tm <$> GridDescription.fields grid) as ->; [|done].
  apply list_fmap_ext. intros i f _. unfold attributeElement. by rewrite Htm.
Qed.

Lemma appended_nil s d cm tm element x :
  Xml.elementAt element d = Some x →
  appended s d cm tm element [] (Ok (tt, mkBuilderState s d cm tm)).
Proof.
  intros Hx. exists cm, tm. split; [|done]. do 3 f_equal.
  rewrite <- (alterAt_id element d x Hx) at 1.
  apply (alterAt_ext _ _ _ _ _ Hx). by rewrite addChildren_nil.
Qed.

(** A loop whose rounds each append their elements appends them all. *)
Lemma forEach_appended {A} (body : A → Builder unit) (elements : A → gmap N (gmap N string)
      → gmap FieldType string → list XmlElement) s element l :
  (∀ a cm cm' tm tm',
     (∀ dimension numberCorners,
        cellType cm' dimension numberCorners = cellType cm dimension numberCorners) →
     (∀ fieldType, typeLabel tm' fieldType = typeLabel tm fieldType) →
     elements a cm' tm' = elements a cm tm) →
  (∀ a d cm tm x, a ∈ l → Xml.elementAt element d = Some x →
     appended s d cm tm element (elements a cm tm) (body a (mkBuilderState s d cm tm))) →
  ∀ d cm tm x, Xml.elementAt element d = Some x →
    appended s d cm tm element (l ≫= λ a, elements a cm tm)
      (forEach l body (mkBuilderState s d cm tm)).
Proof.
  intros Hext. induction l as [|a l IH]; intros Hbody d cm tm x Hx; simpl.
  - by eapply appended_nil.
  - destruct (Hbody a d cm tm x) as (cm1 & tm1 & H1 & Hcm1 & Htm1); [by left|done|].
    unfold bindB. rewrite H1.
    destruct (IH (λ a' d' cm' tm' x' Ha', Hbody a' d' cm' tm' x' ltac:(by right))
                (Xml.alterAt element (addChildren (elements a cm tm)) d) cm1 tm1
                (addChildren (elements a cm tm) x))
      as (cm2 & tm2 & H2 & Hcm2 & Htm2).
    { by rewrite elementAt_alterAt, Hx. }
    exists cm2, tm2. split; [|split].
    + rewrite H2. do 3 f_equal. rewrite alterAt_compose.
      apply (alterAt_ext _ _ _ _ _ Hx). simpl. rewrite addChildren_app. f_equal. f_equal.
      apply list_bind_ext; [|done]. intros a'. by apply Hext.
    + intros dimension numberCorners. by rewrite Hcm2, Hcm1.
    + intros fieldType. by rewrite Htm2, Htm1.
Qed.

Lemma forEach_buildGrid s name grids d cm tm sharedBaseGrid x :
  Xml.elementAt sharedBaseGrid d = Some x →
  appended s d cm tm sharedBaseGrid (gridElement cm tm name <$> grids)
    (forEach grids (buildGrid sharedBaseGrid name) (mkBuilderState s d cm tm)).
Proof.
  intros Hx.
  pose proof (forEach_appended (buildGrid sharedBaseGrid name)
                (λ grid cm tm, [gridElement cm tm name grid]) s sharedBaseGrid grids) as H.
  assert (∀ cm tm, (grids ≫= λ grid, [gridElement cm tm name grid])
                   = gridElement cm tm name <$> grids) as Hbind.
  { intros cm0 tm0. clear. induction grids as [|g gs IH]; [done|].
    cbn [mbind list_bind fmap list_fmap app]. by f_equal. }
  rewrite <- Hbind. eapply H; [| |exact Hx].
  - intros g cm0 cm' tm0 tm' Hcm Htm. by rewrite (gridElement_ext cm0 cm' tm0 tm').
  - intros g d0 cm0 tm0 x0 _ Hx0.
    destruct (buildGrid_appends s d0 cm0 tm0 sharedBaseGrid x0 name g Hx0)
      as (cm' & tm' & Hb & Hcm & Htm).
    exists cm', tm'. split; [|done]. by rewrite Hb.
Qed.

Lemma timeIndexElements_ext cm cm' tm tm' name grids :
  (∀ dimension numberCorners,
     cellType cm' dimension numberCorners = cellType cm dimension numberCorners) →
  (∀ fieldType, typeLabel tm' fieldType = typeLabel tm fieldType) →
  timeIndexElements cm' tm' name grids = timeIndexElements cm tm name grids.
Proof.
  intros Hcm Htm. unfold timeIndexElements.
  assert (gridElement cm' tm' name <$> grids = gridElement cm tm name <$> grids) as ->; [|done].
  apply list_fmap_ext. intros i g _. by apply gridElement_ext.
Qed.

(** An element appended and then filled is the filled element appended. *)
Lemma appended_under s d cm tm element x c cs r :
  Xml.elementAt element d = Some x →
  appended s (Xml.alterAt element (Xml.addChild c) d) cm tm
    (element ++ [length (Xml.children x)]) cs r →
  appended s d cm tm element [addChildren cs c] r.
Proof.
  intros Hx (cm' & tm' & -> & Hcm & Htm). exists cm', tm'. split; [|done].
  do 3 f_equal. by rewrite (alterAt_last_child _ _ _ _ _ Hx).
Qed.

Lemma timeIndex_appended s name grids d cm tm gridBase x :
  Xml.elementAt gridBase d = Some x →
  appended s d cm tm gridBase (timeIndexElements cm tm name grids)
    ((let+ sharedBaseGrid :=
        if bool_decide (1 < length grids)%nat
        then GenerateSpatialGrid gridBase name "Spatial"
        else ret gridBase in
      forEach grids (buildGrid sharedBaseGrid name)) (mkBuilderState s d cm tm)).
Proof.
  intros Hx. unfold timeIndexElements. destruct (bool_decide (1 < length grids)%nat).
  - unfold bindB. rewrite (GenerateSpatialGrid_appends name "Spatial" _ _ _ _ _ _ Hx).
    apply (appended_under _ _ _ _ _ _ _ _ _ Hx).
    eapply forEach_buildGrid. by apply elementAt_new_child.
  - rewrite bindB_ret. by eapply forEach_buildGrid.
Qed.

Lemma grids_index_at i c timeIndex st :
  specification st !! i = Some c →
  is_Some (GridCollectionDescription.grids c !! timeIndex) →
  grids_index i timeIndex st = Ok (gridsAt c timeIndex, st).
Proof.
  intros Hc [grids Hgrids]. unfold grids_index, gridsAt. rewrite Hc, Hgrids. simpl.
  destruct st as [s d cm tm], c as [name gs]. simpl in *. do 3 f_equal.
  rewrite insert_id by done. by apply list_insert_id.
Qed.

Lemma frontTime_at i c timeIndex st :
  specification st !! i = Some c →
  nonEmptyGrids c →
  is_Some (GridCollectionDescription.grids c !! timeIndex) →
  frontTime i timeIndex st = Ok (firstTime (gridsAt c timeIndex), st).
Proof.
  intros Hc Hne Hkey. unfold frontTime, bindB. rewrite (grids_index_at i c _ _ Hc Hkey).
  destruct Hkey as [grids Hgrids]. unfold gridsAt. rewrite Hgrids. simpl.
  destruct grids as [|grid grids]; [by destruct (Hne _ _ Hgrids)|]. done.
Qed.

Lemma mapB_frontTime i c st l :
  specification st !! i = Some c →
  nonEmptyGrids c →
  (∀ timeIndex, timeIndex ∈ l → is_Some (GridCollectionDescription.grids c !! timeIndex)) →
  mapB (frontTime i) l st = Ok (firstTime ∘ gridsAt c <$> l, st).
Proof.
  intros Hc Hne. induction l as [|k l IH]; intros Hl; simpl; [done|].
  unfold bindB. rewrite (frontTime_at i c k st Hc Hne) by (apply Hl; by left).
  rewrite IH by (intros k' Hk'; apply Hl; by right). done.
Qed.

Lemma Sorted_range n : Sorted N.le (range n).
Proof.
  unfold range. apply (Sorted_fmap _ le); [intros; lia|].
  apply StronglySorted_Sorted. generalize 0%nat.
  induction (N.to_nat n) as [|k IH]; intros j; simpl; constructor; [apply IH|].
  apply Forall_forall. intros i Hi%elem_of_seq. lia.
Qed.

Lemma contiguous_keys c :
  contiguous c →
  merge_sort N.le (map_to_list (GridCollectionDescription.grids c)).*1
  = range (N.of_nat (size (GridCollectionDescription.grids c))).
Proof.
  intros Hcontiguous. set (grids := GridCollectionDescription.grids c).
  apply (Sorted_unique N.le).
  - apply Sorted_merge_sort. intros x y. lia.
  - apply Sorted_range.
  - rewrite merge_sort_Permutation. symmetry.
    apply submseteq_length_Permutation.
    + apply NoDup_submseteq; [apply NoDup_range|].
      intros k Hk%elem_of_range. destruct (Hcontiguous k Hk) as [l Hl].
      apply list_elem_of_fmap. exists (k, l). split; [done|]. by apply elem_of_map_to_list.
    + rewrite length_fmap, length_map_to_list, length_range. fold grids. lia.
Qed.

Lemma collectionElements_ext cm cm' tm tm' c :
  (∀ dimension numberCorners,
     cellType cm' dimension numberCorners = cellType cm dimension numberCorners) →
  (∀ fieldType, typeLabel tm' fieldType = typeLabel tm fieldType) →
  collectionElements cm' tm' c = collectionElements cm tm c.
Proof.
  intros Hcm Htm. unfold collectionElements.
  assert (∀ l : list N,
            (l ≫= λ timeIndex,
               timeIndexElements cm' tm' (GridCollectionDescription.name c) (gridsAt c timeIndex))
            = l ≫= λ timeIndex,
                timeIndexElements cm tm (GridCollectionDescription.name c) (gridsAt c timeIndex))
    as ->; [|done].
  intros l. apply list_bind_ext; [|done]. intros k. by apply timeIndexElements_ext.
Qed.

Lemma buildCollection_appended s i c d cm tm domainElement x :
  s !! i = Some c →
  contiguous c →
  nonEmptyGrids c →
  Xml.elementAt domainElement d = Some x →
  appended s d cm tm domainElement (collectionElements cm tm c)
    (buildCollection domainElement i (mkBuilderState s d cm tm)).
Proof.
  intros Hc Hcontiguous Hne Hx. unfold buildCollection, collectionElements.
  unfold bindB at 1. unfold collectionAt. cbn [specification]. rewrite Hc.
  rewrite (contiguous_keys c Hcontiguous).
  set (n := N.of_nat (size (GridCollectionDescription.grids c))).
  assert (∀ timeIndex, timeIndex ∈ range n →
                       is_Some (GridCollectionDescription.grids c !! timeIndex)) as Hin.
  { intros k Hk%elem_of_range. by apply Hcontiguous. }
  set (useTime := match range n with
                  | [] => false
                  | timeIndex0 :: _ => negb (firstTime (gridsAt c timeIndex0) <? 0)%float
                  end).
  set (st := mkBuilderState s d cm tm).
  assert ((if bool_decide (GridCollectionDescription.grids c = ∅) then ret false
           else match range n with
                | [] => ret false
                | timeIndex0 :: _ =>
                    let+ t := frontTime i timeIndex0 in ret (negb (t <? 0)%float)
                end) st = Ok (useTime, st)) as HuseTime.
  { subst useTime. case_bool_decide as Hempty.
    - subst n. rewrite Hempty, map_size_empty. done.
    - destruct (range n) as [|timeIndex0 rest]; [done|].
      unfold bindB. rewrite (frontTime_at i c timeIndex0 st Hc Hne); [done|].
      apply Hin. by left. }
  unfold bindB at 1. rewrite HuseTime.
  unfold bindB at 1. rewrite (mapB_frontTime i c st (range n) Hc Hne Hin).
  rewrite length_fmap, length_range, N2Nat.id.
  assert (∀ gridBase d0 x0,
            Xml.elementAt gridBase d0 = Some x0 →
            appended s d0 cm tm gridBase
              (range n ≫= λ timeIndex,
                 timeIndexElements cm tm (GridCollectionDescription.name c)
                   (gridsAt c timeIndex))
              (forEach (range n)
                 (λ timeIndex,
                    let+ grids := grids_index i timeIndex in
                    let+ sharedBaseGrid :=
                      if bool_decide (1 < length grids)%nat
                      then GenerateSpatialGrid gridBase (GridCollectionDescription.name c)
                             "Spatial"
                      else ret gridBase in
                    forEach grids (buildGrid sharedBaseGrid (GridCollectionDescription.name c)))
                 (mkBuilderState s d0 cm tm))) as Hemit.
  { intros gridBase d0 x0 Hx0.
    eapply (forEach_appended _
             (λ timeIndex cm tm,
                timeIndexElements cm tm (GridCollectionDescription.name c)
                  (gridsAt c timeIndex)) s gridBase (range n)); [| |exact Hx0].
    - intros k cm0 cm' tm0 tm' Hcm Htm. by apply timeIndexElements_ext.
    - intros k d1 cm1 tm1 x1 Hk Hx1. unfold bindB at 1.
      rewrite (grids_index_at i c k (mkBuilderState s d1 cm1 tm1) Hc (Hin k Hk)).
      by eapply timeIndex_appended. }
  subst st. clearbody useTime. destruct useTime.
  - unfold bindB at 1. rewrite (GenerateTimeGrid_appends _ _ _ _ _ _ _ Hx).
    apply (appended_under _ _ _ _ _ _ _ _ _ Hx).
    eapply Hemit. by apply elementAt_new_child.
  - rewrite bindB_ret. by eapply Hemit.
Qed.

Lemma bind_lookup_seq {A B} (f : A → list B) (l : list A) :
  (seq 0 (length l) ≫= λ i, from_option f [] (l !! i)) = l ≫= f.
Proof.
  induction l as [|a l IH]; [done|].
  cbn [length seq]. rewrite <- fmap_S_seq. cbn [mbind list_bind]. simpl. f_equal.
  rewrite <- IH. clear. generalize (seq 0 (length l)). intros indices.
  induction indices as [|i indices IH]; [done|].
  cbn [fmap list_fmap mbind list_bind]. by f_equal.
Qed.

(** X1.  [Build] on a specification whose collections have the time indices
    0 .. n-1, each with at least one grid: it returns, the specification is
    as it was, the two tables answer as before, and the document is the root
    "Xdmf" with the one domain that holds, collection after collection, the
    elements of the collection: per time index in order the elements of its
    grids, under a "Spatial" collection of their own when they are several;
    and all of them under the temporal collection "TimeSeries", with the
    times of the first grids, when the first of these times is not
    negative. *)
Theorem Build_document s d cm tm :
  Forall contiguous s →
  Forall nonEmptyGrids s →
  ∃ cm' tm',
    Build (mkBuilderState s d cm tm)
    = Ok (tt, mkBuilderState s (xdmfDocument cm tm s) cm' tm')
    ∧ (∀ dimension numberCorners,
         cellType cm' dimension numberCorners = cellType cm dimension numberCorners)
    ∧ (∀ fieldType, typeLabel tm' fieldType = typeLabel tm fieldType).
Proof.
  intros Hcontiguous Hne.
  set (domain := XmlNode "Domain" "" (<["Name" := "domain"]> ∅) "" []).
  set (d0 := XmlNode "Xdmf" preamble ∅ "" [domain]).
  change (Build (mkBuilderState s d cm tm))
    with (forEach (seq 0 (length s)) (buildCollection [0%nat]) (mkBuilderState s d0 cm tm)).
  edestruct (forEach_appended (buildCollection [0%nat])
               (λ i cm tm, from_option (collectionElements cm tm) [] (s !! i))
               s [0%nat] (seq 0 (length s))) with (d := d0) (cm := cm) (tm := tm) (x := domain)
    as (cm' & tm' & H & Hcm & Htm).
  - intros i cm0 cm1 tm0 tm1 Hcm Htm.
    destruct (s !! i); simpl; [by apply collectionElements_ext|done].
  - intros i d1 cm1 tm1 x1 Hi%elem_of_seq Hx1.
    destruct (lookup_lt_is_Some_2 s i) as [c Hc]; [lia|]. rewrite Hc. simpl.
    rewrite Forall_forall in Hcontiguous, Hne.
    pose proof (list_elem_of_lookup_2 _ _ _ Hc) as Hin.
    by eapply buildCollection_appended; eauto.
  - done.
  - exists cm', tm'. split; [|done]. rewrite H. do 3 f_equal.
    unfold xdmfDocument. simpl. do 3 f_equal.
    apply (bind_lookup_seq (collectionElements cm tm)).
Qed.

End DocumentOutput.

(** ** [Build] returns *)

Section Growing.

Lemma grows_refl d : grows d d.
Proof. intros r e He. by exists e. Qed.

Lemma grows_trans d1 d2 d3 : grows d1 d2 → grows d2 d3 → grows d1 d3.
Proof.
  intros H1 H2 r e He.
  destruct (H1 r e He) as (e' & He' & Hn' & Hp').
  destruct (H2 r e' He') as (e'' & He'' & Hn'' & Hp'').
  exists e''. split; [done|]. split; congruence.
Qed.

Lemma grows_valid d d' r : grows d d' → valid d r → valid d' r.
Proof. intros Hg [e He]. destruct (Hg r e He) as (e' & He' & _). by exists e'. Qed.

Lemma grows_alterAt q f d :
  (∀ e, grows e (f e)) → grows d (Xml.alterAt q f d).
Proof.
  intros Hf. revert d. induction q as [|i q IH]; intros d; simpl; [apply Hf|].
  destruct d as [n p a v cs]. intros [|j r] e; simpl.
  - intros [= <-]. by eexists.
  - destruct (decide (i = j)) as [->|Hij].
    + rewrite list_lookup_alter_eq. destruct (cs !! j) as [c|]; simpl; [apply IH|done].
    + by rewrite list_lookup_alter_ne; [eexists|].
Qed.

Lemma grows_addChild c e : grows e (Xml.addChild c e).
Proof.
  destruct e as [n p a v cs]. intros [|j r] e; simpl.
  - intros [= <-]. by eexists.
  - destruct (cs !! j) as [c'|] eqn:E; [|done].
    rewrite (lookup_app_l_Some _ _ _ _ E). by eexists.
Qed.

Lemma grows_putAttribute k x e : grows e (Xml.putAttribute k x e).
Proof. destruct e. intros [|i r] e; simpl; [intros [= <-]|]; by eexists. Qed.

Lemma grows_putValue x e : grows e (Xml.putValue x e).
Proof. destruct e. intros [|i r] e; simpl; [intros [= <-]|]; by eexists. Qed.

End Growing.

Section Running.
Context {decl : Declarations}.

Lemma Runs_consequence {A} (S T : XdmfSpecification → Prop) (N N' : list Xml.Ref)
    (m : Builder A) (S' T' : A → XdmfSpecification → Prop) (M M' : A → list Xml.Ref) :
  Runs S N m S' M →
  (∀ s, T s → S s) → N ⊆ N' →
  (∀ a s, S' a s → T' a s) → (∀ a, M' a ⊆ M a) →
  Runs T N' m T' M'.
Proof.
  intros Hm HS HN HS' HM st Hst Hneeds.
  destruct (Hm st) as (a & st' & H & Hs' & Hg & Hmade).
  - by apply HS.
  - rewrite Forall_forall in Hneeds |- *. intros r Hr. by apply Hneeds, HN.
  - exists a, st'. split; [done|]. split; [by apply HS'|]. split; [done|].
    rewrite Forall_forall in Hmade |- *. intros r Hr. by apply Hmade, HM.
Qed.

Lemma Runs_ret {A} S N (a : A) (M : A → list Xml.Ref) :
  M a ⊆ N → Runs S N (ret a) (λ _, S) M.
Proof.
  intros HM st Hst Hneeds. exists a, st. split; [done|]. split; [done|].
  split; [apply grows_refl|].
  rewrite Forall_forall in Hneeds |- *. intros r Hr. by apply Hneeds, HM.
Qed.

Lemma Runs_ret_none {A} S N (a : A) : Runs S N (ret a) (λ _, S) (λ _, []).
Proof. apply (Runs_ret S N a (λ _, [])), list_subseteq_nil. Qed.

Lemma Runs_ret_ref S N (r : Xml.Ref) : r ∈ N → Runs S N (ret r) (λ _, S) (λ r, [r]).
Proof.
  intros Hr. apply (Runs_ret S N r (λ r, [r])).
  by intros ? ->%list_elem_of_singleton.
Qed.

Lemma Runs_bind {A B} S N (m : Builder A) S1 M1 (k : A → Builder B) S2 M2 :
  Runs S N m S1 M1 →
  (∀ a, Runs (S1 a) (M1 a ++ N) (k a) S2 M2) →
  Runs S N (bindB m k) S2 M2.
Proof.
  intros Hm Hk st Hst Hneeds.
  destruct (Hm st Hst Hneeds) as (a & st1 & H1 & Hs1 & Hg1 & Hmade1).
  destruct (Hk a st1 Hs1) as (b & st2 & H2 & Hs2 & Hg2 & Hmade2).
  - apply Forall_app. split; [done|].
    eapply Forall_impl; [exact Hneeds|]. intros r. by apply grows_valid.
  - exists b, st2. unfold bindB. rewrite H1. split; [done|]. split; [done|].
    split; [by eapply grows_trans|done].
Qed.

Lemma Runs_newChild S N element name :
  element ∈ N → Runs S N (newChild element name) (λ _, S) (λ r, [r]).
Proof.
  intros Hin [s d cm tm] Hst Hneeds. simpl in *.
  rewrite Forall_forall in Hneeds. destruct (Hneeds _ Hin) as [x Hx].
  eexists _, _. split; [by apply newChild_ok|]. simpl. split; [done|]. split.
  - apply grows_alterAt, grows_addChild.
  - apply Forall_singleton. eexists. by apply elementAt_new_child.
Qed.

Lemma Runs_onElement S N element f :
  (∀ e, grows e (f e)) →
  element ∈ N → Runs S N (onElement element f) (λ _, S) (λ _, []).
Proof.
  intros Hf Hin [s d cm tm] Hst Hneeds. simpl in *.
  rewrite Forall_forall in Hneeds. destruct (Hneeds _ Hin) as [x Hx].
  eexists _, _. split; [by eapply onElement_ok|]. simpl. split; [done|]. split.
  - by apply grows_alterAt.
  - constructor.
Qed.

Lemma Runs_setAttribute S N element k v :
  element ∈ N → Runs S N (setAttribute element k v) (λ _, S) (λ _, []).
Proof. apply Runs_onElement. intros e. apply grows_putAttribute. Qed.

Lemma Runs_setValue S N element v :
  element ∈ N → Runs S N (setValue element v) (λ _, S) (λ _, []).
Proof. apply Runs_onElement. intros e. apply grows_putValue. Qed.

Lemma Runs_cellMap_index S N dimension numberCorners :
  Runs S N (cellMap_index dimension numberCorners) (λ _, S) (λ _, []).
Proof.
  intros [s d cm tm] Hst Hneeds. eexists _, _. split; [apply cellMap_index_ok|].
  simpl. split; [done|]. split; [apply grows_refl|constructor].
Qed.

Lemma Runs_typeMap_index S N fieldType :
  Runs S N (typeMap_index fieldType) (λ _, S) (λ _, []).
Proof.
  intros [s d cm tm] Hst Hneeds. eexists _, _. split; [reflexivity|].
  simpl. split; [done|]. split; [apply grows_refl|constructor].
Qed.

Lemma Runs_forEach {A} S N (l : list A) (body : A → Builder unit) :
  (∀ x, x ∈ l → Runs S N (body x) (λ _, S) (λ _, [])) →
  Runs S N (forEach l body) (λ _, S) (λ _, []).
Proof.
  induction l as [|x l IH]; intros Hbody; simpl.
  - apply Runs_ret_none.
  - eapply Runs_bind; [apply Hbody; by left|]. intros ?. simpl.
    apply IH. intros y Hy. apply Hbody. by right.
Qed.

Lemma Runs_mapB {A B} S N (f : A → Builder B) (l : list A) :
  (∀ x, x ∈ l → Runs S N (f x) (λ _, S) (λ _, [])) →
  Runs S N (mapB f l) (λ _, S) (λ _, []).
Proof.
  induction l as [|x l IH]; intros Hf; simpl.
  - apply Runs_ret_none.
  - eapply Runs_bind; [apply Hf; by left|]. intros y. simpl.
    eapply Runs_bind; [apply IH; intros z Hz; apply Hf; by right|].
    intros ys. simpl. apply Runs_ret_none.
Qed.

(** When the value and the references made are of no further use. *)
Lemma Runs_forget {A} S N (m : Builder A) S' M :
  Runs S N m (λ _, S') M → Runs S N (m ;; ret tt) (λ _, S') (λ _, []).
Proof.
  intros Hm. eapply Runs_bind; [exact Hm|]. intros a. apply Runs_ret_none.
Qed.

End Running.

Ltac ref_known :=
  cbn [app];
  first [ assumption
        | apply list_elem_of_here
        | apply list_elem_of_further; ref_known ].

Ltac runs_by known :=
  repeat first
    [ known
    | apply Runs_ret_none
    | apply Runs_ret_ref; ref_known
    | apply Runs_newChild; ref_known
    | apply Runs_setAttribute; ref_known
    | apply Runs_setValue; ref_known
    | apply Runs_cellMap_index
    | apply Runs_typeMap_index
    | eapply Runs_bind; [| intros ?; cbn [app] ]
    | match goal with
      | |- Runs _ _ (if ?b then _ else _) _ _ => destruct b
      | |- Runs _ _ (match ?o with Some _ => _ | None => _ end) _ _ => destruct o
      end ].

Ltac runs := runs_by fail.

Section RunningWriters.
Context {decl : Declarations}.
Variable S : XdmfSpecification → Prop.

Lemma Runs_WriteData N element fieldDescription :
  element ∈ N → Runs S N (WriteData element fieldDescription) (λ _, S) (λ r, [r]).
Proof. intros Hin. unfold WriteData. runs. Qed.

Lemma Runs_WriteCells N element topologyDescription :
  element ∈ N → Runs S N (WriteCells element topologyDescription) (λ _, S) (λ _, []).
Proof. intros Hin. unfold WriteCells. runs. Qed.

Lemma Runs_WriteVertices N element geometryDescription :
  element ∈ N → Runs S N (WriteVertices element geometryDescription) (λ _, S) (λ _, []).
Proof. intros Hin. unfold WriteVertices. runs_by ltac:(apply Runs_WriteData; ref_known). Qed.

Lemma Runs_GenerateTimeGrid N element time :
  element ∈ N → Runs S N (GenerateTimeGrid element time) (λ _, S) (λ r, [r]).
Proof. intros Hin. unfold GenerateTimeGrid. runs. Qed.

Lemma Runs_GenerateSpatialGrid N element domainName collectionType :
  element ∈ N →
  Runs S N (GenerateSpatialGrid element domainName collectionType) (λ _, S) (λ r, [r]).
Proof. intros Hin. unfold GenerateSpatialGrid. runs. Qed.

Lemma Runs_GenerateSpaceGrid N element topologyDescription geometryDescription domainName :
  element ∈ N →
  Runs S N (GenerateSpaceGrid element topologyDescription geometryDescription domainName)
    (λ _, S) (λ r, [r]).
Proof.
  intros Hin. unfold GenerateSpaceGrid.
  runs_by ltac:(first [ apply Runs_WriteCells; ref_known
                      | apply Runs_WriteVertices; ref_known ]).
Qed.

Lemma Runs_WriteField N element fieldDescription :
  element ∈ N → Runs S N (WriteField element fieldDescription) (λ _, S) (λ _, []).
Proof. intros Hin. unfold WriteField. runs_by ltac:(apply Runs_WriteData; ref_known). Qed.

Lemma Runs_buildGrid N sharedBaseGrid name grid :
  sharedBaseGrid ∈ N → Runs S N (buildGrid sharedBaseGrid name grid) (λ _, S) (λ _, []).
Proof.
  intros Hin. unfold buildGrid.
  runs_by ltac:(first [ apply Runs_GenerateSpatialGrid; ref_known
                      | apply Runs_GenerateSpaceGrid; ref_known
                      | apply Runs_forEach; intros ? _; apply Runs_WriteField; ref_known ]).
Qed.

End RunningWriters.

Section RunningBuild.
Context {decl : Declarations}.

(** A fact the precondition gives may be used to show that the
    computation runs. *)
Lemma Runs_assume {A} (P : Prop) S N (m : Builder A) S' M :
  (∀ s, S s → P) → (P → Runs S N m S' M) → Runs S N m S' M.
Proof. intros HP Hm st Hst. apply Hm; [by eapply HP|done]. Qed.

Lemma Runs_collectionAt S N i :
  Runs (λ s, S s ∧ is_Some (s !! i)) N (collectionAt i)
    (λ c s, S s ∧ s !! i = Some c) (λ _, []).
Proof.
  intros st [Hst [c Hc]] Hneeds. exists c, st. unfold collectionAt. rewrite Hc.
  split; [done|]. split; [done|]. split; [apply grows_refl|constructor].
Qed.

Lemma Runs_frontTime S N i c timeIndex :
  nonEmptyGrids c →
  is_Some (GridCollectionDescription.grids c !! timeIndex) →
  Runs (λ s, S s ∧ s !! i = Some c) N (frontTime i timeIndex)
    (λ _ s, S s ∧ s !! i = Some c) (λ _, []).
Proof.
  intros Hne Hkey st [Hst Hc] Hneeds.
  destruct (frontTime_defined st i c timeIndex Hc Hne Hkey) as [t Ht].
  exists t, st. split; [done|]. split; [done|]. split; [apply grows_refl|constructor].
Qed.

Lemma Runs_grids_index specification0 N i timeIndex :
  (i < length specification0)%nat →
  Runs (untouchedFrom specification0 (Datatypes.S i)) N (grids_index i timeIndex)
    (λ _, untouchedFrom specification0 (Datatypes.S i)) (λ _, []).
Proof.
  intros Hi [s d cm tm] [Hlen Hst] Hneeds. simpl in *.
  destruct (lookup_lt_is_Some_2 s i) as [c Hc]; [lia|].
  eexists _, _. unfold grids_index. simpl. rewrite Hc. split; [reflexivity|]. simpl.
  split; [|split; [apply grows_refl|constructor]].
  split; [by rewrite length_insert|].
  intros j Hj. rewrite list_lookup_insert_ne by lia. by apply Hst.
Qed.

Lemma Runs_buildCollection specification0 N domainElement i :
  Forall nonEmptyGrids specification0 →
  (i < length specification0)%nat →
  domainElement ∈ N →
  Runs (untouchedFrom specification0 i) N (buildCollection domainElement i)
    (λ _, untouchedFrom specification0 (Datatypes.S i)) (λ _, []).
Proof.
  intros Hne Hi Hdomain. unfold buildCollection.
  eapply Runs_bind.
  { eapply Runs_consequence; [apply (Runs_collectionAt (untouchedFrom specification0 i))| |done..].
    intros s [Hlen Hs]. split; [done|]. apply lookup_lt_is_Some_2. lia. }
  intros c. cbn [app].
  apply (Runs_assume (specification0 !! i = Some c)).
  { intros s [[Hlen Hs] Hc]. by rewrite <- Hs. }
  intros Hc0.
  assert (nonEmptyGrids c) as Hcne.
  { rewrite Forall_forall in Hne. apply Hne. by eapply list_elem_of_lookup_2. }
  set (grids := GridCollectionDescription.grids c).
  set (timeIndexes := merge_sort N.le (map_to_list grids).*1).
  assert (∀ timeIndex, timeIndex ∈ timeIndexes → is_Some (grids !! timeIndex)) as Hin.
  { intros timeIndex Hin. subst timeIndexes. rewrite merge_sort_Permutation in Hin.
    apply list_elem_of_fmap in Hin as ([k gs] & -> & Hin).
    apply elem_of_map_to_list in Hin. eauto. }
  eapply Runs_bind.
  { destruct (bool_decide (grids = ∅)); [apply Runs_ret_none|].
    destruct timeIndexes as [|timeIndex0 rest] eqn:E; [apply Runs_ret_none|].
    eapply Runs_bind; [apply Runs_frontTime; [done|apply Hin; by left]|].
    intros t. apply Runs_ret_none. }
  intros useTime. cbn [app].
  eapply Runs_bind.
  { apply Runs_mapB. intros timeIndex Htime. apply Runs_frontTime; [done|by apply Hin]. }
  intros timeVector. cbn [app].
  eapply (Runs_bind _ _ _
            (λ _ s, untouchedFrom specification0 i s ∧ s !! i = Some c) (λ r, [r])).
  { destruct useTime; [apply Runs_GenerateTimeGrid|apply Runs_ret_ref]; ref_known. }
  intros gridBase. cbn [app].
  eapply Runs_consequence;
    [apply (Runs_forEach (untouchedFrom specification0 (Datatypes.S i)) (gridBase :: N))
    | |done..].
  - intros timeIndex _.
    eapply Runs_bind; [by apply Runs_grids_index|]. intros gs. cbn [app].
    eapply (Runs_bind _ _ _
              (λ _, untouchedFrom specification0 (Datatypes.S i)) (λ r, [r])).
    { destruct (bool_decide _); [apply Runs_GenerateSpatialGrid|apply Runs_ret_ref]; ref_known. }
    intros sharedBaseGrid. cbn [app].
    apply Runs_forEach. intros g _. apply Runs_buildGrid. ref_known.
  - intros s [[Hlen Hs] _]. split; [done|]. intros j Hj. apply Hs. lia.
Qed.

(** The loop over the collections, from place [i] on. *)
Lemma Runs_buildCollections specification0 N domainElement k :
  Forall nonEmptyGrids specification0 →
  domainElement ∈ N →
  ∀ i, (i + k = length specification0)%nat →
  Runs (untouchedFrom specification0 i) N
    (forEach (seq i k) (buildCollection domainElement))
    (λ _ s, length s = length specification0) (λ _, []).
Proof.
  intros Hne Hdomain. induction k as [|k IH]; intros i Hik; simpl.
  - eapply Runs_consequence; [apply Runs_ret_none| |done|..]; [done| |done].
    by intros _ s [Hlen _].
  - eapply Runs_bind; [apply Runs_buildCollection; [done|lia|done]|].
    intros ?. cbn [app]. apply IH. lia.
Qed.

(** [Build] returns on a specification in which no time index leads to
    an empty list of grids; the document it leaves has grown from the root
    with the domain element. *)
Lemma Build_runs s d cm tm :
  Forall nonEmptyGrids s →
  ∃ st',
    Build (mkBuilderState s d cm tm) = Ok (tt, st')
    ∧ length (specification st') = length s
    ∧ grows (XmlNode "Xdmf" preamble ∅ ""
               [XmlNode "Domain" "" (<["Name" := "domain"]> ∅) "" []])
        (document st').
Proof.
  intros Hne.
  set (d0 := XmlNode "Xdmf" preamble ∅ ""
               [XmlNode "Domain" "" (<["Name" := "domain"]> ∅) "" []]).
  assert (Build (mkBuilderState s d cm tm)
          = forEach (seq 0 (length s)) (buildCollection [0%nat]) (mkBuilderState s d0 cm tm))
    as -> by reflexivity.
  destruct (Runs_buildCollections s [[0%nat]] [0%nat] (length s) Hne
              ltac:(ref_known) 0%nat eq_refl (mkBuilderState s d0 cm tm))
    as ([] & st' & H & Hlen & Hgrows & _).
  - by split.
  - apply Forall_singleton. by eexists.
  - by exists st'.
Qed.

(** X2.  [Build] returns on every specification in which no time index leads
    to an empty list of grids, whatever the time indices are: no reference
    it follows dangles and no [front()] is taken of an empty list.  The
    specification keeps its collections, and the document is the root
    "Xdmf", with the preamble, whose first child is the domain. *)
Theorem Build_returns st :
  Forall nonEmptyGrids (specification st) →
  ∃ st' domain,
    Build st = Ok (tt, st')
    ∧ length (specification st') = length (specification st)
    ∧ Xml.name (document st') = "Xdmf"
    ∧ Xml.preamble (document st') = preamble
    ∧ Xml.children (document st') !! 0%nat = Some domain
    ∧ Xml.name domain = "Domain".
Proof.
  intros Hne. destruct st as [s d cm tm]. cbn [specification] in *.
  destruct (Build_runs s d cm tm Hne) as (st' & H & Hlen & Hgrows).
  destruct (Hgrows [] _ eq_refl) as (root & Hroot & Hname & Hpreamble).
  destruct (Hgrows [0%nat] _ eq_refl) as (domain & Hdomain & Hname' & _).
  simpl in Hroot. injection Hroot as <-. simpl in Hdomain.
  exists st', domain. split; [done|]. split; [done|]. split; [done|]. split; [done|].
  split; [|done]. by destruct (Xml.children (document st') !! 0%nat).
Qed.

End RunningBuild.

(** ** What [Build] adds to the specification *)

Section BuildAdds.
Context {decl : Declarations}.

Lemma extendsByEmpty_refl c : extendsByEmpty c c.
Proof. split; [done|]. intros timeIndex. by left. Qed.

Lemma extendsByEmpty_index c0 c timeIndex :
  extendsByEmpty c0 c →
  extendsByEmpty c0
    (GridCollectionDescription.mk (GridCollectionDescription.name c)
       (<[timeIndex := default [] (GridCollectionDescription.grids c !! timeIndex)]>
          (GridCollectionDescription.grids c))).
Proof.
  intros [Hname Hgrids]. split; [done|]. intros k. simpl.
  destruct (decide (timeIndex = k)) as [->|Hk]; [|by rewrite lookup_insert_ne].
  rewrite lookup_insert_eq.
  destruct (Hgrids k) as [H|[H0 H]]; rewrite H; simpl.
  - destruct (GridCollectionDescription.grids c0 !! k); simpl; eauto.
  - by right.
Qed.

(** X3.  Whenever [Build] returns, the specification has the collections it
    had, with their names, and every time index it had leads to the grids
    it led to; a time index it did not have leads, if it is there
    afterwards, to no grids. *)
Theorem Build_adds_only_empty st st' :
  Build st = Ok (tt, st') →
  Forall2 extendsByEmpty (specification st) (specification st').
Proof.
  intros H.
  assert (Keeps (λ st', Forall2 extendsByEmpty (specification st) (specification st'))
            Build (λ _, True)) as Hkeeps.
  { apply Keeps_Build with (known := λ _ _, True); [done..| | |].
    - intros i st1 c st2 Hst. unfold collectionAt.
      destruct (specification st1 !! i); [|done]. by intros [= <- <-].
    - intros i c timeIndex _ _ st1 grids st2 Hst. unfold grids_index.
      destruct (specification st1 !! i) as [c1|] eqn:Ec1; [|done]. intros [= <- <-].
      split; [|done]. simpl.
      destruct (Forall2_lookup_r _ _ _ _ _ Hst Ec1) as (c0 & Ec0 & Hc).
      rewrite <- (list_insert_id _ _ _ Ec0).
      apply Forall2_insert; [done|]. by apply extendsByEmpty_index.
    - intros i c timeIndex _ _ st1 grids st2 Hst. unfold grids_index.
      destruct (specification st1 !! i) as [c1|] eqn:Ec1; [|done]. intros [= <- <-].
      split; [|done]. simpl.
      destruct (Forall2_lookup_r _ _ _ _ _ Hst Ec1) as (c0 & Ec0 & Hc).
      rewrite <- (list_insert_id _ _ _ Ec0).
      apply Forall2_insert; [done|]. by apply extendsByEmpty_index. }
  apply (Hkeeps st tt st'); [|done].
  apply Forall2_same_length_lookup. split; [done|].
  intros i c c' Hc Hc'. rewrite Hc in Hc'. injection Hc' as <-. apply extendsByEmpty_refl.
Qed.

End BuildAdds.

(** ** More of the field inference *)

Section MoreFieldInference.
Context {decl : Declarations}.

(** X17.  [FindPetscHdfChild] never fails.  It returns the child of that name
    of the root's "viz" group when there is one, otherwise the child of that
    name of the root itself, also when the root has a "viz" group, and the
    null pointer when there is neither. *)
Theorem FindPetscHdfChild_precedence root name :
  FindPetscHdfChild root name
  = Ok (match Hdf.child root "viz" ≫= λ viz, Hdf.child viz name with
        | Some found => Some found
        | None => Hdf.child root name
        end).
Proof.
  assert ((if Hdf.Contains root name then let* found := Hdf.Get root name in Ok (Some found)
           else Ok None) = Ok (Hdf.child root name)) as Hroot.
  { unfold Hdf.Get. destruct (Hdf.child root name) as [c|] eqn:Ec.
    - by rewrite (Contains_Some _ _ _ Ec).
    - by rewrite (Contains_None _ _ Ec). }
  unfold FindPetscHdfChild.
  destruct (Hdf.child root "viz") as [viz|] eqn:Eviz; simpl.
  - rewrite (Contains_Some _ _ _ Eviz). unfold Hdf.Get at 1. rewrite Eviz. simpl.
    destruct (Hdf.child viz name) as [c|] eqn:Ec.
    + rewrite (Contains_Some _ _ _ Ec). unfold Hdf.Get. by rewrite Ec.
    + by rewrite (Contains_None _ _ Ec).
  - by rewrite (Contains_None _ _ Eviz).
Qed.

(** A loop whose rounds append to what they are given appends, as a whole,
    to what it is given; what it appends, and whether it stops, does not
    depend on that. *)
Lemma foldM_appending {A B} (body : list B → A → Result (list B)) :
  (∀ acc x, body acc x = let* new := body [] x in Ok (acc ++ new)) →
  ∀ l acc, foldM body acc l = let* new := foldM body [] l in Ok (acc ++ new).
Proof.
  intros Hbody. induction l as [|x l IH]; intros acc; simpl.
  - by rewrite app_nil_r.
  - rewrite (Hbody acc x). destruct (body [] x) as [new|e]; simpl; [|done].
    rewrite (IH (acc ++ new)), (IH new).
    destruct (foldM body [] l) as [new'|e]; simpl; [|done].
    by rewrite app_assoc.
Qed.

Lemma foldM_app {A S} (body : S → A → Result S) l1 l2 s :
  foldM body s (l1 ++ l2) = let* s1 := foldM body s l1 in foldM body s1 l2.
Proof.
  revert s. induction l1 as [|x l1 IH]; intros s; simpl; [done|].
  destruct (body s x) as [s'|e]; simpl; [apply IH|done].
Qed.

Lemma GenerateFieldFromPetsc_appends fields hdfField location fileName timeOffset :
  GenerateFieldFromPetsc fields hdfField location fileName timeOffset
  = let* new := GenerateFieldFromPetsc [] hdfField location fileName timeOffset in
    Ok (fields ++ new).
Proof.
  unfold GenerateFieldFromPetsc.
  destruct (inferField hdfField location fileName timeOffset) as [[description sep]|e];
    simpl; [|done].
  unfold emitField. case_bool_decide; [|simpl; by rewrite app_nil_r].
  destruct sep; [|done].
  apply (foldM_appending
           (λ fields c, let* component := componentFieldDescription hdfField description c in
                        Ok (fields ++ [component]))).
  intros acc c. by destruct (componentFieldDescription hdfField description c).
Qed.

(** X12.  [GenerateFieldsFromPetsc] appends to the fields it is given: the
    outcome is that of the call on no fields, with the fields found put
    behind the fields given, and a call that stops stops whatever it was
    given.  The nodes are taken in order: a call on one list of nodes
    followed by another is the call on the first and then the call on the
    second. *)
Theorem GenerateFieldsFromPetsc_appends fields hdfFields more location fileName timeOffset :
  GenerateFieldsFromPetsc fields hdfFields location fileName timeOffset
  = (let* new := GenerateFieldsFromPetsc [] hdfFields location fileName timeOffset in
     Ok (fields ++ new))
  ∧ GenerateFieldsFromPetsc fields (hdfFields ++ more) location fileName timeOffset
    = (let* new := GenerateFieldsFromPetsc [] hdfFields location fileName timeOffset in
       GenerateFieldsFromPetsc (fields ++ new) more location fileName timeOffset).
Proof.
  assert (∀ fields hdfFields,
            GenerateFieldsFromPetsc fields hdfFields location fileName timeOffset
            = let* new := GenerateFieldsFromPetsc [] hdfFields location fileName timeOffset in
              Ok (fields ++ new)) as Happends.
  { intros fields' hdfFields'. unfold GenerateFieldsFromPetsc.
    apply (foldM_appending
             (λ fields hdfField,
                GenerateFieldFromPetsc fields hdfField location fileName timeOffset)).
    intros acc x. apply GenerateFieldFromPetsc_appends. }
  split; [apply Happends|].
  unfold GenerateFieldsFromPetsc at 1. rewrite foldM_app.
  fold (GenerateFieldsFromPetsc fields hdfFields location fileName timeOffset).
  rewrite (Happends fields hdfFields).
  by destruct (GenerateFieldsFromPetsc [] hdfFields location fileName timeOffset).
Qed.

(** X14.  A node with neither "vector_field_type" nor "Nc" stops
    [GenerateFieldsFromPetsc] with the runtime error "Cannot determine field
    type for" and the node's name, whatever nodes follow it, once the nodes
    before it have been inferred. *)
Theorem GenerateFieldsFromPetsc_undetermined fields before hdfField after
    location fileName timeOffset description0 fields' :
  GenerateFieldsFromPetsc fields before location fileName timeOffset = Ok fields' →
  provisionalDescription hdfField location fileName timeOffset = Ok description0 →
  Hdf.attributes hdfField !! "vector_field_type" = None →
  Hdf.attributes hdfField !! "Nc" = None →
  GenerateFieldsFromPetsc fields (before ++ hdfField :: after) location fileName timeOffset
  = Err (RuntimeError ("Cannot determine field type for " +:+ Hdf.Name hdfField)).
Proof.
  intros Hbefore H0 Hvft Hnc. unfold GenerateFieldsFromPetsc in *.
  rewrite foldM_app, Hbefore. simpl.
  unfold GenerateFieldFromPetsc, inferField. rewrite H0. simpl.
  unfold determineFieldType.
  rewrite (HasAttribute_false _ _ Hvft), (HasAttribute_false _ _ Hnc). simpl.
  by rewrite (provisionalDescription_inv _ _ _ _ _ H0).
Qed.

Lemma inferField_inv hdfField location fileName timeOffset description sep :
  inferField hdfField location fileName timeOffset = Ok (description, sep) →
  ∃ ft shape d,
    description =
      FieldDescription.mk (Hdf.Name hdfField) (Location.mk (Hdf.Path hdfField) fileName)
        shape timeOffset 0 1 d location ft (hasTimeOf hdfField).
Proof.
  unfold inferField. intros H.
  destruct (provisionalDescription _ _ _ _) as [d0|] eqn:E0; simpl in H; [|done].
  apply provisionalDescription_inv in E0 as ->.
  destruct (determineFieldType _ _ _) as [[d1 sep1]|] eqn:E1; simpl in H; [|done].
  apply determineFieldType_inv in E1 as (ft & -> & _).
  unfold restoreScalarAxis, determineDimension in H. simpl in H.
  repeat case_bool_decide; simpl in H.
  all: match type of H with context [at_index ?l ?i] => destruct (at_index l i) end.
  all: simplify_eq/=; by eexists _, _, _.
Qed.

Lemma foldM_append_inv {A B} (step : A → Result B) (l : list A) (acc out : list B) :
  foldM (λ acc x, let* y := step x in Ok (acc ++ [y])) acc l = Ok out →
  ∃ new, out = acc ++ new ∧ Forall2 (λ x y, step x = Ok y) l new.
Proof.
  revert acc. induction l as [|x l IH]; intros acc; simpl.
  - intros [= <-]. exists []. by rewrite app_nil_r.
  - destruct (step x) as [y|] eqn:Ey; simpl; [|done].
    intros (new & -> & Hnew)%IH. exists (y :: new).
    rewrite <- app_assoc. split; [done|]. by constructor.
Qed.

Lemma GenerateFieldFromPetsc_fields fields hdfField location fileName timeOffset out :
  GenerateFieldFromPetsc fields hdfField location fileName timeOffset = Ok out →
  ∃ new, out = fields ++ new ∧
    ∀ f, f ∈ new →
      FieldDescription.fieldType f ≠ NONE
      ∧ FieldDescription.fieldLocation f = location
      ∧ FieldDescription.location f = Location.mk (Hdf.Path hdfField) fileName
      ∧ FieldDescription.shape f ≠ []
      ∧ FieldDescription.timeOffset f = timeOffset
      ∧ FieldDescription.componentOffset f < FieldDescription.componentStride f
      ∧ FieldDescription.hasTimeDimension f = hasTimeOf hdfField.
Proof.
  unfold GenerateFieldFromPetsc.
  destruct (inferField hdfField location fileName timeOffset) as [[description sep]|e] eqn:E;
    simpl; [|done].
  assert (FieldDescription.shape description ≠ []) as Hshape.
  { revert E. unfold inferField.
    destruct (provisionalDescription _ _ _ _) as [d0|]; simpl; [|done].
    destruct (determineFieldType _ _ _) as [[d1 sep1]|]; simpl; [|done].
    destruct (restoreScalarAxis d1 sep1) as [d2 sep2]. unfold determineDimension.
    destruct (FieldDescription.shape d2) as [|n shape] eqn:Es; [done|].
    destruct (if bool_decide _ then _ else _); simpl; [|done].
    intros [= <- <-]. simpl. by rewrite Es. }
  apply inferField_inv in E as (ft & shape & d & ->). simpl in Hshape.
  unfold emitField. simpl. case_bool_decide as Hft.
  - destruct sep.
    + intros (new & -> & Hnew)%foldM_append_inv. exists new. split; [done|].
      intros f Hf.
      apply list_elem_of_lookup in Hf as [i Hf].
      destruct (Forall2_lookup_r _ _ _ _ _ Hnew Hf) as (c & Hc & Hstep).
      apply list_elem_of_lookup_2, elem_of_range in Hc.
      unfold componentFieldDescription in Hstep.
      destruct (if Hdf.HasAttribute _ _ then _ else _) as [name|]; simpl in Hstep; [|done].
      injection Hstep as <-. simpl. unfold FieldDescription.GetDimension in *. simpl in *.
      done.
    + intros [= <-]. eexists. split; [done|].
      intros f ->%list_elem_of_singleton. simpl. repeat split; done.
  - intros [= <-]. exists []. rewrite app_nil_r. split; [done|]. by intros f ?%elem_of_nil.
Qed.

(** X13.  Every field [GenerateFieldsFromPetsc] appends has a type other than
    NONE, the location, the file and the time offset the call was given, a
    shape that is not empty, a component offset below the component stride,
    and the path and the time flag of one of the nodes. *)
Theorem GenerateFieldsFromPetsc_fields fields hdfFields location fileName timeOffset out :
  GenerateFieldsFromPetsc fields hdfFields location fileName timeOffset = Ok out →
  ∃ new, out = fields ++ new ∧
    ∀ f, f ∈ new →
      FieldDescription.fieldType f ≠ NONE
      ∧ FieldDescription.fieldLocation f = location
      ∧ Location.file (FieldDescription.location f) = fileName
      ∧ FieldDescription.shape f ≠ []
      ∧ FieldDescription.timeOffset f = timeOffset
      ∧ FieldDescription.componentOffset f < FieldDescription.componentStride f
      ∧ ∃ hdfField, hdfField ∈ hdfFields
          ∧ Location.path (FieldDescription.location f) = Hdf.Path hdfField
          ∧ FieldDescription.hasTimeDimension f = hasTimeOf hdfField.
Proof.
  unfold GenerateFieldsFromPetsc. revert fields.
  induction hdfFields as [|hdfField hdfFields IH]; intros fields; simpl.
  - intros [= <-]. exists []. rewrite app_nil_r. split; [done|]. by intros f ?%elem_of_nil.
  - intros (fields1 & H1 & H2)%bindR_Ok.
    apply GenerateFieldFromPetsc_fields in H1 as (new1 & -> & Hnew1).
    apply IH in H2 as (new2 & -> & Hnew2).
    exists (new1 ++ new2). rewrite app_assoc. split; [done|].
    intros f [Hf|Hf]%elem_of_app.
    + destruct (Hnew1 f Hf) as (? & ? & Hloc & ? & ? & ? & ?).
      rewrite Hloc. repeat split; try done.
      exists hdfField. split; [by left|done].
    + destruct (Hnew2 f Hf) as (? & ? & ? & ? & ? & ? & h & ? & ? & ?).
      repeat split; try done. exists h. split; [by right|done].
Qed.

(** X15.  A node tagged "scalar".  With a shape of rank 1 or 2 one SCALAR field
    is appended whose shape is the node's with the axis 1 put behind and
    whose component dimension is 1.  With a rank of 3 or more the field is a
    packed one: the inference returns it with the node's shape, the third
    axis as component dimension and [separateIntoComponents = true].  With
    rank 0 line 67 reads the shape past its end. *)
Theorem scalar_field_axis fields hdfField location fileName timeOffset description0 :
  Hdf.attributes hdfField !! "vector_field_type" = Some (AttrString "scalar") →
  provisionalDescription hdfField location fileName timeOffset = Ok description0 →
  let shape := Hdf.Shape hdfField in
  let described shape d :=
    FieldDescription.mk (Hdf.Name hdfField) (Location.mk (Hdf.Path hdfField) fileName)
      shape timeOffset 0 1 d location SCALAR (hasTimeOf hdfField) in
  (length shape = 1%nat ∨ length shape = 2%nat →
     GenerateFieldFromPetsc fields hdfField location fileName timeOffset
     = Ok (fields ++ [described (shape ++ [1]) 1]))
  ∧ (∀ d, shape !! 2%nat = Some d →
       inferField hdfField location fileName timeOffset = Ok (described shape d, true))
  ∧ (length shape = 0%nat →
       GenerateFieldFromPetsc fields hdfField location fileName timeOffset
       = Err (UndefinedBehaviour "vector index out of range")).
Proof.
  intros Hattr H0 shape described.
  pose proof (provisionalDescription_inv _ _ _ _ _ H0) as Hd0.
  assert (determineFieldType hdfField location description0
          = Ok (FieldDescription.with_fieldType SCALAR description0, false)) as H1.
  { unfold determineFieldType, Hdf.AttributeString.
    rewrite (HasAttribute_true _ _ _ Hattr), Hattr. simpl.
    change (petscTypeLookUpFromFieldType !! "scalar") with (Some SCALAR). done. }
  unfold GenerateFieldFromPetsc. rewrite (inferField_unfold _ _ _ _ _ _ _ H0 H1).
  unfold restoreScalarAxis, determineDimension, at_index. rewrite Hd0. simpl.
  fold shape. subst described. simpl.
  destruct shape as [|n0 [|n1 [|n2 shape]]]; simpl.
  - split; [intros [?|?]; done|]. split; [intros; done|done].
  - split; [done|]. split; [intros; done|done].
  - split; [done|]. split; [intros; done|done].
  - split; [intros [?|?]; done|]. split; [|done]. by intros d [= ->].
Qed.

(** X16.  A node whose "vector_field_type" is none of "scalar", "vector",
    "tensor" and "matrix" gets the type NONE, whatever its "Nc" is, and
    nothing is appended for it; line 67 still reads the component axis of
    its shape, past the end when the rank is below 2. *)
Theorem unknown_vector_field_type_dropped fields hdfField location fileName timeOffset
    description0 s :
  Hdf.attributes hdfField !! "vector_field_type" = Some (AttrString s) →
  petscTypeLookUpFromFieldType !! s = None →
  provisionalDescription hdfField location fileName timeOffset = Ok description0 →
  ((2 ≤ length (Hdf.Shape hdfField))%nat →
     GenerateFieldFromPetsc fields hdfField location fileName timeOffset = Ok fields)
  ∧ ((length (Hdf.Shape hdfField) < 2)%nat →
     GenerateFieldFromPetsc fields hdfField location fileName timeOffset
     = Err (UndefinedBehaviour "vector index out of range")).
Proof.
  intros Hattr Hs H0.
  pose proof (provisionalDescription_inv _ _ _ _ _ H0) as Hd0.
  assert (determineFieldType hdfField location description0
          = Ok (FieldDescription.with_fieldType NONE description0, false)) as H1.
  { unfold determineFieldType, Hdf.AttributeString.
    by rewrite (HasAttribute_true _ _ _ Hattr), Hattr; simpl; rewrite Hs. }
  unfold GenerateFieldFromPetsc. rewrite (inferField_unfold _ _ _ _ _ _ _ H0 H1).
  unfold restoreScalarAxis, determineDimension, at_index. rewrite Hd0. simpl.
  destruct (Hdf.Shape hdfField) as [|n0 [|n1 [|n2 shape]]]; simpl.
  all: split; intros; first [done | lia].
Qed.

End MoreFieldInference.

(** ** The collections the extractors make *)

Section Loops.
Context {decl : Declarations}.

(** The loop over the time values, with an invariant that counts the
    rounds. *)
Lemma forTime_invariant {S} (I : nat → S → Prop) (time : list float)
    (body : N → float → S → Result S) s s' :
  I 0%nat s →
  (∀ i t s s', time !! i = Some t → I i s → body (N.of_nat i) t s = Ok s' →
               I (Datatypes.S i) s') →
  forTime time body s = Ok s' → I (length time) s'.
Proof.
  unfold forTime.
  assert (∀ l j s,
            I j s →
            (∀ i t s s', l !! i = Some t → I (j + i)%nat s →
                         body (N.of_nat (j + i)) t s = Ok s' → I (Datatypes.S (j + i)) s') →
            foldM (λ s it, body (N.of_nat it.1) it.2 s) s (imap (λ i t, ((j + i)%nat, t)) l)
            = Ok s' →
            I (j + length l)%nat s') as Hgen.
  { induction l as [|t l IH]; intros j s0 Hs Hbody; simpl.
    - intros [= <-]. by rewrite Nat.add_0_r.
    - intros (s1 & H1 & H2)%bindR_Ok. simpl in H1.
      rewrite <- Nat.add_succ_comm. apply (IH (Datatypes.S j) s1).
      + specialize (Hbody 0%nat t s0 s1 eq_refl). rewrite Nat.add_0_r in Hbody, H1. auto.
      + intros i t' s2 s3 Ht' Hs2 Hs3.
        specialize (Hbody (Datatypes.S i) t' s2 s3 Ht').
        rewrite <- !Nat.add_succ_comm in Hbody. auto.
      + erewrite imap_ext; [exact H2|]. intros i x _. simpl. f_equal. lia. }
  intros Hs Hbody. apply (Hgen time 0%nat s Hs). intros i t s1 s2. apply Hbody.
Qed.

(** The loop over the topology groups returns what it is given when its
    rounds do, and returns when they return. *)
Lemma FindPetscHdfChild_defined root name : ∃ found, FindPetscHdfChild root name = Ok found.
Proof.
  pose proof (FindPetscHdfChild_cases root name) as H.
  destruct (FindPetscHdfChild root name) as [found|]; [by eexists|done].
Qed.

Lemma whileTopology_returns {S} root (body : HdfObject → N → S → Result S) (I : S → Prop) s :
  (∀ topologyObject topologyIndex s, I s →
     ∃ s', body topologyObject topologyIndex s = Ok s' ∧ I s') →
  I s →
  ∃ s', whileTopology (topologyFuel root) root 0 body s = Ok s' ∧ I s'.
Proof.
  intros Hbody Hs. destruct (topology_missing root) as (k & Hk & Hnone).
  revert Hk. generalize (topologyFuel root). intros fuel Hk.
  change (N.of_nat k) with (0 + N.of_nat k) in Hnone.
  revert Hnone Hs Hk. generalize 0. revert s fuel.
  induction k as [|k IH]; intros s [|fuel] topologyIndex Hnone Hs Hk; try lia; simpl.
  - fold (topologyName topologyIndex). rewrite N.add_0_r in Hnone. rewrite Hnone. eauto.
  - fold (topologyName topologyIndex).
    destruct (FindPetscHdfChild_defined root (topologyName topologyIndex)) as [[o|] ->];
      simpl; [|eauto].
    destruct (Hbody o topologyIndex s Hs) as (s1 & -> & Hs1). simpl.
    apply IH; [|done|lia].
    by replace (topologyIndex + 1 + N.of_nat k) with (topologyIndex + N.of_nat (Datatypes.S k))
      by lia.
Qed.

End Loops.

Section Structure.
Context {decl : Declarations}.

(** What [FromPetscHdf] returns: the collection of the mesh, when the root
    has one, then the collection of the particles, when it has some. *)
Lemma FromPetscHdf_inv rootObject specification :
  FromPetscHdf rootObject = Ok specification →
  ∃ meshPart particlePart,
    specification = meshPart ++ particlePart
    ∧ match FindPetscHdfChild rootObject "geometry" with
      | Ok (Some geometryObject) =>
          ∃ mainGrid,
            meshPart = [mainGrid]
            ∧ whileTopology (topologyFuel rootObject) rootObject 0
                (λ topologyObject topologyIndex mainGrid,
                   let* time := timeOf rootObject in
                   forTime time
                     (λ timeIndex t mainGrid,
                        let* gridDescription :=
                          meshGrid rootObject geometryObject topologyObject
                            (Hdf.Name rootObject) t
                            (GetTopologyPostfix topologyIndex) timeIndex in
                        Ok (GridCollectionDescription.mk
                              (GridCollectionDescription.name mainGrid)
                              (push_back_at (GridCollectionDescription.grids mainGrid)
                                 timeIndex gridDescription)))
                     mainGrid)
                (GridCollectionDescription.mk GridCollectionDescription_init_name ∅)
              = Ok mainGrid
      | _ => meshPart = []
      end
    ∧ if hasParticles rootObject then
        ∃ time particles,
          particlePart = [particles]
          ∧ timeOf rootObject = Ok time
          ∧ forTime time
              (λ timeIndex t particles,
                 let* gridDescription :=
                   particleGrid rootObject (Hdf.Name rootObject) t timeIndex in
                 Ok (GridCollectionDescription.mk (GridCollectionDescription.name particles)
                       (push_back_at (GridCollectionDescription.grids particles)
                          timeIndex gridDescription)))
              (GridCollectionDescription.mk "particle_domain" ∅)
            = Ok particles
      else particlePart = [].
Proof.
  unfold FromPetscHdf, hasParticles.
  destruct (FindPetscHdfChild rootObject "geometry") as [[geometryObject|]|]; simpl; [| |done].
  - intros (spec1 & (mainGrid & Hmain & [= <-])%bindR_Ok & H)%bindR_Ok.
    destruct (_ || _).
    + apply bindR_Ok in H as (time & Htime & (particles & Hp & [= <-])%bindR_Ok).
      exists [mainGrid], [particles]. eauto 10.
    + injection H as <-. exists [mainGrid], []. rewrite app_nil_r. eauto.
  - intros H. destruct (_ || _).
    + apply bindR_Ok in H as (time & Htime & (particles & Hp & [= <-])%bindR_Ok).
      exists [], [particles]. eauto 10.
    + injection H as <-. by exists [], [].
Qed.

(** X18.  What [FromPetscHdf] makes of a single root has at most two
    collections: the one of the mesh, with the name a collection is born
    with, when the root has a "geometry" group, and after it the one named
    "particle_domain" when the root has "particles" or "particle_fields". *)
Theorem FromPetscHdf_collections rootObject specification :
  FromPetscHdf rootObject = Ok specification →
  GridCollectionDescription.name <$> specification
  = (if hasMesh rootObject then [GridCollectionDescription_init_name] else [])
    ++ (if hasParticles rootObject then ["particle_domain"] else []).
Proof.
  intros (meshPart & particlePart & -> & Hmesh & Hparticles)%FromPetscHdf_inv.
  rewrite fmap_app. unfold hasMesh. f_equal.
  - destruct (FindPetscHdfChild rootObject "geometry") as [[geometryObject|]|];
      [|by subst..].
    destruct Hmesh as (mainGrid & -> & Hmain). simpl. f_equal.
    revert Hmain.
    apply (whileTopology_invariant
             (λ c, GridCollectionDescription.name c = GridCollectionDescription_init_name));
      [|done].
    intros topologyObject topologyIndex c c' Hc (time & _ & H)%bindR_Ok.
    revert H. unfold forTime.
    apply (foldM_invariant
             (λ c, GridCollectionDescription.name c = GridCollectionDescription_init_name));
      [|done].
    by intros c1 [i t] c2 Hc1 (g & _ & [= <-])%bindR_Ok.
  - destruct (hasParticles rootObject); [|by subst].
    destruct Hparticles as (time & particles & -> & _ & H). simpl. f_equal.
    revert H. unfold forTime.
    apply (foldM_invariant (λ c, GridCollectionDescription.name c = "particle_domain"));
      [|done].
    by intros c1 [i t] c2 Hc1 (g & _ & [= <-])%bindR_Ok.
Qed.

End Structure.

Section Grids.
Context {decl : Declarations}.

(** What the field inference appends has the location, the file and the
    time offset it was called with. *)
Lemma GenerateFieldsFromPetsc_invariant (P : FieldDescription.t → Prop)
    fields hdfFields location fileName timeOffset out :
  (∀ f, FieldDescription.fieldLocation f = location →
        Location.file (FieldDescription.location f) = fileName →
        FieldDescription.timeOffset f = timeOffset → P f) →
  Forall P fields →
  GenerateFieldsFromPetsc fields hdfFields location fileName timeOffset = Ok out →
  Forall P out.
Proof.
  intros HP Hfields. unfold GenerateFieldsFromPetsc.
  apply (foldM_invariant (Forall P)); [|done].
  intros fields1 hdfField fields2 H1 (new & -> & Hnew)%GenerateFieldFromPetsc_fields.
  apply Forall_app. split; [done|]. apply Forall_forall. intros f Hf.
  destruct (Hnew f Hf) as (_ & ? & Hloc & _ & ? & _). apply HP; [done| |done].
  by rewrite Hloc.
Qed.

Lemma fieldsOfGroup_invariant (P : FieldDescription.t → Prop)
    fields root group location hdf5File timeOffset out :
  (∀ f, FieldDescription.fieldLocation f = location →
        Location.file (FieldDescription.location f) = hdf5File →
        FieldDescription.timeOffset f = timeOffset → P f) →
  Forall P fields →
  fieldsOfGroup fields root group location hdf5File timeOffset = Ok out →
  Forall P out.
Proof.
  intros HP Hfields. unfold fieldsOfGroup.
  destruct (Hdf.Contains root group); [|by intros [= <-]].
  intros (g & _ & H)%bindR_Ok. by eapply GenerateFieldsFromPetsc_invariant.
Qed.

Lemma fieldsOfGroup_appends fields root group location hdf5File timeOffset :
  fieldsOfGroup fields root group location hdf5File timeOffset
  = let* new := fieldsOfGroup [] root group location hdf5File timeOffset in
    Ok (fields ++ new).
Proof.
  unfold fieldsOfGroup. destruct (Hdf.Contains root group); [|simpl; by rewrite app_nil_r].
  destruct (Hdf.Get root group) as [g|]; simpl; [|done].
  unfold GenerateFieldsFromPetsc.
  apply (foldM_appending
           (λ fields hdfField, GenerateFieldFromPetsc fields hdfField location hdf5File timeOffset)).
  intros acc x. apply GenerateFieldFromPetsc_appends.
Qed.

(** X22.  The grid [FromPetscHdf] makes of a mesh at one time: its fields are
    those inferred from the "vertex_fields" group, on the nodes, followed by
    those inferred from the "cell_fields" group, on the cells, all with the
    time offset and the file of the call; its time is the one given, and
    its geometry is a VECTOR on the nodes. *)
Theorem meshGrid_fields root geometryObject topologyObject hdf5File time postfix timeOffset
    gridDescription :
  meshGrid root geometryObject topologyObject hdf5File time postfix timeOffset
  = Ok gridDescription →
  ∃ vertexFields cellFields,
    fieldsOfGroup [] root ("vertex_fields" +:+ postfix) NODE hdf5File timeOffset
    = Ok vertexFields
    ∧ fieldsOfGroup [] root ("cell_fields" +:+ postfix) CELL hdf5File timeOffset
      = Ok cellFields
    ∧ GridDescription.fields gridDescription = vertexFields ++ cellFields
    ∧ Forall (λ f, FieldDescription.fieldLocation f = NODE) vertexFields
    ∧ Forall (λ f, FieldDescription.fieldLocation f = CELL) cellFields
    ∧ Forall (λ f, FieldDescription.timeOffset f = timeOffset
                   ∧ Location.file (FieldDescription.location f) = hdf5File)
        (GridDescription.fields gridDescription)
    ∧ GridDescription.time gridDescription = time
    ∧ FieldDescription.fieldLocation (GridDescription.geometry gridDescription) = NODE
    ∧ FieldDescription.fieldType (GridDescription.geometry gridDescription) = VECTOR.
Proof.
  unfold meshGrid.
  intros (verticesObject & _ & H)%bindR_Ok.
  apply bindR_Ok in H as (geometry & Hgeometry & H).
  apply bindR_Ok in H as (topology & _ & H).
  apply bindR_Ok in H as (hybridTopology & _ & H).
  apply bindR_Ok in H as (vertexFields & Hvertex & H).
  apply bindR_Ok in H as (fields & Hcell & [= <-]).
  rewrite fieldsOfGroup_appends in Hcell.
  apply bindR_Ok in Hcell as (cellFields & Hcell & [= <-]).
  exists vertexFields, cellFields. simpl.
  assert (Forall (λ f, FieldDescription.fieldLocation f = NODE
                       ∧ FieldDescription.timeOffset f = timeOffset
                       ∧ Location.file (FieldDescription.location f) = hdf5File)
            vertexFields) as Hv.
  { revert Hvertex. apply fieldsOfGroup_invariant; [by intros f ? ? ?|constructor]. }
  assert (Forall (λ f, FieldDescription.fieldLocation f = CELL
                       ∧ FieldDescription.timeOffset f = timeOffset
                       ∧ Location.file (FieldDescription.location f) = hdf5File)
            cellFields) as Hc.
  { revert Hcell. apply fieldsOfGroup_invariant; [by intros f ? ? ?|constructor]. }
  split; [done|]. split; [done|]. split; [done|].
  split; [eapply Forall_impl; [exact Hv|]; by intros f (? & ? & ?)|].
  split; [eapply Forall_impl; [exact Hc|]; by intros f (? & ? & ?)|].
  split.
  { apply Forall_app. split; (eapply Forall_impl; [eassumption|]); by intros f (? & ? & ?). }
  split; [done|].
  unfold storeGeometry in Hgeometry.
  apply bindR_Ok in Hgeometry as (d & _ & [= <-]). done.
Qed.

End Grids.

Section Particles.
Context {decl : Declarations}.

Lemma find_and_erase_Some name before g after :
  FieldDescription.name g = name →
  Forall (λ f, FieldDescription.name f ≠ name) before →
  find_and_erase name (before ++ g :: after) = Some (g, before ++ after).
Proof.
  intros Hg. induction 1 as [|f before Hf _ IH]; simpl.
  - by rewrite bool_decide_eq_true_2.
  - rewrite bool_decide_eq_false_2 by done. by rewrite IH.
Qed.

Lemma find_and_erase_None name fields :
  Forall (λ f, FieldDescription.name f ≠ name) fields →
  find_and_erase name fields = None.
Proof.
  induction 1 as [|f fields Hf _ IH]; simpl; [done|].
  rewrite bool_decide_eq_false_2 by done. by rewrite IH.
Qed.

Lemma find_and_erase_inv name fields g rest :
  find_and_erase name fields = Some (g, rest) →
  ∃ before after,
    fields = before ++ g :: after ∧ rest = before ++ after
    ∧ FieldDescription.name g = name
    ∧ Forall (λ f, FieldDescription.name f ≠ name) before.
Proof.
  revert rest. induction fields as [|f fields IH]; intros rest; simpl; [done|].
  case_bool_decide as Hf.
  - intros [= -> <-]. by exists [], fields.
  - destruct (find_and_erase name fields) as [[g' rest']|]; [|done].
    intros [= -> <-]. destruct (IH rest' eq_refl) as (before & after & -> & -> & Hg & Hbefore).
    exists (f :: before), after. repeat split; try done. by constructor.
Qed.

(** X23.  The geometry of a particle grid.  With a "particles" group it is the
    array "coordinates" of that group, and the fields stay as inferred.
    Without one it is the first inferred field named "DMSwarmPIC_coor",
    which is taken out of the fields; the others keep their order.  With
    neither, the extraction stops with the runtime error "Cannot determine
    geometry for particles".  The topology is that of a point cloud: no
    corners, as many entities as the geometry has, of its dimension. *)
Theorem particleGrid_geometry root hdf5File time timeOffset fields :
  fieldsOfGroup [] root "particle_fields" NODE hdf5File timeOffset = Ok fields →
  let pointCloud geometry :=
    TopologyDescription.mk (Location.mk "" hdf5File) (GetDof geometry) 0
      (FieldDescription.GetDimension geometry) in
  (∀ particles coordinates geometry,
     Hdf.child root "particles" = Some particles →
     Hdf.child particles "coordinates" = Some coordinates →
     storeGeometry coordinates hdf5File FieldDescription_init = Ok geometry →
     particleGrid root hdf5File time timeOffset
     = Ok (GridDescription.mk time geometry (pointCloud geometry)
             TopologyDescription_init fields))
  ∧ (∀ before geometry after,
       Hdf.child root "particles" = None →
       fields = before ++ geometry :: after →
       FieldDescription.name geometry = "DMSwarmPIC_coor" →
       Forall (λ f, FieldDescription.name f ≠ "DMSwarmPIC_coor") before →
       particleGrid root hdf5File time timeOffset
       = Ok (GridDescription.mk time geometry (pointCloud geometry)
               TopologyDescription_init (before ++ after)))
  ∧ (Hdf.child root "particles" = None →
     Forall (λ f, FieldDescription.name f ≠ "DMSwarmPIC_coor") fields →
     particleGrid root hdf5File time timeOffset
     = Err (RuntimeError "Cannot determine geometry for particles")).
Proof.
  intros Hfields pointCloud. unfold particleGrid. rewrite Hfields. simpl.
  split; [|split].
  - intros particles coordinates geometry Hp Hc Hg.
    rewrite (Contains_Some _ _ _ Hp). unfold Hdf.Get. rewrite Hp. simpl. rewrite Hc. simpl.
    by rewrite Hg.
  - intros before geometry after Hp -> Hname Hbefore.
    rewrite (Contains_None _ _ Hp).
    by rewrite (find_and_erase_Some _ _ _ _ Hname Hbefore).
  - intros Hp Hnone. rewrite (Contains_None _ _ Hp).
    by rewrite (find_and_erase_None _ _ Hnone).
Qed.

Lemma particleGrid_inv root hdf5File time timeOffset gridDescription :
  particleGrid root hdf5File time timeOffset = Ok gridDescription →
  GridDescription.time gridDescription = time
  ∧ TopologyDescription.numberCorners (GridDescription.topology gridDescription) = 0
  ∧ Location.file (TopologyDescription.location (GridDescription.topology gridDescription))
    = hdf5File
  ∧ Forall (λ f, FieldDescription.timeOffset f = timeOffset)
      (GridDescription.fields gridDescription).
Proof.
  unfold particleGrid. intros (fields & Hfields & H)%bindR_Ok.
  assert (Forall (λ f, FieldDescription.timeOffset f = timeOffset) fields) as Hoff.
  { revert Hfields. apply fieldsOfGroup_invariant; [by intros f ? ? ?|constructor]. }
  apply bindR_Ok in H as ([geometry fields'] & H & [= <-]). simpl.
  split; [done|]. split; [done|]. split; [done|].
  destruct (Hdf.Contains root "particles").
  - apply bindR_Ok in H as (p & _ & H). apply bindR_Ok in H as (co & _ & H).
    apply bindR_Ok in H as (g & _ & [= _ <-]). done.
  - destruct (find_and_erase _ fields) as [[g rest]|] eqn:E; [|done].
    injection H as -> ->.
    apply find_and_erase_inv in E as (before & after & -> & -> & _).
    apply Forall_app in Hoff as [Hb Ha]. apply Forall_cons in Ha as [_ Ha].
    apply Forall_app. done.
Qed.

End Particles.

Section TimeIndices.
Context {decl : Declarations}.

(** One round over the time values puts one grid more under each of the
    time indices 0 .. n-1 and leaves the others alone. *)
Lemma forTime_pushes (make : N → float → Result GridDescription.t) time c c' :
  forTime time
    (λ timeIndex t c,
       let* gridDescription := make timeIndex t in
       Ok (GridCollectionDescription.mk (GridCollectionDescription.name c)
             (push_back_at (GridCollectionDescription.grids c) timeIndex gridDescription)))
    c = Ok c' →
  ∀ timeIndex,
    (timeIndex < N.of_nat (length time) →
       ∃ grids, GridCollectionDescription.grids c' !! timeIndex = Some grids
                ∧ length grids
                  = Datatypes.S
                      (length (default [] (GridCollectionDescription.grids c !! timeIndex))))
    ∧ (N.of_nat (length time) ≤ timeIndex →
         GridCollectionDescription.grids c' !! timeIndex
         = GridCollectionDescription.grids c !! timeIndex).
Proof.
  apply (forTime_invariant
           (λ i c', ∀ timeIndex,
              (timeIndex < N.of_nat i →
                 ∃ grids, GridCollectionDescription.grids c' !! timeIndex = Some grids
                          ∧ length grids
                            = Datatypes.S
                                (length (default []
                                           (GridCollectionDescription.grids c !! timeIndex))))
              ∧ (N.of_nat i ≤ timeIndex →
                   GridCollectionDescription.grids c' !! timeIndex
                   = GridCollectionDescription.grids c !! timeIndex))).
  - intros k. split; [lia|done].
  - intros i t c1 c2 _ H1 (g & _ & [= <-])%bindR_Ok k. simpl. unfold push_back_at.
    destruct (H1 k) as [Hbelow Habove].
    destruct (decide (N.of_nat i = k)) as [<-|Hk].
    + rewrite lookup_insert_eq. split; [|lia]. intros _. eexists. split; [done|].
      rewrite Habove by lia. rewrite length_app. simpl. lia.
    + rewrite lookup_insert_ne by done. split; intros Hi; [apply Hbelow|apply Habove]; lia.
Qed.

Lemma uniform_round (make : N → float → Result GridDescription.t) time c c' m :
  GridCollectionDescription.grids c = ∅ ∧ m = 0%nat
  ∨ uniform (N.of_nat (length time)) m (GridCollectionDescription.grids c) →
  forTime time
    (λ timeIndex t c,
       let* gridDescription := make timeIndex t in
       Ok (GridCollectionDescription.mk (GridCollectionDescription.name c)
             (push_back_at (GridCollectionDescription.grids c) timeIndex gridDescription)))
    c = Ok c' →
  uniform (N.of_nat (length time)) (Datatypes.S m) (GridCollectionDescription.grids c').
Proof.
  intros Hc Hpush k. destruct (forTime_pushes _ _ _ _ Hpush k) as [Hbelow Habove].
  split; [split|].
  - intros Hsome. destruct (decide (k < N.of_nat (length time))) as [|Hk]; [done|].
    rewrite Habove in Hsome by lia.
    destruct Hc as [[Hempty _]|Hc].
    + rewrite Hempty, lookup_empty in Hsome. by destruct Hsome.
    + by apply Hc.
  - intros Hk. destruct (Hbelow Hk) as (grids & -> & _). by eexists.
  - intros Hk. destruct (Hbelow Hk) as (grids & -> & Hlen). simpl. rewrite Hlen. f_equal.
    destruct Hc as [[Hempty ->]|Hc].
    + by rewrite Hempty, lookup_empty.
    + by apply Hc.
Qed.

(** The time indices of the collections of a single root. *)
Lemma FromPetscHdf_uniform rootObject specification :
  FromPetscHdf rootObject = Ok specification →
  Forall (λ c, GridCollectionDescription.grids c = ∅
               ∨ ∃ time m, timeOf rootObject = Ok time
                           ∧ uniform (N.of_nat (length time)) (Datatypes.S m)
                               (GridCollectionDescription.grids c))
    specification.
Proof.
  intros (meshPart & particlePart & -> & Hmesh & Hparticles)%FromPetscHdf_inv.
  apply Forall_app. split.
  - destruct (FindPetscHdfChild rootObject "geometry") as [[geometryObject|]|];
      [|subst; constructor..].
    destruct Hmesh as (mainGrid & -> & Hmain). apply Forall_singleton.
    revert Hmain.
    apply (whileTopology_invariant
             (λ c, GridCollectionDescription.grids c = ∅
                   ∨ ∃ time m, timeOf rootObject = Ok time
                               ∧ uniform (N.of_nat (length time)) (Datatypes.S m)
                                   (GridCollectionDescription.grids c))); [|by left].
    intros topologyObject topologyIndex c c' Hc (time & Htime & H)%bindR_Ok.
    right. destruct Hc as [Hc|(time' & m & Htime' & Hc)].
    + exists time, 0%nat. split; [done|].
      eapply (uniform_round (λ timeIndex t, meshGrid _ _ _ _ t _ timeIndex)); [|exact H].
      by left.
    + exists time, (Datatypes.S m). split; [done|].
      eapply (uniform_round (λ timeIndex t, meshGrid _ _ _ _ t _ timeIndex)); [|exact H].
      right. rewrite Htime in Htime'. by injection Htime' as <-.
  - destruct (hasParticles rootObject); [|subst; constructor].
    destruct Hparticles as (time & particles & -> & Htime & H). apply Forall_singleton.
    right. exists time, 0%nat. split; [done|].
    eapply (uniform_round (λ timeIndex t, particleGrid _ _ t timeIndex)); [|exact H].
    by left.
Qed.

(** X19.  In what [FromPetscHdf] makes of a single root, a collection either
    has no time index at all, or its time indices are exactly 0 .. n-1 for
    the n time values of the root (one, the value -1, when the root has no
    "time"), and every time index leads to the same number of grids, at
    least one. *)
Theorem FromPetscHdf_time_indices rootObject specification c :
  FromPetscHdf rootObject = Ok specification →
  c ∈ specification →
  GridCollectionDescription.grids c = ∅
  ∨ ∃ time m,
      timeOf rootObject = Ok time
      ∧ (∀ timeIndex,
           is_Some (GridCollectionDescription.grids c !! timeIndex)
           ↔ timeIndex < N.of_nat (length time))
      ∧ (∀ timeIndex grids,
           GridCollectionDescription.grids c !! timeIndex = Some grids →
           length grids = Datatypes.S m).
Proof.
  intros H Hc. apply FromPetscHdf_uniform in H. rewrite Forall_forall in H.
  destruct (H c Hc) as [Hempty|(time & m & Htime & Huniform)]; [by left|right].
  exists time, m. split; [done|]. split.
  - intros k. apply Huniform.
  - intros k grids Hk. destruct (Huniform k) as [Hkey Hlen].
    rewrite <- Hlen; [by rewrite Hk|]. apply Hkey. by eexists.
Qed.

Lemma uniform_size n m (grids : gmap N (list GridDescription.t)) :
  uniform n m grids → size grids = N.to_nat n.
Proof.
  intros Huniform.
  assert ((map_to_list grids).*1 ≡ₚ range n) as Hperm.
  { apply NoDup_Permutation; [apply NoDup_fst_map_to_list|apply NoDup_range|].
    intros k. rewrite elem_of_range, <- (proj1 (Huniform k)).
    rewrite list_elem_of_fmap. split.
    - intros ([k' l] & -> & Hkl). apply elem_of_map_to_list in Hkl. by eexists.
    - intros [l Hl]. exists (k, l). split; [done|]. by apply elem_of_map_to_list. }
  rewrite <- length_map_to_list, <- (length_fmap fst), Hperm. apply length_range.
Qed.

Lemma FromPetscHdf_contiguous rootObject specification :
  FromPetscHdf rootObject = Ok specification → Forall contiguous specification.
Proof.
  intros H. eapply Forall_impl; [by apply FromPetscHdf_uniform|].
  intros c [Hempty|(time & m & _ & Huniform)] k; unfold contiguous.
  - rewrite Hempty, map_size_empty. lia.
  - rewrite (uniform_size _ _ _ Huniform). intros Hk. apply Huniform. lia.
Qed.

End TimeIndices.

Section TimeOffsets.
Context {decl : Declarations}.

Lemma meshGrid_inv root geometryObject topologyObject hdf5File time postfix timeOffset
    gridDescription :
  meshGrid root geometryObject topologyObject hdf5File time postfix timeOffset
  = Ok gridDescription →
  GridDescription.time gridDescription = time
  ∧ Location.file (TopologyDescription.location (GridDescription.topology gridDescription))
    = hdf5File
  ∧ Forall (λ f, FieldDescription.timeOffset f = timeOffset)
      (GridDescription.fields gridDescription).
Proof.
  unfold meshGrid.
  intros (verticesObject & _ & H)%bindR_Ok.
  apply bindR_Ok in H as (geometry & _ & H).
  apply bindR_Ok in H as (topology & Htopology & H).
  apply bindR_Ok in H as (hybridTopology & _ & H).
  apply bindR_Ok in H as (vertexFields & Hvertex & H).
  apply bindR_Ok in H as (fields & Hcell & [= <-]). simpl. split; [done|]. split.
  { unfold storeTopology in Htopology.
    apply bindR_Ok in Htopology as (cellObject & _ & H).
    apply bindR_Ok in H as (number & _ & H). apply bindR_Ok in H as (corners & _ & H).
    by apply bindR_Ok in H as (dimension & _ & [= <-]). }
  revert Hcell. apply fieldsOfGroup_invariant; [by intros f ? ? ?|].
  revert Hvertex. apply fieldsOfGroup_invariant; [by intros f ? ? ?|constructor].
Qed.

(** Grids pushed under a time index. *)
Lemma push_back_at_Forall (P : N → GridDescription.t → Prop) grids timeIndex gridDescription :
  (∀ k l, grids !! k = Some l → Forall (P k) l) →
  P timeIndex gridDescription →
  ∀ k l, push_back_at grids timeIndex gridDescription !! k = Some l → Forall (P k) l.
Proof.
  intros Hgrids Hg k l. unfold push_back_at.
  destruct (decide (timeIndex = k)) as [->|Hk].
  - rewrite lookup_insert_eq. intros [= <-]. apply Forall_app. split; [|by constructor].
    destruct (grids !! k) as [l0|] eqn:E; simpl; [by eapply Hgrids|constructor].
  - rewrite lookup_insert_ne by done. apply Hgrids.
Qed.

(** X20.  In what [FromPetscHdf] makes of a single root, a grid under the time
    index [k] has the [k]-th time value of the root as its time, and every
    one of its fields has the time offset [k]. *)
Theorem FromPetscHdf_time_slices rootObject specification c timeIndex grids gridDescription :
  FromPetscHdf rootObject = Ok specification →
  c ∈ specification →
  GridCollectionDescription.grids c !! timeIndex = Some grids →
  gridDescription ∈ grids →
  (∃ time, timeOf rootObject = Ok time
           ∧ time !! N.to_nat timeIndex = Some (GridDescription.time gridDescription))
  ∧ Forall (λ f, FieldDescription.timeOffset f = timeIndex)
      (GridDescription.fields gridDescription).
Proof.
  intros H Hc Hgrids Hg.
  set (P := λ (k : N) g,
         (∃ time, timeOf rootObject = Ok time
                  ∧ time !! N.to_nat k = Some (GridDescription.time g))
         ∧ Forall (λ f, FieldDescription.timeOffset f = k) (GridDescription.fields g)).
  assert (Forall (λ c, ∀ k l, GridCollectionDescription.grids c !! k = Some l → Forall (P k) l)
            specification) as Hall.
  { apply FromPetscHdf_inv in H as (meshPart & particlePart & -> & Hmesh & Hparticles).
    apply Forall_app. split.
    - destruct (FindPetscHdfChild rootObject "geometry") as [[geometryObject|]|];
        [|subst; constructor..].
      destruct Hmesh as (mainGrid & -> & Hmain). apply Forall_singleton.
      revert Hmain.
      apply (whileTopology_invariant
               (λ c, ∀ k l, GridCollectionDescription.grids c !! k = Some l → Forall (P k) l)).
      + intros topologyObject topologyIndex c1 c2 Hc1 (time & Htime & H)%bindR_Ok.
        revert H.
        apply (forTime_invariant
                 (λ _ c, ∀ k l, GridCollectionDescription.grids c !! k = Some l
                                → Forall (P k) l)); [done|].
        intros i t c3 c4 Ht Hc3 (g & Hmesh & [= <-])%bindR_Ok. simpl.
        apply push_back_at_Forall; [done|].
        apply meshGrid_inv in Hmesh as (Htg & _ & Hoff). split; [|done].
        exists time. split; [done|]. by rewrite Nat2N.id, Htg.
      + intros k l. simpl. by rewrite lookup_empty.
    - destruct (hasParticles rootObject); [|subst; constructor].
      destruct Hparticles as (time & particles & -> & Htime & H). apply Forall_singleton.
      revert H.
      apply (forTime_invariant
               (λ _ c, ∀ k l, GridCollectionDescription.grids c !! k = Some l
                              → Forall (P k) l)).
      + intros k l. simpl. by rewrite lookup_empty.
      + intros i t c3 c4 Ht Hc3 (g & Hp & [= <-])%bindR_Ok. simpl.
        apply push_back_at_Forall; [done|].
        apply particleGrid_inv in Hp as (Htg & _ & _ & Hoff). split; [|done].
        exists time. split; [done|]. by rewrite Nat2N.id, Htg. }
  rewrite Forall_forall in Hall. specialize (Hall c Hc timeIndex grids Hgrids).
  rewrite Forall_forall in Hall. by apply Hall.
Qed.

(** X21.  A root whose "time" holds no value: [FromPetscHdf] returns, with the
    collection of the mesh when the root has a mesh and the collection
    "particle_domain" when it has particles, and neither has a grid. *)
Theorem FromPetscHdf_no_time rootObject :
  timeOf rootObject = Ok [] →
  FromPetscHdf rootObject
  = Ok ((if hasMesh rootObject
         then [GridCollectionDescription.mk GridCollectionDescription_init_name ∅] else [])
        ++ (if hasParticles rootObject
            then [GridCollectionDescription.mk "particle_domain" ∅] else [])).
Proof.
  intros Htime. unfold FromPetscHdf, hasMesh, hasParticles.
  destruct (FindPetscHdfChild_defined rootObject "geometry") as [[geometryObject|] ->];
    cbn [bindR].
  - match goal with
    | |- context [whileTopology ?fuel ?root ?i ?body ?s] =>
        destruct (whileTopology_returns root body (λ c, c = s) s) as (c & -> & ->)
    end.
    + intros topologyObject topologyIndex c ->. rewrite Htime. simpl. eauto.
    + done.
    + simpl. destruct (_ || _); [|done]. by rewrite Htime.
  - destruct (_ || _); [|done]. by rewrite Htime.
Qed.

End TimeOffsets.

Section Consumer.
Context {decl : Declarations}.

Lemma updateBack_Forall (Q : GridCollectionDescription.t → Prop) f
    (gridsCollections : XdmfSpecification) :
  (∀ c, Q c → Q (f c)) →
  Forall Q gridsCollections → Forall Q (updateBack f gridsCollections).
Proof. intros Hf H. unfold updateBack. apply Forall_alter; [done|]. intros c _. apply Hf. Qed.

Lemma ensureCollection_Forall (Q : GridCollectionDescription.t → Prop)
    (gridsCollections : XdmfSpecification) :
  (∀ name, Q (GridCollectionDescription.mk name ∅)) →
  Forall Q gridsCollections → Forall Q (ensureCollection gridsCollections).
Proof. intros HQ. destruct gridsCollections; simpl; [|done]. intros _. by constructor. Qed.

Lemma foldM_invariant_elem {A S} (I : S → Prop) (body : S → A → Result S) l s s' :
  (∀ s x s', x ∈ l → I s → body s x = Ok s' → I s') →
  I s → foldM body s l = Ok s' → I s'.
Proof.
  revert s. induction l as [|x l IH]; intros s Hbody Hs; simpl.
  - by intros [= <-].
  - intros (s1 & H1 & H2)%bindR_Ok. apply (IH s1); [|by eapply Hbody; [left|..]|done].
    intros s2 y s3 Hy. apply Hbody. by right.
Qed.

(** One root of the consumer: what it adds goes under the time index that
    counts the roots, comes from that root's file and selects the time
    slice 0. *)
Lemma consumeRoot_grids (P : N → GridDescription.t → Prop) gridsCollections timeIndexCount
    hdf5Object state' :
  (∀ g time,
     timeOf hdf5Object = Ok time → GridDescription.time g ∈ time →
     Location.file (TopologyDescription.location (GridDescription.topology g))
     = Hdf.Name hdf5Object →
     Forall (λ f, FieldDescription.timeOffset f = 0) (GridDescription.fields g) →
     P timeIndexCount g) →
  Forall (λ c, ∀ k l, GridCollectionDescription.grids c !! k = Some l → Forall (P k) l)
    gridsCollections →
  consumeRoot (gridsCollections, timeIndexCount) hdf5Object = Ok state' →
  Forall (λ c, ∀ k l, GridCollectionDescription.grids c !! k = Some l → Forall (P k) l)
    state'.1.
Proof.
  intros HP Hs. unfold consumeRoot. intros (geometryObject & _ & H)%bindR_Ok.
  set (Q := λ c, ∀ k l, GridCollectionDescription.grids c !! k = Some l → Forall (P k) l) in *.
  assert (∀ name, Q (GridCollectionDescription.mk name ∅)) as Hempty.
  { intros name k l. simpl. by rewrite lookup_empty. }
  assert (∀ g c, P timeIndexCount g → Q c → Q (pushGrid timeIndexCount g c)) as Hpush.
  { intros g c Hg Hc. unfold pushGrid. intros k l. simpl. by apply push_back_at_Forall. }
  apply bindR_Ok in H as (spec1 & H1 & H).
  assert (Forall Q spec1) as Hspec1.
  { destruct geometryObject as [geometryObject|]; [|by injection H1 as <-].
    revert H1. apply (whileTopology_invariant (Forall Q));
      [|by apply ensureCollection_Forall].
    intros topologyObject topologyIndex s s' Hs' (time & Htime & H2)%bindR_Ok.
    apply bindR_Ok in H2 as (time0 & Htime0 & H2).
    apply bindR_Ok in H2 as (g & Hg & [= <-]).
    apply updateBack_Forall; [|done]. intros c. apply Hpush.
    apply meshGrid_inv in Hg as (Htg & Hfile & Hoff). apply (HP g time); [done| |done..].
    rewrite Htg. unfold at_index in Htime0.
    destruct (time !! 0%nat) as [t|] eqn:E; [|done]. injection Htime0 as <-.
    by eapply list_elem_of_lookup_2. }
  apply bindR_Ok in H as (spec2 & H2 & [= <-]). cbn [fst].
  destruct (_ || _); [|by injection H2 as <-].
  apply bindR_Ok in H2 as (time & Htime & H2).
  revert H2. apply (foldM_invariant_elem (Forall Q)).
  - intros s t s' Ht Hs' (g & Hg & [= <-])%bindR_Ok.
    apply updateBack_Forall; [|done]. intros c. apply Hpush.
    apply particleGrid_inv in Hg as (Htg & _ & Hfile & Hoff).
    apply (HP g time); [done| |done..]. by rewrite Htg.
  - apply updateBack_Forall; [|by apply ensureCollection_Forall].
    intros c Hc k l. apply Hc.
Qed.

(** X24.  In what the consumer overload returns there is one collection, and a
    grid under the time index [k] was made of the [k]-th root the consumer
    handed out: its topology names that root's file, its time is one of
    that root's time values, and every one of its fields has the time
    offset 0. *)
Theorem FromPetscHdf_consumer_indices consumer specification c timeIndex grids
    gridDescription :
  FromPetscHdf_consumer consumer = Ok specification →
  c ∈ specification →
  GridCollectionDescription.grids c !! timeIndex = Some grids →
  gridDescription ∈ grids →
  specification = [c]
  ∧ ∃ hdf5Object time,
      consumer !! N.to_nat timeIndex = Some hdf5Object
      ∧ timeOf hdf5Object = Ok time
      ∧ GridDescription.time gridDescription ∈ time
      ∧ Location.file
          (TopologyDescription.location (GridDescription.topology gridDescription))
        = Hdf.Name hdf5Object
      ∧ Forall (λ f, FieldDescription.timeOffset f = 0)
          (GridDescription.fields gridDescription).
Proof.
  unfold FromPetscHdf_consumer. intros ([spec n] & H & [= <-])%bindR_Ok Hc Hgrids Hg.
  split.
  { apply consumeRoots_counts in H as [_ Hlen].
    destruct spec as [|c0 [|c1 spec]]; simpl in Hlen; [by apply elem_of_nil in Hc| |lia].
    by apply list_elem_of_singleton in Hc as ->. }
  set (P := λ (k : N) g,
         ∃ hdf5Object time,
           consumer !! N.to_nat k = Some hdf5Object
           ∧ timeOf hdf5Object = Ok time
           ∧ GridDescription.time g ∈ time
           ∧ Location.file (TopologyDescription.location (GridDescription.topology g))
             = Hdf.Name hdf5Object
           ∧ Forall (λ f, FieldDescription.timeOffset f = 0) (GridDescription.fields g)).
  assert (∀ l done state state',
            consumer = done ++ l → state.2 = N.of_nat (length done) →
            Forall (λ c, ∀ k l, GridCollectionDescription.grids c !! k = Some l
                                → Forall (P k) l) state.1 →
            foldM consumeRoot state l = Ok state' →
            Forall (λ c, ∀ k l, GridCollectionDescription.grids c !! k = Some l
                                → Forall (P k) l) state'.1) as Hfold.
  { induction l as [|root l IH]; intros done [spec0 n0] state' Hconsumer Hn Hs;
      cbn [fst snd foldM] in *.
    - by intros [= <-].
    - intros (state1 & H1 & H2)%bindR_Ok.
      apply (IH (done ++ [root]) state1 state'); [by rewrite <- app_assoc| | |done].
      + apply consumeRoot_counts in H1 as [-> _]. cbn [snd]. rewrite length_app. simpl. lia.
      + revert H1. apply consumeRoot_grids; [|done].
        intros g time Htime Hin Hfile Hoff. exists root, time. split; [|done].
        subst. rewrite Nat2N.id. by rewrite list_lookup_middle. }
  specialize (Hfold consumer [] ([], 0) (spec, n) eq_refl eq_refl (Forall_nil_2 _) H).
  cbn [fst] in Hfold. rewrite Forall_forall in Hfold.
  specialize (Hfold c Hc timeIndex grids Hgrids).
  rewrite Forall_forall in Hfold. by apply Hfold.
Qed.

End Consumer.

(** ** [Build] on what the extractors return *)

Section Composition.
Context {decl : Declarations}.

(** X5.  [Build] after the extractors: on what either overload of
    [FromPetscHdf] returned it returns; and what the overload for a single
    root returned it leaves as it was. *)
Theorem Build_on_extracted extracted d cm tm :
  (∃ rootObject, FromPetscHdf rootObject = Ok extracted)
  ∨ (∃ consumer, FromPetscHdf_consumer consumer = Ok extracted) →
  ∃ st',
    Build (mkBuilderState extracted d cm tm) = Ok (tt, st')
    ∧ ((∃ rootObject, FromPetscHdf rootObject = Ok extracted) →
       specification st' = extracted).
Proof.
  intros H.
  assert (Forall nonEmptyGrids extracted) as Hne.
  { destruct H as [[rootObject H]|[consumer H]];
      [by eapply FromPetscHdf_nonEmpty | by eapply FromPetscHdf_consumer_nonEmpty]. }
  destruct (Build_runs extracted d cm tm Hne) as (st' & Hbuild & _).
  exists st'. split; [done|]. intros [rootObject Hroot].
  apply FromPetscHdf_contiguous in Hroot.
  by apply (Build_keeps_contiguous extracted Hroot (mkBuilderState extracted d cm tm)
              tt st').
Qed.

End Composition.


(** ** The model on the sample containers *)

Section Samples.
#[local] Existing Instance reference.

(** C1, as stated, fails.  The pair (3, 5) is not in the cell-type table,
    and [GenerateSpaceGrid] on a topology of dimension 3 with five corners
    returns: the Topology element it made has the empty string as
    TopologyType.  [Build] on a specification with that topology returns
    too. *)
Lemma GenerateSpaceGrid_unmapped_topology :
  cellMap_init !! 3 ≫= (.!! 5) = None
  ∧ (∃ st',
       GenerateSpaceGrid [0%nat] Sample.pyramids Sample.nodes "domain" Sample.atDomain
         = Ok ([0%nat; 0%nat], st')
       ∧ (Xml.elementAt [0%nat; 0%nat; 0%nat] (document st')
            ≫= λ topology, Xml.attributes topology !! "TopologyType") = Some "")
  ∧ (∃ st,
       Build (XdmfBuilder
                [GridCollectionDescription.mk "domain"
                   {[ 0 := [GridDescription.mk (-1)%float Sample.nodes Sample.pyramids
                              TopologyDescription_init []] ]}])
         = Ok (tt, st)).
Proof.
  split; [reflexivity|]. split.
  - eexists. split; vm_compute; reflexivity.
  - eexists. vm_compute. reflexivity.
Qed.

Lemma GenerateSpaceGrid_TopologyType_witness :
  ∃ st' topology,
    GenerateSpaceGrid [0%nat] Sample.tetrahedra Sample.nodes "domain" Sample.atDomain
      = Ok ([0%nat; 0%nat], st')
    ∧ Xml.elementAt [0%nat; 0%nat; 0%nat] (document st') = Some topology
    ∧ Xml.name topology = "Topology"
    ∧ Xml.attributes topology !! "TopologyType" = Some "Tetrahedron"
    ∧ answersAsInit (cellMap st').
Proof.
  apply (GenerateSpaceGrid_TopologyType [] Sample.domain cellMap_init typeMap_init
           [0%nat] (XmlNode "Domain" "" ∅ "" []) Sample.tetrahedra Sample.nodes "domain").
  - reflexivity.
  - apply answersAsInit_init.
Defined.

Lemma WriteData_output_witness :
  ∃ st',
    WriteData [0%nat] Sample.pressure Sample.atDomain = Ok ([0%nat; 0%nat], st')
    ∧ (Xml.elementAt [0%nat; 0%nat] (document st')
         ≫= λ item, Xml.attributes item !! "Dimensions") = Some "1 5 1"
    ∧ (Xml.elementAt [0%nat; 0%nat; 0%nat] (document st') ≫= λ item, Some (Xml.value item))
      = Some "2 0 0 1 1 1 1 5 1"
    ∧ (Xml.elementAt [0%nat; 0%nat; 1%nat] (document st') ≫= λ item, Some (Xml.value item))
      = Some "mesh.h5:/cell_fields/pressure".
Proof.
  eexists. split.
  - apply (WriteData_output [] Sample.domain cellMap_init typeMap_init
             [0%nat] (XmlNode "Domain" "" ∅ "" []) Sample.pressure).
    reflexivity.
  - split; [|split]; reflexivity.
Defined.

Lemma GenerateFieldFromPetsc_components_witness :
  ∃ out,
    GenerateFieldFromPetsc [] Sample.packed NODE "particles.h5" 0 = Ok out
    ∧ FieldDescription.name <$> out = ["yi0"; "yi_O2"; "yi2"; "yi3"; "yi4"]
    ∧ FieldDescription.componentOffset <$> out = [0; 1; 2; 3; 4]
    ∧ FieldDescription.componentStride <$> out = [5; 5; 5; 5; 5].
Proof.
  destruct (GenerateFieldFromPetsc_components [] Sample.packed NODE "particles.h5" 0
              (FieldDescription.mk "yi" (Location.mk "/particle_fields/yi" "particles.h5")
                 [10; 5] 0 0 1 5 NODE VECTOR false))
    as (_ & Hout & _).
  - reflexivity.
  - intros c z Hc. cbn [FieldDescription.componentDimension] in Hc.
    assert (c = 0 ∨ c = 1 ∨ c = 2 ∨ c = 3 ∨ c = 4) as Hcases by lia.
    destruct Hcases as [-> | [-> | [-> | [-> | ->]]]]; vm_compute; discriminate.
  - eexists. split; [exact Hout|]. split; [|split]; reflexivity.
Defined.

Lemma vector_field_type_downgrade_witness :
  ∃ ft,
    determineFieldType Sample.velocity CELL
      (FieldDescription.mk "velocity" (Location.mk "/cell_fields/velocity" "mesh.h5")
         [5] 0 0 1 0 CELL NONE false)
    = Ok (FieldDescription.mk "velocity" (Location.mk "/cell_fields/velocity" "mesh.h5")
            [5] 0 0 1 0 CELL ft false, false)
    ∧ ft = SCALAR.
Proof.
  destruct (vector_field_type_downgrade Sample.velocity CELL "mesh.h5" 0
              (FieldDescription.mk "velocity" (Location.mk "/cell_fields/velocity" "mesh.h5")
                 [5] 0 0 1 0 CELL NONE false) "vector")
    as (ft & Hdet & Hscalar & _).
  - reflexivity.
  - reflexivity.
  - reflexivity.
  - exists ft. split; [exact Hdet|]. apply Hscalar. split; [reflexivity|]. vm_compute. lia.
Defined.



Lemma FromPetscHdf_grids_nonempty_witness :
  ∃ specification c grids,
    FromPetscHdf Sample.mesh_only = Ok specification
    ∧ c ∈ specification
    ∧ GridCollectionDescription.grids c !! 0 = Some grids
    ∧ grids ≠ [].
Proof.
  eexists _, _, _. split; [vm_compute; reflexivity|].
  split; [by left|]. split; [reflexivity|].
  eapply (proj1 (FromPetscHdf_grids_nonempty _ _) _ 0).
  Unshelve.
  4: { left. exists Sample.mesh_only. vm_compute. reflexivity. }
  - by left.
  - reflexivity.
Defined.

(** C2 on a specification the extractor itself returns.  The first root
    holds nothing, the second a mesh: the one collection has the single
    time index 1.  [Build] then reads the map at 0, the position in the
    sorted list, finds nothing there and leaves the domain empty: the grid
    stored under 1 is not emitted.  The same mesh handed over alone sits
    under index 0 and is emitted. *)
Lemma Build_skips_noncontiguous_time_index :
  ∃ specification st alone st0,
    FromPetscHdf_consumer [Sample.nothing; Sample.mesh_only] = Ok specification
    ∧ Sample.corners specification = [("", [(1, [4])])]
    ∧ Build (XdmfBuilder specification) = Ok (tt, st)
    ∧ document st
      = XmlNode "Xdmf" preamble ∅ ""
          [XmlNode "Domain" "" (<["Name" := "domain"]> ∅) "" []]
    ∧ FromPetscHdf_consumer [Sample.mesh_only] = Ok alone
    ∧ Sample.corners alone = [("", [(0, [4])])]
    ∧ Build (XdmfBuilder alone) = Ok (tt, st0)
    ∧ (Xml.elementAt [0%nat; 0%nat] (document st0)
         ≫= λ grid, Xml.attributes grid !! "GridType") = Some "Uniform".
Proof.
  eexists _, _, _, _.
  split; [vm_compute; reflexivity|]. split; [vm_compute; reflexivity|].
  split; [vm_compute; reflexivity|]. split; [vm_compute; reflexivity|].
  split; [vm_compute; reflexivity|]. split; [vm_compute; reflexivity|].
  split; vm_compute; reflexivity.
Qed.

(** C3 on the same specification: after [Build] the collection's map has
    the time index 0, with an empty list, beside the index 1 it came with. *)
Lemma Build_inserts_time_index :
  ∃ before st,
    FromPetscHdf_consumer [Sample.nothing; Sample.mesh_only] = Ok before
    ∧ Build (XdmfBuilder before) = Ok (tt, st)
    ∧ (dom ∘ GridCollectionDescription.grids <$> before : list (gset N)) = [ {[ 1 ]} ]
    ∧ (GridCollectionDescription.grids <$> specification st)
      = (<[0 := []]> ∘ GridCollectionDescription.grids <$> before)
    ∧ specification st ≠ before.
Proof.
  eexists _, _.
  split; [vm_compute; reflexivity|]. split; [vm_compute; reflexivity|].
  split; [vm_compute; reflexivity|]. split; [vm_compute; reflexivity|].
  intros H. apply (f_equal Sample.corners) in H. vm_compute in H. discriminate.
Qed.

(** C4 on a root with a mesh and particles.  The consumer overload puts the
    mesh grid (four corners a cell) and the particle grid (no corners) into
    one collection, named "particle_domain", under the one time index; the
    counter ends at one.  The overload for a single root makes two
    collections of the same root. *)
Lemma consumer_merges_mesh_and_particles :
  ∃ merged separate,
    consumeRoots [Sample.mesh_and_particles] = Ok (merged, 1)
    ∧ Sample.corners merged = [("particle_domain", [(0, [4; 0])])]
    ∧ FromPetscHdf Sample.mesh_and_particles = Ok separate
    ∧ Sample.corners separate = [("", [(0, [4])]); ("particle_domain", [(0, [0])])].
Proof.
  eexists _, _.
  split; [vm_compute; reflexivity|]. split; [vm_compute; reflexivity|].
  split; vm_compute; reflexivity.
Qed.

(** C5 on a mesh with a "hybrid_topology" group.  Both overloads take the
    hybrid topology from the "hcells" of the "topology" group (shape 7 by 9
    here), not from the "hcells" of "hybrid_topology" (2 by 6); when
    "topology" has no "hcells" the extraction stops with the reader's
    error. *)
Lemma hybridTopology_read_from_topology_group :
  Hdf.Path Sample.hybrid_hcells = "/hybrid_topology/hcells"
  ∧ Hdf.Shape Sample.hybrid_hcells = [2; 6]
  ∧ (∃ specification,
       FromPetscHdf Sample.hybrid_mesh = Ok specification
       ∧ Sample.hybridTopologies specification
         = [TopologyDescription.mk (Location.mk "/topology/hcells" "hybrid.h5") 7 9 0])
  ∧ (∃ specification,
       FromPetscHdf_consumer [Sample.hybrid_mesh] = Ok specification
       ∧ Sample.hybridTopologies specification
         = [TopologyDescription.mk (Location.mk "/topology/hcells" "hybrid.h5") 7 9 0])
  ∧ FromPetscHdf Sample.hybrid_mesh_plain = Err (ContainerError "hcells")
  ∧ FromPetscHdf_consumer [Sample.hybrid_mesh_plain] = Err (ContainerError "hcells").
Proof.
  split; [reflexivity|]. split; [reflexivity|].
  split; [eexists; split; vm_compute; reflexivity|].
  split; [eexists; split; vm_compute; reflexivity|].
  split; vm_compute; reflexivity.
Qed.

End Samples.

(** ** The further properties on the sample containers *)

Section Scenarios.
#[local] Existing Instance reference.

Lemma WriteCells_output_witness :
  ∃ st',
    WriteCells [0%nat] Sample.tetrahedra Sample.atDomain = Ok (tt, st')
    ∧ (Xml.elementAt [0%nat; 0%nat] (document st')
         ≫= λ item, Xml.attributes item !! "Dimensions") = Some "5 4"
    ∧ (Xml.elementAt [0%nat; 0%nat] (document st') ≫= λ item, Some (Xml.value item))
      = Some "mesh.h5:/topology/cells".
Proof.
  eexists. split.
  - apply (proj1 (WriteCells_output [] Sample.domain cellMap_init typeMap_init
                    [0%nat] (XmlNode "Domain" "" ∅ "" []) Sample.tetrahedra eq_refl)).
  - split; reflexivity.
Defined.

Lemma GenerateTimeGrid_output_witness :
  ∃ st',
    GenerateTimeGrid [0%nat] [0%float; 0.5%float] Sample.atDomain = Ok ([0%nat; 0%nat], st')
    ∧ (Xml.elementAt [0%nat; 0%nat] (document st')
         ≫= λ grid, Xml.attributes grid !! "CollectionType") = Some "Temporal"
    ∧ (Xml.elementAt [0%nat; 0%nat; 0%nat; 0%nat] (document st')
         ≫= λ item, Xml.attributes item !! "Dimensions") = Some "2".
Proof.
  eexists. split.
  - apply (proj1 (GenerateTimeGrid_output [] Sample.domain cellMap_init typeMap_init
                    [0%nat] (XmlNode "Domain" "" ∅ "" []) [0%float; 0.5%float] eq_refl)).
  - split; reflexivity.
Defined.

Lemma GenerateSpatialGrid_output_witness :
  ∃ st' st'',
    GenerateSpatialGrid [0%nat] "domain" "Spatial" Sample.atDomain = Ok ([0%nat; 0%nat], st')
    ∧ (Xml.elementAt [0%nat; 0%nat] (document st')
         ≫= λ grid, Xml.attributes grid !! "CollectionType") = Some "Spatial"
    ∧ GenerateSpatialGrid [0%nat] "domain" "" Sample.atDomain = Ok ([0%nat; 0%nat], st'')
    ∧ (Xml.elementAt [0%nat; 0%nat] (document st'')
         ≫= λ grid, Xml.attributes grid !! "CollectionType") = None.
Proof.
  eexists _, _. split; [|split; [|split]].
  - apply (proj1 (GenerateSpatialGrid_output [] Sample.domain cellMap_init typeMap_init
                    [0%nat] (XmlNode "Domain" "" ∅ "" []) "domain" "Spatial" eq_refl)).
  - reflexivity.
  - apply (proj1 (GenerateSpatialGrid_output [] Sample.domain cellMap_init typeMap_init
                    [0%nat] (XmlNode "Domain" "" ∅ "" []) "domain" "" eq_refl)).
  - reflexivity.
Defined.

Lemma GenerateSpaceGrid_output_witness :
  ∃ st' topology cells,
    GenerateSpaceGrid [0%nat] Sample.tetrahedra Sample.nodes "domain" Sample.atDomain
    = Ok ([0%nat; 0%nat], st')
    ∧ Xml.elementAt [0%nat; 0%nat; 0%nat] (document st') = Some topology
    ∧ Xml.name topology = "Topology"
    ∧ Xml.attributes topology !! "TopologyType" = Some "Tetrahedron"
    ∧ Xml.attributes topology !! "NodesPerElement" = None
    ∧ Xml.attributes topology !! "NumberOfElements" = Some "5"
    ∧ Xml.children topology = [cells]
    ∧ Xml.attributes cells !! "Dimensions" = Some "5 4".
Proof.
  pose proof (GenerateSpaceGrid_output [] Sample.domain cellMap_init typeMap_init
                [0%nat] (XmlNode "Domain" "" ∅ "" []) Sample.tetrahedra Sample.nodes "domain"
                eq_refl) as Hrun.
  cbv zeta in Hrun. destruct Hrun as (Hrun & _).
  eexists _, _, _. split; [exact Hrun|].
  split; [vm_compute; reflexivity|].
  repeat split; vm_compute; reflexivity.
Defined.

Lemma WriteField_output_witness :
  ∃ st',
    WriteField [0%nat] Sample.pressure Sample.atDomain = Ok (tt, st')
    ∧ (Xml.elementAt [0%nat; 0%nat] (document st')
         ≫= λ attribute, Xml.attributes attribute !! "Type") = Some "Scalar"
    ∧ (Xml.elementAt [0%nat; 0%nat] (document st')
         ≫= λ attribute, Xml.attributes attribute !! "Center") = Some "Cell".
Proof.
  eexists. split.
  - apply (proj1 (WriteField_output [] Sample.domain cellMap_init typeMap_init
                    [0%nat] (XmlNode "Domain" "" ∅ "" []) Sample.pressure eq_refl)).
  - split; reflexivity.
Defined.

Lemma Build_document_witness :
  ∃ specification,
    FromPetscHdf Scenario.series = Ok specification
    ∧ (∃ cm' tm',
         Build (XdmfBuilder specification)
         = Ok (tt, mkBuilderState specification
                     (xdmfDocument cellMap_init typeMap_init specification) cm' tm'))
    ∧ (Xml.elementAt [0%nat; 0%nat] (xdmfDocument cellMap_init typeMap_init specification)
         ≫= λ grid, Xml.attributes grid !! "Name") = Some "TimeSeries"
    ∧ (Xml.elementAt [0%nat; 0%nat; 2%nat; 2%nat]
         (xdmfDocument cellMap_init typeMap_init specification)
         ≫= λ attribute, Xml.attributes attribute !! "Name") = Some "displacement"
    ∧ (Xml.elementAt [0%nat; 0%nat; 2%nat; 3%nat]
         (xdmfDocument cellMap_init typeMap_init specification)
         ≫= λ attribute, Xml.attributes attribute !! "Name") = Some "pressure".
Proof.
  eexists. split; [vm_compute; reflexivity|]. split.
  - lazymatch goal with
    | |- ∃ cm' tm', Build (XdmfBuilder ?specification) = _ =>
        destruct (Build_document specification (XmlNode "" "" ∅ "" [])
                    cellMap_init typeMap_init)
          as (cm' & tm' & Hbuild & _);
          [ apply (FromPetscHdf_contiguous Scenario.series); vm_compute; reflexivity
          | apply (FromPetscHdf_nonEmpty Scenario.series); vm_compute; reflexivity
          | ]
    end.
    exists cm', tm'. exact Hbuild.
  - split; [|split]; vm_compute; reflexivity.
Defined.

Lemma Build_returns_witness :
  ∃ extracted,
    FromPetscHdf_consumer [Sample.nothing; Sample.mesh_only] = Ok extracted
    ∧ ∃ st' domain,
        Build (XdmfBuilder extracted) = Ok (tt, st')
        ∧ length (specification st') = length extracted
        ∧ Xml.name (document st') = "Xdmf"
        ∧ Xml.preamble (document st') = preamble
        ∧ Xml.children (document st') !! 0%nat = Some domain
        ∧ Xml.name domain = "Domain".
Proof.
  eexists. split; [vm_compute; reflexivity|].
  lazymatch goal with
  | |- ∃ st' domain, Build (XdmfBuilder ?extracted) = _ ∧ _ =>
      apply (Build_returns (XdmfBuilder extracted))
  end.
  apply (FromPetscHdf_consumer_nonEmpty [Sample.nothing; Sample.mesh_only]).
  vm_compute. reflexivity.
Defined.

Lemma Build_adds_only_empty_witness :
  ∃ extracted st',
    FromPetscHdf_consumer [Sample.nothing; Sample.mesh_only] = Ok extracted
    ∧ Build (XdmfBuilder extracted) = Ok (tt, st')
    ∧ Forall2 extendsByEmpty extracted (specification st').
Proof.
  eexists _, _. split; [vm_compute; reflexivity|].
  lazymatch goal with
  | |- Build ?st = Ok (tt, ?st') ∧ _ =>
      assert (Build st = Ok (tt, st')) as Hbuild by (vm_compute; reflexivity)
  end.
  split; [exact Hbuild|]. exact (Build_adds_only_empty _ _ Hbuild).
Defined.

Lemma Build_cellMap_answers_witness :
  ∃ st',
    Build (XdmfBuilder [GridCollectionDescription.mk "domain" {[ 0 := [Scenario.pyramidal] ]}])
    = Ok (tt, st')
    ∧ cellMap st' ≠ cellMap_init
    ∧ answersAsInit (cellMap st').
Proof.
  eexists.
  lazymatch goal with
  | |- Build ?st = Ok (tt, ?st') ∧ _ =>
      assert (Build st = Ok (tt, st')) as Hbuild by (vm_compute; reflexivity);
      pose proof (Build_cellMap_answers st _ answersAsInit_init Hbuild) as Hanswers
  end.
  split; [exact Hbuild|]. split; [|exact Hanswers].
  intros H. apply (f_equal (λ table, table !! 3 ≫= (.!! 5))) in H.
  vm_compute in H. discriminate.
Defined.

Lemma Build_on_extracted_witness :
  ∃ extracted st',
    FromPetscHdf Scenario.series = Ok extracted
    ∧ Build (XdmfBuilder extracted) = Ok (tt, st')
    ∧ specification st' = extracted.
Proof.
  assert (∃ extracted, FromPetscHdf Scenario.series = Ok extracted)
    as [extracted Hextract] by (eexists; vm_compute; reflexivity).
  destruct (Build_on_extracted extracted (XmlNode "" "" ∅ "" []) cellMap_init typeMap_init)
    as (st' & Hbuild & Hsame).
  { left. by exists Scenario.series. }
  exists extracted, st'. split; [exact Hextract|]. split; [exact Hbuild|].
  apply Hsame. by exists Scenario.series.
Defined.

Lemma GenerateFieldsFromPetsc_fields_witness :
  ∃ out,
    GenerateFieldsFromPetsc [] [Sample.packed; Sample.coordinates] NODE "swarm.h5" 3 = Ok out
    ∧ length out = 6%nat
    ∧ ∀ f, f ∈ out →
        FieldDescription.fieldType f ≠ NONE
        ∧ FieldDescription.timeOffset f = 3
        ∧ FieldDescription.componentOffset f < FieldDescription.componentStride f.
Proof.
  assert (∃ out, GenerateFieldsFromPetsc [] [Sample.packed; Sample.coordinates]
                   NODE "swarm.h5" 3 = Ok out ∧ length out = 6%nat)
    as (out & Hout & Hlength) by (eexists; split; vm_compute; reflexivity).
  exists out. split; [exact Hout|]. split; [exact Hlength|].
  destruct (GenerateFieldsFromPetsc_fields _ _ _ _ _ _ Hout) as (new & -> & Hnew).
  intros f Hf. destruct (Hnew f Hf) as (Htype & _ & _ & _ & Hoffset & Hstride & _).
  split; [exact Htype|]. split; [exact Hoffset|exact Hstride].
Defined.

Lemma GenerateFieldsFromPetsc_undetermined_witness :
  GenerateFieldsFromPetsc [] [Sample.velocity; Scenario.mystery; Scenario.spinor]
    CELL "mesh.h5" 0
  = Err (RuntimeError "Cannot determine field type for mystery").
Proof.
  apply (GenerateFieldsFromPetsc_undetermined [] [Sample.velocity] Scenario.mystery
           [Scenario.spinor] CELL "mesh.h5" 0
           (FieldDescription.mk "mystery" (Location.mk "/cell_fields/mystery" "mesh.h5")
              [5; 1] 0 0 1 0 CELL NONE false)
           [FieldDescription.mk "velocity" (Location.mk "/cell_fields/velocity" "mesh.h5")
              [5; 1] 0 0 1 1 CELL SCALAR false]).
  - reflexivity.
  - reflexivity.
  - reflexivity.
  - reflexivity.
Defined.

Lemma scalar_field_axis_witness :
  GenerateFieldFromPetsc [] Scenario.pressure CELL "series.h5" 1
  = Ok [FieldDescription.mk "pressure" (Location.mk "/cell_fields/pressure" "series.h5")
          [2; 5; 1] 1 0 1 1 CELL SCALAR true].
Proof.
  destruct (scalar_field_axis [] Scenario.pressure CELL "series.h5" 1
              (FieldDescription.mk "pressure" (Location.mk "/cell_fields/pressure" "series.h5")
                 [2; 5] 1 0 1 0 CELL NONE true))
    as (Haxis & _).
  - reflexivity.
  - reflexivity.
  - apply Haxis. right. reflexivity.
Defined.

Lemma unknown_vector_field_type_dropped_witness :
  GenerateFieldFromPetsc [] Scenario.spinor CELL "mesh.h5" 0 = Ok [].
Proof.
  destruct (unknown_vector_field_type_dropped [] Scenario.spinor CELL "mesh.h5" 0
              (FieldDescription.mk "spinor" (Location.mk "/cell_fields/spinor" "mesh.h5")
                 [5; 2] 0 0 1 0 CELL NONE false) "spinor")
    as (Hdropped & _).
  - reflexivity.
  - reflexivity.
  - reflexivity.
  - apply Hdropped. vm_compute. lia.
Defined.

Lemma FromPetscHdf_collections_witness :
  ∃ specification,
    FromPetscHdf Sample.mesh_and_particles = Ok specification
    ∧ GridCollectionDescription.name <$> specification = [""; "particle_domain"].
Proof.
  assert (∃ specification, FromPetscHdf Sample.mesh_and_particles = Ok specification)
    as [specification Hextract] by (eexists; vm_compute; reflexivity).
  exists specification. split; [exact Hextract|].
  rewrite (FromPetscHdf_collections _ _ Hextract). reflexivity.
Defined.

Lemma FromPetscHdf_time_indices_witness :
  ∃ specification c,
    FromPetscHdf Scenario.series = Ok specification
    ∧ specification = [c]
    ∧ (GridCollectionDescription.grids c = ∅
       ∨ ∃ time m,
           timeOf Scenario.series = Ok time
           ∧ (∀ timeIndex,
                is_Some (GridCollectionDescription.grids c !! timeIndex)
                ↔ timeIndex < N.of_nat (length time))
           ∧ (∀ timeIndex grids,
                GridCollectionDescription.grids c !! timeIndex = Some grids →
                length grids = Datatypes.S m))
    ∧ dom (GridCollectionDescription.grids c) = ({[ 0; 1 ]} : gset N).
Proof.
  eexists _, _. split; [vm_compute; reflexivity|]. split; [reflexivity|]. split.
  - eapply (FromPetscHdf_time_indices Scenario.series); [vm_compute; reflexivity|].
    apply list_elem_of_here.
  - vm_compute. reflexivity.
Defined.

Lemma FromPetscHdf_time_slices_witness :
  ∃ specification c grids gridDescription,
    FromPetscHdf Scenario.series = Ok specification
    ∧ specification = [c]
    ∧ GridCollectionDescription.grids c !! 1 = Some grids
    ∧ grids = [gridDescription]
    ∧ (∃ time, timeOf Scenario.series = Ok time
               ∧ time !! 1%nat = Some (GridDescription.time gridDescription))
    ∧ Forall (λ f, FieldDescription.timeOffset f = 1) (GridDescription.fields gridDescription)
    ∧ GridDescription.time gridDescription = 0.5%float.
Proof.
  eexists _, _, _, _. split; [vm_compute; reflexivity|]. split; [reflexivity|].
  split; [vm_compute; reflexivity|]. split; [reflexivity|].
  lazymatch goal with
  | |- ?A ∧ ?B ∧ _ => assert (A ∧ B) as [Htime Hoffsets]
  end.
  - eapply (FromPetscHdf_time_slices Scenario.series _ _ 1).
    + vm_compute. reflexivity.
    + apply list_elem_of_here.
    + vm_compute. reflexivity.
    + apply list_elem_of_here.
  - split; [exact Htime|]. split; [exact Hoffsets|reflexivity].
Defined.

Lemma FromPetscHdf_no_time_witness :
  hasMesh Scenario.timeless = true
  ∧ hasParticles Scenario.timeless = false
  ∧ FromPetscHdf Scenario.timeless = Ok [GridCollectionDescription.mk "" ∅].
Proof.
  split; [reflexivity|]. split; [reflexivity|].
  exact (FromPetscHdf_no_time Scenario.timeless eq_refl).
Defined.

Lemma meshGrid_fields_witness :
  ∃ gridDescription vertexFields cellFields,
    meshGrid Scenario.series Sample.geometry Sample.topology "series.h5" 0.5%float "" 1
    = Ok gridDescription
    ∧ GridDescription.fields gridDescription = vertexFields ++ cellFields
    ∧ FieldDescription.name <$> vertexFields = ["displacement"]
    ∧ FieldDescription.name <$> cellFields = ["pressure"]
    ∧ Forall (λ f, FieldDescription.fieldLocation f = NODE) vertexFields
    ∧ Forall (λ f, FieldDescription.fieldLocation f = CELL) cellFields.
Proof.
  assert (∃ gridDescription,
            meshGrid Scenario.series Sample.geometry Sample.topology "series.h5"
              0.5%float "" 1 = Ok gridDescription)
    as [gridDescription Hgrid] by (eexists; vm_compute; reflexivity).
  destruct (meshGrid_fields _ _ _ _ _ _ _ _ Hgrid)
    as (vertexFields & cellFields & Hvertex & Hcell & Hfields & Hnode & Hcells & _).
  exists gridDescription, vertexFields, cellFields.
  split; [exact Hgrid|]. split; [exact Hfields|].
  split; [|split; [|split; [exact Hnode|exact Hcells]]].
  - vm_compute in Hvertex. by injection Hvertex as <-.
  - vm_compute in Hcell. by injection Hcell as <-.
Defined.

Lemma particleGrid_geometry_witness :
  ∃ gridDescription,
    particleGrid Scenario.swarm "swarm.h5" (-1)%float 0 = Ok gridDescription
    ∧ FieldDescription.name (GridDescription.geometry gridDescription) = "DMSwarmPIC_coor"
    ∧ FieldDescription.name <$> GridDescription.fields gridDescription
      = ["yi0"; "yi_O2"; "yi2"; "yi3"; "yi4"]
    ∧ TopologyDescription.numberCorners (GridDescription.topology gridDescription) = 0
    ∧ particleGrid Scenario.lost "lost.h5" (-1)%float 0
      = Err (RuntimeError "Cannot determine geometry for particles").
Proof.
  assert (∃ fields coordinates,
            fieldsOfGroup [] Scenario.swarm "particle_fields" NODE "swarm.h5" 0
            = Ok (fields ++ [coordinates])
            ∧ FieldDescription.name <$> fields = ["yi0"; "yi_O2"; "yi2"; "yi3"; "yi4"]
            ∧ FieldDescription.name coordinates = "DMSwarmPIC_coor")
    as (fields & coordinates & Hfields & Hnames & Hname).
  { eexists [_; _; _; _; _], _. split; [vm_compute; reflexivity|]. split; reflexivity. }
  assert (∃ fields, fieldsOfGroup [] Scenario.lost "particle_fields" NODE "lost.h5" 0
                    = Ok fields
                    ∧ FieldDescription.name <$> fields = ["yi0"; "yi_O2"; "yi2"; "yi3"; "yi4"])
    as (others & Hothers & Hothernames).
  { eexists. split; vm_compute; reflexivity. }
  eexists. split; [|split; [|split; [|split]]].
  - apply (proj1 (proj2 (particleGrid_geometry Scenario.swarm "swarm.h5" (-1)%float 0
                           _ Hfields)) fields coordinates []).
    + reflexivity.
    + reflexivity.
    + exact Hname.
    + assert (Forall (λ name, name ≠ "DMSwarmPIC_coor") (FieldDescription.name <$> fields))
        as Hnone by (rewrite Hnames; by repeat constructor).
      rewrite Forall_forall in Hnone. apply Forall_forall. intros f Hf.
      apply Hnone. by apply list_elem_of_fmap_2.
  - exact Hname.
  - simpl. by rewrite app_nil_r.
  - reflexivity.
  - apply (proj2 (proj2 (particleGrid_geometry Scenario.lost "lost.h5" (-1)%float 0
                           _ Hothers))).
    + reflexivity.
    + assert (Forall (λ name, name ≠ "DMSwarmPIC_coor") (FieldDescription.name <$> others))
        as Hnone by (rewrite Hothernames; by repeat constructor).
      rewrite Forall_forall in Hnone. apply Forall_forall. intros f Hf.
      apply Hnone. by apply list_elem_of_fmap_2.
Defined.

Lemma FromPetscHdf_consumer_indices_witness :
  ∃ specification c grids gridDescription,
    FromPetscHdf_consumer [Sample.nothing; Sample.mesh_only] = Ok specification
    ∧ specification = [c]
    ∧ GridCollectionDescription.grids c !! 1 = Some grids
    ∧ grids = [gridDescription]
    ∧ ∃ hdf5Object time,
        [Sample.nothing; Sample.mesh_only] !! N.to_nat 1 = Some hdf5Object
        ∧ timeOf hdf5Object = Ok time
        ∧ GridDescription.time gridDescription ∈ time
        ∧ Location.file
            (TopologyDescription.location (GridDescription.topology gridDescription))
          = Hdf.Name hdf5Object
        ∧ Forall (λ f, FieldDescription.timeOffset f = 0)
            (GridDescription.fields gridDescription).
Proof.
  assert (∃ c gridDescription,
            FromPetscHdf_consumer [Sample.nothing; Sample.mesh_only] = Ok [c]
            ∧ GridCollectionDescription.grids c !! 1 = Some [gridDescription])
    as (c & gridDescription & Hextract & Hgrids)
    by (eexists _, _; split; vm_compute; reflexivity).
  destruct (FromPetscHdf_consumer_indices [Sample.nothing; Sample.mesh_only] [c] c 1
              [gridDescription] gridDescription Hextract (list_elem_of_here _ _) Hgrids
              (list_elem_of_here _ _))
    as [_ Hroot].
  exists [c], c, [gridDescription], gridDescription.
  split; [exact Hextract|]. split; [reflexivity|]. split; [exact Hgrids|].
  split; [reflexivity|exact Hroot].
Defined.

End Scenarios.
